(** * Fortnite shop bot: a shallow embedding of [bot/bot.py]

    The development follows the layout of the Python class
    [FortniteShopBot]: currency conversion and price formatting, rarity
    classification, the fetch gateway, flattening, the text views
    (shop, statistics, top, search, exchange rate), the button
    dispatcher and the nightly job.

    Values coming from the JSON document stay dynamically typed
    ([value]); an operation that can raise in Python returns a
    [result].  Floating point is binary64, computed exactly on
    integers ([F64]).  Handlers run in a small state monad over the
    bot's cache and the list of calls made to the outside ([io]); a
    call to Telegram returns or raises as the instance of [Telegram]
    in force decides.

    Services of the Python runtime that the bot only calls -- the
    Unicode tables behind [str.lower], the clock, [strptime], [str()]
    of a value that is not a string, [random.choice], and the outcome
    of sorting keys that are not integers -- are the fields of the
    record [runtime] and stay abstract; [ascii_runtime] is an instance
    that agrees with Python on ASCII text. *)

From Stdlib Require Import String Ascii ZArith List Lia Bool Permutation Sorted.
From Stdlib Require Import DecimalString.
Import ListNotations.
Local Open Scope string_scope.
Local Open Scope Z_scope.

(** ** Strings

    A Python [str] is represented by its UTF-8 encoding.  Substring
    search and replacement of ASCII characters commute with the encoding,
    so they are done on bytes. *)
Module Str.

(** [needle in hay] *)
Fixpoint contains (needle hay : string) : bool :=
  String.prefix needle hay ||
  match hay with
  | EmptyString => false
  | String _ rest => contains needle rest
  end.

(** [s.replace(a, b)] for one-character ASCII [a] and [b]. *)
Fixpoint replace (a b : ascii) (s : string) : string :=
  match s with
  | EmptyString => EmptyString
  | String c rest =>
      String (if Ascii.eqb c a then b else c) (replace a b rest)
  end.

(** A byte [10xxxxxx] continues a code point. *)
Definition is_continuation (c : ascii) : bool :=
  let n := N_of_ascii c in (128 <=? n)%N && (n <? 192)%N.

(** [len(s)]: the number of code points. *)
Fixpoint len (s : string) : Z :=
  match s with
  | EmptyString => 0
  | String c rest => (if is_continuation c then 0 else 1) + len rest
  end.

(** Splits off the continuation bytes at the head of [s]. *)
Fixpoint span_continuation (s : string) : string * string :=
  match s with
  | String c rest =>
      if is_continuation c
      then let '(a, b) := span_continuation rest in (String c a, b)
      else (EmptyString, s)
  | EmptyString => (EmptyString, EmptyString)
  end.

(** [list(s)]: the characters of [s], each one as a string. *)
Fixpoint chars_fuel (fuel : nat) (s : string) : list string :=
  match fuel, s with
  | S fuel', String c rest =>
      let '(tail, rest') := span_continuation rest in
      String c tail :: chars_fuel fuel' rest'
  | _, _ => []
  end.

Definition chars (s : string) : list string :=
  chars_fuel (String.length s) s.

(** [s[:n]] for [n >= 0]. *)
Definition take (n : nat) (s : string) : string :=
  String.concat "" (firstn n (chars s)).

(** ASCII lower-casing; bytes of non-ASCII characters are kept. *)
Definition lower_ascii (c : ascii) : ascii :=
  let n := N_of_ascii c in
  if (65 <=? n)%N && (n <=? 90)%N then ascii_of_N (n + 32) else c.

Fixpoint ascii_lower (s : string) : string :=
  match s with
  | EmptyString => EmptyString
  | String c rest => String (lower_ascii c) (ascii_lower rest)
  end.

(** [str(n)] for an integer. *)
Definition of_Z (n : Z) : string := NilZero.string_of_int (Z.to_int n).

(** Inserts [','] between groups of three digits, counted from the
    right; [k] is the number of digits of [s]. *)
Fixpoint group3 (s : string) : string :=
  match s with
  | EmptyString => EmptyString
  | String c rest =>
      let k := String.length rest in
      if (Nat.eqb (Nat.modulo k 3) 0) && negb (Nat.eqb k 0)
      then String c (String "," (group3 rest))
      else String c (group3 rest)
  end.

(** [f"{n:,}"] *)
Definition of_Z_grouped (n : Z) : string :=
  (if n <? 0 then "-" else "") ++ group3 (of_Z (Z.abs n)).

(** Decimal digits of [n >= 0], left-padded with zeros to [width]. *)
Fixpoint pad_left (width : nat) (s : string) : string :=
  if Nat.ltb (String.length s) width
  then match width with
       | O => s
       | S w => String "0" (pad_left w s)
       end
  else s.

End Str.


(** ** Python values and exceptions *)

(** A parsed JSON document.  JSON numbers with a fraction are not
    represented; the keys of a [VDict] are distinct. *)
#[local] Set Warnings "-register-all".
Inductive value : Type :=
| VNone
| VBool (b : bool)
| VInt (n : Z)
| VStr (s : string)
| VList (l : list value)
| VDict (d : list (string * value)).

Inductive exn : Type :=
| AttributeError
| TypeError
| KeyError
| OverflowError
| ZeroDivisionError
| TelegramError.                 (* telegram.error.TelegramError *)

Inductive result (A : Type) : Type :=
| Ok (a : A)
| Raise (e : exn).
Arguments Ok {A} a.
Arguments Raise {A} e.

Definition bind {A B : Type} (r : result A) (k : A -> result B) : result B :=
  match r with
  | Ok a => k a
  | Raise e => Raise e
  end.

Notation "x <- r ;; k" := (bind r (fun x => k))
  (at level 61, r at next level, right associativity).

(** A [for] loop whose body may raise, threading the accumulator. *)
Fixpoint for_each {A S : Type} (xs : list A) (acc : S)
    (body : S -> A -> result S) : result S :=
  match xs with
  | [] => Ok acc
  | x :: rest => acc' <- body acc x ;; for_each rest acc' body
  end.

(** [map] with a function that may raise, left to right. *)
Fixpoint map_result {A B : Type} (f : A -> result B) (xs : list A)
    : result (list B) :=
  match xs with
  | [] => Ok []
  | x :: rest => y <- f x ;; ys <- map_result f rest ;; Ok (y :: ys)
  end.

Module Py.

Fixpoint lookup (k : string) (d : list (string * value)) : option value :=
  match d with
  | [] => None
  | (k', v) :: rest => if String.eqb k k' then Some v else lookup k rest
  end.

(** [x.get(k, default)] *)
Definition get (x : value) (k : string) (default : value) : result value :=
  match x with
  | VDict d => Ok (match lookup k d with Some v => v | None => default end)
  | _ => Raise AttributeError
  end.

Definition is_str (k : string) (v : value) : bool :=
  match v with
  | VStr s => String.eqb k s
  | _ => false
  end.

(** [k in x] for a string [k]: key of a dict, element of a list,
    substring of a string. *)
Definition contains (k : string) (x : value) : result bool :=
  match x with
  | VDict d => Ok (match lookup k d with Some _ => true | None => false end)
  | VList l => Ok (existsb (is_str k) l)
  | VStr s => Ok (Str.contains k s)
  | VNone | VBool _ | VInt _ => Raise TypeError
  end.

(** [x[k]] for a string [k]. *)
Definition item (x : value) (k : string) : result value :=
  match x with
  | VDict d =>
      match lookup k d with
      | Some v => Ok v
      | None => Raise KeyError
      end
  | _ => Raise TypeError
  end.

(** The elements [for e in x] visits: those of a list, the keys of a
    dict, the characters of a string. *)
Definition iter (x : value) : result (list value) :=
  match x with
  | VList l => Ok l
  | VDict d => Ok (map (fun kv => VStr (fst kv)) d)
  | VStr s => Ok (map VStr (Str.chars s))
  | VNone | VBool _ | VInt _ => Raise TypeError
  end.

(** Truth value of [x] in a condition. *)
Definition truthy (x : value) : bool :=
  match x with
  | VNone => false
  | VBool b => b
  | VInt n => negb (n =? 0)
  | VStr s => negb (String.eqb s "")
  | VList l => match l with [] => false | _ => true end
  | VDict d => match d with [] => false | _ => true end
  end.

(** The integer behind an [int] or a [bool]; arithmetic on anything
    else in the document raises [TypeError]. *)
Definition as_int (x : value) : result Z :=
  match x with
  | VInt n => Ok n
  | VBool b => Ok (if b then 1 else 0)
  | _ => Raise TypeError
  end.

(** Lists and dicts are not hashable. *)
Definition hashable (x : value) : bool :=
  match x with
  | VList _ | VDict _ => false
  | _ => true
  end.

(** Equality of two hashable values as dictionary keys: [True] and [1]
    are the same key. *)
Definition key_eqb (x y : value) : bool :=
  match x, y with
  | VNone, VNone => true
  | VStr a, VStr b => String.eqb a b
  | (VInt _ | VBool _), (VInt _ | VBool _) =>
      match as_int x, as_int y with
      | Ok a, Ok b => a =? b
      | _, _ => false
      end
  | _, _ => false
  end.

End Py.

(** ** Binary64 floating point

    A finite double is [(-1)^neg * man * 2^exp]; every operation rounds
    the exact rational result to the nearest double, ties to even. *)
Module F64.

Record t : Type := mk { neg : bool; man : Z; exp : Z }.

(** [a / b] rounded to the nearest integer, ties to even ([a >= 0],
    [b > 0]). *)
Definition rne_div (a b : Z) : Z :=
  let q := a / b in
  let r := a mod b in
  if 2 * r <? b then q
  else if b <? 2 * r then q + 1
  else if Z.even q then q else q + 1.

(** [floor (log2 (num / den))] for [num, den > 0]. *)
Definition ilog2_rat (num den : Z) : Z :=
  let a := Z.log2 num in
  let b := Z.log2 den in
  if b <=? a
  then if den * 2 ^ (a - b) <=? num then a - b else a - b - 1
  else if den <=? num * 2 ^ (b - a) then a - b else a - b - 1.

(** The double nearest to [num / den] ([num >= 0], [den > 0]), with 53
    bits of mantissa and exponents from [-1074]. *)
Definition round_rat (sign : bool) (num den : Z) : t :=
  if num =? 0 then mk sign 0 0
  else
    let e := Z.max (ilog2_rat num den - 52) (-1074) in
    let m := if 0 <=? e
             then rne_div num (den * 2 ^ e)
             else rne_div (num * 2 ^ (- e)) den in
    mk sign m e.

(** The magnitude is at least [2^1024]: not a finite double. *)
Definition too_large (x : t) : bool :=
  (0 <=? exp x) && (2 ^ 1024 <=? man x * 2 ^ exp x).

(** [float(n)] *)
Definition of_int (n : Z) : result t :=
  let x := round_rat (n <? 0) (Z.abs n) 1 in
  if too_large x then Raise OverflowError else Ok x.

(** [a / b] on integers. *)
Definition truediv (a b : Z) : result t :=
  if b =? 0 then Raise ZeroDivisionError
  else
    let x := round_rat (xorb (a <? 0) (b <? 0)) (Z.abs a) (Z.abs b) in
    if too_large x then Raise OverflowError else Ok x.

(** [x * y] for finite doubles whose product is finite. *)
Definition mul (x y : t) : t :=
  let m := man x * man y in
  let e := exp x + exp y in
  if 0 <=? e
  then round_rat (xorb (neg x) (neg y)) (m * 2 ^ e) 1
  else round_rat (xorb (neg x) (neg y)) m (2 ^ (- e)).

(** [|x| * 10^digits] rounded to an integer, ties to even. *)
Definition scaled (digits : nat) (x : t) : Z :=
  let p := 10 ^ Z.of_nat digits in
  if 0 <=? exp x
  then man x * 2 ^ exp x * p
  else rne_div (man x * p) (2 ^ (- exp x)).

(** [round(x, digits)]: the double nearest to the decimal with
    [digits] places nearest to [x]. *)
Definition round (x : t) (digits : nat) : t :=
  round_rat (neg x) (scaled digits x) (10 ^ Z.of_nat digits).

(** [f"{x:.{digits}f}"] for [digits > 0]. *)
Definition format_fixed (digits : nat) (x : t) : string :=
  let p := 10 ^ Z.of_nat digits in
  let n := scaled digits x in
  (if neg x then "-" else "") ++ Str.of_Z (n / p) ++ "."
  ++ Str.pad_left digits (Str.of_Z (n mod p)).

End F64.

(** ** The Python runtime, as far as the bot calls it *)
Record runtime : Type := {
  (** [s.lower()] *)
  str_lower : string -> string;
  (** [str(v)] for a [v] that is not a string *)
  py_str : value -> string;
  (** [datetime.now().strftime("%Y-%m-%d")] *)
  now_ymd : string;
  (** [datetime.now().strftime("%d.%m.%Y")] *)
  now_dmy : string;
  (** [datetime.now().strftime("%d.%m.%Y %H:%M")] *)
  now_dmy_hm : string;
  (** [datetime.strptime(s, "%Y-%m-%d").strftime("%d.%m.%Y")], [None]
      when [strptime] raises *)
  reformat_date : string -> option string;
  (** [sorted(items, key=..., reverse=True)] when some key is not an
      integer: items paired with their keys *)
  sorted_other : list (value * value) -> result (list value);
  (** the index [random.choice] draws in a list of the given length *)
  random_index : nat -> nat
}.

Definition nl : string := String (ascii_of_nat 10) EmptyString.

(** ** Lookup tables of the class *)

Definition ITEM_TYPE_EMOJI : list (string * string) :=
  [ ("outfit", "👕"); ("pickaxe", "⛏️"); ("glider", "🪂"); ("emote", "💃");
    ("backbling", "🎒"); ("wrap", "🎁"); ("bundle", "📦"); ("music", "🎵");
    ("loading", "⏳"); ("spray", "🎨"); ("emoji", "😊"); ("toy", "🧸");
    ("pet", "🐶"); ("contrail", "✨"); ("unknown", "❓") ].

Definition ITEM_TYPE_RU : list (string * string) :=
  [ ("outfit", "Костюм"); ("pickaxe", "Инструмент"); ("glider", "Планер");
    ("emote", "Эмоция"); ("backbling", "Украшение"); ("wrap", "Обёртка");
    ("bundle", "Набор"); ("music", "Музыка"); ("loading", "Экран загрузки");
    ("spray", "Граффити"); ("emoji", "Эмодзи"); ("toy", "Игрушка");
    ("pet", "Питомец"); ("contrail", "След"); ("unknown", "Предмет") ].

Definition RARITY_EMOJI : list (string * string) :=
  [ ("common", "⚪"); ("uncommon", "🟢"); ("rare", "🔵"); ("epic", "🟣");
    ("legendary", "🟠"); ("mythic", "🔴") ].

Fixpoint table_lookup (k : string) (t : list (string * string))
    : option string :=
  match t with
  | [] => None
  | (k', v) :: rest => if String.eqb k k' then Some v else table_lookup k rest
  end.

(** [table.get(key, default)] for a key taken from the document: a
    list or dict as key raises, a key that is not a string is absent. *)
Definition table_get (t : list (string * string)) (key : value)
    (default : string) : result string :=
  match key with
  | VStr k => Ok (match table_lookup k t with Some v => v | None => default end)
  | VList _ | VDict _ => Raise TypeError
  | VNone | VBool _ | VInt _ => Ok default
  end.

(** [self.ITEM_TYPE_EMOJI['unknown']], [self.ITEM_TYPE_RU['unknown']] *)
Definition unknown_emoji : string := "❓".
Definition unknown_ru : string := "Предмет".

(** ** Currency *)

(** [self.vbuck_to_rub = 0.499] and its [str()]. *)
Definition vbuck_to_rub : F64.t := F64.round_rat false 499 1000.
Definition vbuck_to_rub_str : string := "0.499".

(** [vbucks_to_rubles] on a float argument. *)
Definition vbucks_to_rubles_float (vbucks : F64.t) : F64.t :=
  F64.round (F64.mul vbucks vbuck_to_rub) 2.

(** [vbucks_to_rubles] on a value of the document: the integer is
    converted to a float by the multiplication. *)
Definition vbucks_to_rubles (vbucks : value) : result F64.t :=
  n <- Py.as_int vbucks ;;
  x <- F64.of_int n ;;
  Ok (vbucks_to_rubles_float x).

Definition format_price_with_rub (vbucks : value) : result string :=
  rubles <- vbucks_to_rubles vbucks ;;
  let rub_str := Str.replace "." "," (F64.format_fixed 2 rubles) in
  n <- Py.as_int vbucks ;;
  let vb_str := Str.replace "," " " (Str.of_Z_grouped n) in
  Ok (vb_str ++ " V-Bucks (~" ++ rub_str ++ " ₽)").

(** ** Rarity *)

Definition get_rarity (rt : runtime) (name : string) : string :=
  let name_lower := str_lower rt name in
  if Str.contains "legendary" name_lower || Str.contains "reaper" name_lower
     || Str.contains "igris" name_lower
  then "legendary"
  else if Str.contains "epic" name_lower || Str.contains "jin" name_lower
          || Str.contains "hao" name_lower
  then "epic"
  else if Str.contains "rare" name_lower || Str.contains "dino" name_lower
  then "rare"
  else if Str.contains "uncommon" name_lower
  then "uncommon"
  else "common".

(** [self.get_rarity(name)] on a value: [name.lower()] needs a string. *)
Definition get_rarity_of (rt : runtime) (name : value) : result string :=
  match name with
  | VStr s => Ok (get_rarity rt s)
  | _ => Raise AttributeError
  end.

(** [self.RARITY_EMOJI.get(rarity, '⚪')] *)
Definition rarity_emoji (rarity : string) : string :=
  match table_lookup rarity RARITY_EMOJI with
  | Some e => e
  | None => "⚪"
  end.

(** The rule table the cascade of [get_rarity] amounts to: keyword
    sets in the order they are tried, each with its rarity. *)
Definition rarity_rules : list (list string * string) :=
  [ (["legendary"; "reaper"; "igris"], "legendary");
    (["epic"; "jin"; "hao"], "epic");
    (["rare"; "dino"], "rare");
    (["uncommon"], "uncommon") ].

(** First rule one of whose keywords occurs in [s], else [common]. *)
Fixpoint first_match (rules : list (list string * string)) (s : string)
    : string :=
  match rules with
  | [] => "common"
  | (keywords, rarity) :: rest =>
      if existsb (fun k => Str.contains k s) keywords
      then rarity
      else first_match rest s
  end.

(** ** Fetching *)

(** What [requests.get] and [response.json()] produce: the request
    raises, or a response arrives with a status and a body that parses
    as JSON or does not. *)
Inductive origin_reply : Type :=
| RequestFailed
| Response (status_code : Z) (json : option value).

Definition shop_item (name : string) (price : Z) (type : string) : value :=
  VDict [("name", VStr name); ("price", VInt price); ("type", VStr type)].

Definition get_test_data (rt : runtime) : value :=
  VDict [("data", VDict [
    ("date", VStr (now_ymd rt));
    ("daily", VList [
      VDict [("items", VList [
        shop_item "Sung Jin-Woo" 1800 "outfit";
        shop_item "Sung Jin-Woo (Shadow Monarch)" 1800 "outfit";
        shop_item "Cha Hae-In" 1800 "outfit";
        shop_item "Blood-Red Commander Igris" 1800 "outfit";
        shop_item "Kaisel (Glider)" 1200 "glider";
        shop_item "Demon King's Longsword (Pickaxe)" 800 "pickaxe";
        shop_item "Kamish's Wrath (Wrap)" 500 "wrap" ])];
      VDict [("items", VList [
        shop_item "Black Dino Ranger" 1500 "outfit";
        shop_item "White Dino Ranger" 1500 "outfit";
        shop_item "Dino Thunder Bundle" 2400 "bundle";
        shop_item "Brachio Staff (Pickaxe)" 800 "pickaxe";
        shop_item "Dragon Sword (Pickaxe)" 800 "pickaxe";
        shop_item "Brachio Zord (Back Bling)" 500 "backbling" ])] ]);
    ("featured", VList [
      VDict [("items", VList [
        shop_item "Mighty Morphing Power Rangers (LEGO)" 1800 "outfit";
        shop_item "Skull Raider" 1200 "outfit";
        shop_item "The Foundation" 1500 "outfit";
        shop_item "Venom Fang & Knight Killer (Pickaxe)" 800 "pickaxe";
        shop_item "Wings of Light (Back Bling)" 400 "backbling";
        shop_item "Shadow Summoner (Emote)" 400 "emote";
        shop_item "S-Rank Scent (Emote)" 400 "emote" ])] ]) ])].

(** [get_shop_data], given what the origin answers. *)
Definition get_shop_data (rt : runtime) (reply : origin_reply) : value :=
  match reply with
  | Response status_code json =>
      if status_code =? 200
      then match json with
           | Some body => body
           | None => get_test_data rt
           end
      else get_test_data rt
  | RequestFailed => get_test_data rt
  end.

(** ** Flattening *)

(** The loop over one list of sections:
    [for sec in shop_data[key]: if 'items' in sec: items.extend(sec['items'])],
    under [if key in shop_data]. *)
Definition extend_from (shop_data : value) (key : string) (items : list value)
    : result (list value) :=
  present <- Py.contains key shop_data ;;
  if present
  then
    sections <- Py.item shop_data key ;;
    secs <- Py.iter sections ;;
    for_each secs items (fun items sec =>
      has_items <- Py.contains "items" sec ;;
      if has_items
      then
        its <- Py.item sec "items" ;;
        more <- Py.iter its ;;
        Ok (items ++ more)%list
      else Ok items)
  else Ok items.

Definition get_all_items (data : value) : result (list value) :=
  shop_data <- Py.get data "data" data ;;
  items <- extend_from shop_data "daily" [] ;;
  extend_from shop_data "featured" items.

(** ** Views *)

(** [str(v)] inside an f-string. *)
Definition as_text (rt : runtime) (v : value) : string :=
  match v with
  | VStr s => s
  | _ => py_str rt v
  end.

(** The date block shared by the views:
    [if isinstance(date, str) and len(date) > 10] re-formats the first
    ten characters, falling back to today when they do not parse;
    [otherwise] is what the view does with any other [date]. *)
Definition display_date (rt : runtime) (date : value)
    (otherwise : value -> string) : string :=
  match date with
  | VStr s =>
      if 10 <? Str.len s
      then match reformat_date rt (Str.take 10 s) with
           | Some d => d
           | None => now_dmy rt
           end
      else otherwise date
  | _ => otherwise date
  end.

(** Grouped entries: names in insertion order, each with its
    [(price, type)] pairs in insertion order. *)
Definition grouped : Type := list (value * list (value * value)).

(** [grouped.setdefault(name, []).append(entry)] for a hashable [name]. *)
Fixpoint setdefault_append (name : value) (entry : value * value)
    (g : grouped) : grouped :=
  match g with
  | [] => [(name, [entry])]
  | (k, entries) :: rest =>
      if Py.key_eqb k name
      then (k, (entries ++ [entry])%list) :: rest
      else (k, entries) :: setdefault_append name entry rest
  end.

Definition group_add (name price item_type : value) (g : grouped)
    : result grouped :=
  if Py.hashable name
  then Ok (setdefault_append name (price, item_type) g)
  else Raise TypeError.

(** The grouping loop of [format_shop_text]; absent fields get
    defaults. *)
Definition group_with_defaults (items : list value) : result grouped :=
  for_each items [] (fun g item =>
    name <- Py.get item "name" (VStr "Без названия") ;;
    price <- Py.get item "price" (VInt 0) ;;
    item_type <- Py.get item "type" (VStr "unknown") ;;
    group_add name price item_type g).

(** The grouping loop of [search_items]; [name] and [price] are
    subscripted. *)
Definition group_strict (items : list value) : result grouped :=
  for_each items [] (fun g item =>
    name <- Py.item item "name" ;;
    price <- Py.item item "price" ;;
    item_type <- Py.get item "type" (VStr "unknown") ;;
    group_add name price item_type g).

(** [price_type_list[0][1]]; a group never is empty. *)
Definition first_type (entries : list (value * value)) : value :=
  match entries with
  | (_, t) :: _ => t
  | [] => VStr "unknown"
  end.

(** The header line of a group. *)
Definition group_header (rt : runtime) (name : value)
    (entries : list (value * value)) : result string :=
  type_emoji <- table_get ITEM_TYPE_EMOJI (first_type entries) unknown_emoji ;;
  type_name <- table_get ITEM_TYPE_RU (first_type entries) unknown_ru ;;
  rarity <- get_rarity_of rt name ;;
  Ok (rarity_emoji rarity ++ type_emoji ++ " **" ++ as_text rt name
      ++ "**  _(" ++ type_name ++ ")_" ++ nl).

Definition separator_line : string := "   ─────────────" ++ nl.

(** The price lines of a group, [bullet i] being what precedes the
    price on line [i] (counted from 1). *)
Fixpoint price_lines (bullet : Z -> string) (i : Z)
    (entries : list (value * value)) (text : string) : result string :=
  match entries with
  | [] => Ok text
  | (price, _) :: rest =>
      p <- format_price_with_rub price ;;
      price_lines bullet (i + 1) rest (text ++ "   " ++ bullet i ++ p ++ nl)
  end.

Definition render_groups (rt : runtime) (bullet : Z -> string) (g : grouped)
    (text : string) : result string :=
  for_each g text (fun text group =>
    let '(name, entries) := group in
    header <- group_header rt name entries ;;
    text <- price_lines bullet 1 entries (text ++ header) ;;
    Ok (text ++ separator_line)).

Definition one_of (s a b : string) : bool := String.eqb s a || String.eqb s b.

Definition format_shop_text (rt : runtime) (data : value) (section : string)
    : result string :=
  shop_data <- Py.get data "data" data ;;
  date <- Py.get shop_data "date" (VStr (now_dmy rt)) ;;
  let date := display_date rt date (as_text rt) in
  items <- (if one_of section "all" "daily"
            then extend_from shop_data "daily" []
            else Ok []) ;;
  items <- (if one_of section "all" "featured"
            then extend_from shop_data "featured" items
            else Ok items) ;;
  match items with
  | [] => Ok "😢 В магазине нет предметов"
  | _ =>
      g <- group_with_defaults items ;;
      let title :=
        if String.eqb section "all" then "🛒 **ЕЖЕДНЕВНЫЙ МАГАЗИН ПРЕДМЕТОВ**"
        else if String.eqb section "daily" then "✨ **ЕЖЕДНЕВНЫЕ ПРЕДМЕТЫ**"
        else "🌟 **НОВИНКИ И ИЗБРАННОЕ**" in
      let text := title ++ nl ++ "📅 " ++ date ++ nl ++ nl in
      let text := text ++ "💱 **Курс:** 1 V-Buck = " ++ vbuck_to_rub_str
                  ++ " ₽" ++ nl ++ nl in
      render_groups rt (fun i => Str.of_Z i ++ ". ") g text
  end.

(** *** Statistics *)

(** [sum(item['price'] for item in items)] *)
Definition sum_prices (items : list value) : result Z :=
  for_each items 0 (fun total item =>
    price <- Py.item item "price" ;;
    p <- Py.as_int price ;;
    Ok (total + p)).

(** [max(items, key=lambda x: x['price'])] on a non-empty list: the
    current maximum is replaced only by a strictly larger key. *)
Fixpoint max_from (best : value) (best_key : Z) (items : list value)
    : result value :=
  match items with
  | [] => Ok best
  | item :: rest =>
      price <- Py.item item "price" ;;
      k <- Py.as_int price ;;
      if best_key <? k then max_from item k rest else max_from best best_key rest
  end.

Definition max_by_price (first : value) (rest : list value) : result value :=
  price <- Py.item first "price" ;;
  k <- Py.as_int price ;;
  max_from first k rest.

(** The local variables of [get_shop_stats] once the figures are
    computed. *)
Record shop_stats : Type := {
  total_items : Z;
  total_value_vb : Z;
  total_value_rub : F64.t;
  avg_price_vb : F64.t;
  avg_price_rub : F64.t;
  max_item : value;
  max_price_vb : value;
  max_price_rub : F64.t;
  max_name : value
}.

Definition compute_stats (first : value) (rest : list value)
    : result shop_stats :=
  let items := first :: rest in
  let total_items := Z.of_nat (List.length items) in
  total_value_vb <- sum_prices items ;;
  total_value_rub <- vbucks_to_rubles (VInt total_value_vb) ;;
  avg_price_vb <- F64.truediv total_value_vb total_items ;;
  let avg_price_rub := vbucks_to_rubles_float avg_price_vb in
  max_item <- max_by_price first rest ;;
  max_price_vb <- Py.item max_item "price" ;;
  max_price_rub <- vbucks_to_rubles max_price_vb ;;
  max_name <- Py.item max_item "name" ;;
  Ok {| total_items := total_items; total_value_vb := total_value_vb;
        total_value_rub := total_value_rub; avg_price_vb := avg_price_vb;
        avg_price_rub := avg_price_rub; max_item := max_item;
        max_price_vb := max_price_vb; max_price_rub := max_price_rub;
        max_name := max_name |}.

(** The date of [get_shop_stats] and [get_top_items]: anything but a
    long string becomes today. *)
Definition snapshot_date (rt : runtime) (data : value) : result string :=
  shop_data <- Py.get data "data" data ;;
  date <- Py.get shop_data "date" (VStr "") ;;
  Ok (display_date rt date (fun _ => now_dmy rt)).

Definition stats_text (rt : runtime) (date : string) (st : shop_stats)
    : result string :=
  let total_vb_str := Str.replace "," " " (Str.of_Z_grouped (total_value_vb st)) in
  let total_rub_str := Str.replace "." "," (F64.format_fixed 2 (total_value_rub st)) in
  let avg_vb_str := Str.replace "." "," (F64.format_fixed 1 (avg_price_vb st)) in
  let avg_rub_str := Str.replace "." "," (F64.format_fixed 2 (avg_price_rub st)) in
  max_price <- format_price_with_rub (max_price_vb st) ;;
  Ok ("📊 **Статистика магазина от " ++ date ++ "**" ++ nl ++ nl
      ++ "📦 Всего предметов: **" ++ Str.of_Z (total_items st) ++ "**" ++ nl
      ++ "💰 Общая стоимость: **" ++ total_vb_str ++ " V-Bucks** (~"
      ++ total_rub_str ++ " ₽)" ++ nl
      ++ "📈 Средняя цена: **" ++ avg_vb_str ++ " V-Bucks** (~"
      ++ avg_rub_str ++ " ₽)" ++ nl
      ++ "🏆 Самый дорогой: **" ++ as_text rt (max_name st) ++ "** — "
      ++ max_price).

Definition get_shop_stats (rt : runtime) (data : value) : result string :=
  items <- get_all_items data ;;
  match items with
  | [] => Ok "😢 Нет данных для статистики."
  | first :: rest =>
      st <- compute_stats first rest ;;
      date <- snapshot_date rt data ;;
      stats_text rt date st
  end.

(** *** Top *)

(** Insertion before the first element whose key is not larger: equal
    keys keep the order in which they arrive. *)
Fixpoint insert_desc (x : Z * value) (l : list (Z * value))
    : list (Z * value) :=
  match l with
  | [] => [x]
  | y :: rest =>
      if fst x <? fst y then y :: insert_desc x rest else x :: l
  end.

(** A stable sort by decreasing key. *)
Fixpoint sort_desc (l : list (Z * value)) : list (Z * value) :=
  match l with
  | [] => []
  | x :: rest => insert_desc x (sort_desc rest)
  end.

(** The keys as integers, when all of them are. *)
Fixpoint int_keys (l : list (value * value)) : option (list (Z * value)) :=
  match l with
  | [] => Some []
  | (k, item) :: rest =>
      match Py.as_int k, int_keys rest with
      | Ok n, Some r => Some ((n, item) :: r)
      | _, _ => None
      end
  end.

(** [sorted(items, key=lambda x: x['price'], reverse=True)]: the keys
    are computed first; a reversed sort keeps items with equal keys in
    their original order. *)
Definition sorted_by_price_desc (rt : runtime) (items : list value)
    : result (list value) :=
  keyed <- map_result (fun item =>
             k <- Py.item item "price" ;; Ok (k, item)) items ;;
  match int_keys keyed with
  | Some l => Ok (map snd (sort_desc l))
  | None => sorted_other rt keyed
  end.

(** [l[:n]] *)
Definition slice_to {A : Type} (n : Z) (l : list A) : list A :=
  if 0 <=? n
  then firstn (Z.to_nat n) l
  else firstn (List.length l - Z.to_nat (- n)) l.

(** The local [sorted_items] of [get_top_items]. *)
Definition top_items (rt : runtime) (items : list value) (n : Z)
    : result (list value) :=
  sorted <- sorted_by_price_desc rt items ;;
  Ok (slice_to n sorted).

Definition top_line (rt : runtime) (i : Z) (item : value) : result string :=
  name <- Py.item item "name" ;;
  price <- Py.item item "price" ;;
  item_type <- Py.get item "type" (VStr "unknown") ;;
  type_emoji <- table_get ITEM_TYPE_EMOJI item_type unknown_emoji ;;
  rarity <- get_rarity_of rt name ;;
  p <- format_price_with_rub price ;;
  Ok (Str.of_Z i ++ ". " ++ rarity_emoji rarity ++ type_emoji ++ " "
      ++ as_text rt name ++ " — " ++ p ++ nl).

Fixpoint top_lines (rt : runtime) (i : Z) (items : list value) (text : string)
    : result string :=
  match items with
  | [] => Ok text
  | item :: rest =>
      line <- top_line rt i item ;;
      top_lines rt (i + 1) rest (text ++ line)
  end.

Definition get_top_items (rt : runtime) (data : value) (n : Z)
    : result string :=
  items <- get_all_items data ;;
  match items with
  | [] => Ok "😢 Нет данных."
  | _ =>
      sorted_items <- top_items rt items n ;;
      date <- snapshot_date rt data ;;
      top_lines rt 1 sorted_items
        ("🏆 **Топ-" ++ Str.of_Z n ++ " самых дорогих предметов** (" ++ date
         ++ ")" ++ nl ++ nl)
  end.

(** *** Search *)

(** The local [found] of [search_items]. *)
Definition find_items (rt : runtime) (items : list value) (query : string)
    : result (list value) :=
  let query_lower := str_lower rt query in
  for_each items [] (fun found item =>
    name <- Py.item item "name" ;;
    match name with
    | VStr s =>
        if Str.contains query_lower (str_lower rt s)
        then Ok (found ++ [item])%list
        else Ok found
    | _ => Raise AttributeError
    end).

Definition nothing_found (query : string) : string :=
  "😕 По запросу «" ++ query ++ "» ничего не найдено.".

Definition search_items (rt : runtime) (data : value) (query : string)
    : result string :=
  items <- get_all_items data ;;
  match items with
  | [] => Ok "😢 Нет данных для поиска."
  | _ =>
      found <- find_items rt items query ;;
      match found with
      | [] => Ok (nothing_found query)
      | _ =>
          g <- group_strict found ;;
          render_groups rt (fun _ => "• ") g
            ("🔍 **Результаты поиска по запросу «" ++ query ++ "»**"
             ++ nl ++ nl)
      end
  end.

(** *** Exchange rate *)

Definition get_exchange_info (rt : runtime) : result string :=
  r100 <- vbucks_to_rubles (VInt 100) ;;
  r1000 <- vbucks_to_rubles (VInt 1000) ;;
  r2800 <- vbucks_to_rubles (VInt 2800) ;;
  Ok ("💱 **Курс V-Bucks к рублю**" ++ nl ++ nl
      ++ "1 V-Buck = " ++ vbuck_to_rub_str ++ " ₽" ++ nl
      ++ "2 V-Bucks ≈ 1 ₽" ++ nl ++ nl
      ++ "**Примеры:**" ++ nl
      ++ "• 100 V-Bucks = " ++ F64.format_fixed 2 r100 ++ " ₽" ++ nl
      ++ "• 1000 V-Bucks = " ++ F64.format_fixed 2 r1000 ++ " ₽" ++ nl
      ++ "• 2800 V-Bucks (набор) = " ++ F64.format_fixed 2 r2800 ++ " ₽"
      ++ nl ++ nl
      ++ "📊 Данные актуальны на " ++ now_dmy rt ++ " ").

(** ** The chat transport and the bot's state *)

Inductive button_target : Type :=
| Callback (callback_data : string)
| Url (url : string).

Record button : Type := { label : string; target : button_target }.

Definition keyboard : Type := list (list button).

Definition InlineKeyboardButton (label : string) (target : button_target)
    : button :=
  {| label := label; target := target |}.

(** The arguments of a call that sends or edits a message. *)
Record message : Type := {
  text : string;
  parse_mode : option string;
  reply_markup : option keyboard;
  disable_web_page_preview : bool
}.

(** A call with the text alone. *)
Definition plain (text : string) : message :=
  {| text := text; parse_mode := None; reply_markup := None;
     disable_web_page_preview := false |}.

(** A call with [parse_mode='Markdown'] and a keyboard. *)
Definition markdown (text : string) (kb : keyboard) : message :=
  {| text := text; parse_mode := Some "Markdown"; reply_markup := Some kb;
     disable_web_page_preview := false |}.

(** What a handler does to the outside, in order. *)
Inductive effect : Type :=
| QueryAnswer                                   (* query.answer() *)
| EditMessageText (m : message)                 (* query.edit_message_text, msg.edit_text *)
| ReplyText (m : message)                       (* update.message.reply_text *)
| SendMessage (chat_id : string) (m : message)  (* application.bot.send_message *)
| OriginRequest.                                (* requests.get *)

(** [self.last_shop_data], the number of requests made to the origin so
    far, and the calls to the outside that have returned, oldest
    first. *)
Record world : Type := {
  last_shop_data : value;
  requests : nat;
  outbox : list effect
}.

(** A handler runs in a world and leaves a world behind also when it
    raises. *)
Definition io (A : Type) : Type := world -> result A * world.

Definition io_ret {A : Type} (a : A) : io A := fun w => (Ok a, w).

Definition io_bind {A B : Type} (c : io A) (k : A -> io B) : io B :=
  fun w =>
    match c w with
    | (Ok a, w') => k a w'
    | (Raise e, w') => (Raise e, w')
    end.

Notation "x <~ c ;; k" := (io_bind c (fun x => k))
  (at level 61, c at next level, right associativity).
Notation "c ;;; k" := (io_bind c (fun _ => k))
  (at level 61, right associativity).

Definition lift {A : Type} (r : result A) : io A := fun w => (r, w).

(** The Telegram API as a handler meets it.  An awaited call either
    returns or raises [telegram.error.TelegramError] (the network
    fails, the new text equals the one on display, the Markdown does
    not parse, ...): [refuses log call] tells whether [call] raises
    when the calls of [log] have returned before it. *)
Class Telegram : Type := { refuses : list effect -> effect -> bool }.

(** An awaited call to Telegram.  No handler catches what it raises,
    so a refused call ends the handler; a call is entered in the
    outbox when it has returned. *)
Definition emit {T : Telegram} (e : effect) : io unit :=
  fun w =>
    if refuses (outbox w) e
    then (Raise TelegramError, w)
    else (Ok tt, {| last_shop_data := last_shop_data w;
                    requests := requests w;
                    outbox := (outbox w ++ [e])%list |}).

Definition read_last_shop_data : io value :=
  fun w => (Ok (last_shop_data w), w).

Definition write_last_shop_data (data : value) : io unit :=
  fun w => (Ok tt, {| last_shop_data := data;
                      requests := requests w;
                      outbox := outbox w |}).

(** [await self.get_shop_data()]: one request to the origin, answered
    by [origin k] when it is the [k]-th request. *)
Definition fetch (rt : runtime) (origin : nat -> origin_reply) : io value :=
  fun w =>
    (Ok (get_shop_data rt (origin (requests w))),
     {| last_shop_data := last_shop_data w;
        requests := S (requests w);
        outbox := (outbox w ++ [OriginRequest])%list |}).

(** The initial state of [__init__]. *)
Definition initial_world : world :=
  {| last_shop_data := VNone; requests := 0; outbox := [] |}.

(** *** Keyboards *)

Definition site : string := "https://www.fortnite.com/item-shop".

Definition common_rows : keyboard :=
  [ [ InlineKeyboardButton "🛒 Весь магазин" (Callback "shop_all");
      InlineKeyboardButton "✨ Ежедневные" (Callback "shop_daily") ];
    [ InlineKeyboardButton "🌟 Новинки" (Callback "shop_featured");
      InlineKeyboardButton "🎲 Случайный предмет" (Callback "random_item") ];
    [ InlineKeyboardButton "📊 Статистика" (Callback "stats");
      InlineKeyboardButton "🏆 Топ-5" (Callback "top") ] ].

(** The rows under a shop view. *)
Definition shop_rows : keyboard :=
  (common_rows ++
   [ [ InlineKeyboardButton "💱 Курс валют" (Callback "exchange");
       InlineKeyboardButton "🔄 Обновить" (Callback "refresh") ] ])%list.

(** The rows of the main menu. *)
Definition menu_rows : keyboard :=
  (common_rows ++
   [ [ InlineKeyboardButton "💱 Курс валют" (Callback "exchange");
       InlineKeyboardButton "🌐 Официальный сайт" (Url site) ];
     [ InlineKeyboardButton "❓ Помощь" (Callback "help") ] ])%list.

(** The rows under the nightly notice. *)
Definition night_rows : keyboard :=
  (common_rows ++
   [ [ InlineKeyboardButton "💱 Курс валют" (Callback "exchange");
       InlineKeyboardButton "🌐 Открыть сайт" (Url site) ] ])%list.

Definition back_row (label callback : string) : list button :=
  [ InlineKeyboardButton label (Callback callback) ].

Definition menu_text : string :=
  "👋 **Главное меню**" ++ nl ++ nl ++ "Выберите действие:".

(** *** Showing results *)

Definition edit_message_with_result {T : Telegram} (text : string) (back_callback : string)
    (extra_buttons : keyboard) : io unit :=
  emit (EditMessageText
          (markdown text (extra_buttons ++ [back_row "🔙 Назад" back_callback])%list)).

Definition show_shop_result {T : Telegram} (rt : runtime) (origin : nat -> origin_reply)
    (section : string) : io unit :=
  data <~ fetch rt origin ;;
  if Py.truthy data
  then
    write_last_shop_data data ;;;
    text <~ lift (format_shop_text rt data section) ;;
    edit_message_with_result text "menu" shop_rows
  else emit (EditMessageText (plain "😢 Не удалось получить данные магазина")).

Definition random_item_text (rt : runtime) (item : value) : result string :=
  name <- Py.get item "name" (VStr "Без названия") ;;
  price <- Py.get item "price" (VInt 0) ;;
  item_type <- Py.get item "type" (VStr "unknown") ;;
  type_emoji <- table_get ITEM_TYPE_EMOJI item_type unknown_emoji ;;
  type_name <- table_get ITEM_TYPE_RU item_type unknown_ru ;;
  rarity <- get_rarity_of rt name ;;
  p <- format_price_with_rub price ;;
  Ok ("🎲 **Случайный предмет:**" ++ nl ++ nl
      ++ rarity_emoji rarity ++ type_emoji ++ " **" ++ as_text rt name
      ++ "**  _(" ++ type_name ++ ")_" ++ nl
      ++ "💰 " ++ p).

(** [random.choice(items)] on a non-empty list. *)
Definition random_choice (rt : runtime) (first : value) (rest : list value)
    : value :=
  nth (random_index rt (S (List.length rest)) mod S (List.length rest))
      (first :: rest) first.

(** What [show_random_item_result] shows for a fetched [data]: a bare
    notice when there is no item, else the item with the back button. *)
Definition random_item_message (rt : runtime) (data : value)
    : result message :=
  items <- get_all_items data ;;
  match items with
  | [] => Ok (plain "😢 В магазине нет предметов")
  | first :: rest =>
      text <- random_item_text rt (random_choice rt first rest) ;;
      Ok (markdown text [back_row "🔙 Назад" "menu"])
  end.

Definition show_random_item_result {T : Telegram} (rt : runtime)
    (origin : nat -> origin_reply) : io unit :=
  data <~ fetch rt origin ;;
  if negb (Py.truthy data)
  then emit (EditMessageText (plain "😢 Нет данных"))
  else
    m <~ lift (random_item_message rt data) ;;
    emit (EditMessageText m).

Definition show_stats_result {T : Telegram} (rt : runtime) (origin : nat -> origin_reply)
    : io unit :=
  data <~ fetch rt origin ;;
  if negb (Py.truthy data)
  then emit (EditMessageText (plain "😢 Нет данных"))
  else
    text <~ lift (get_shop_stats rt data) ;;
    edit_message_with_result text "menu" [].

Definition show_top_result {T : Telegram} (rt : runtime) (origin : nat -> origin_reply)
    : io unit :=
  data <~ fetch rt origin ;;
  if negb (Py.truthy data)
  then emit (EditMessageText (plain "😢 Нет данных"))
  else
    text <~ lift (get_top_items rt data 5) ;;
    edit_message_with_result text "menu" [].

Definition show_exchange_result {T : Telegram} (rt : runtime) : io unit :=
  text <~ lift (get_exchange_info rt) ;;
  edit_message_with_result text "menu" [].

Definition show_main_menu {T : Telegram} (is_callback : bool) : io unit :=
  if is_callback
  then emit (EditMessageText (markdown menu_text menu_rows))
  else emit (ReplyText
               {| text := menu_text; parse_mode := Some "Markdown";
                  reply_markup := Some menu_rows;
                  disable_web_page_preview := true |}).

(** [/start] *)
Definition start {T : Telegram} : io unit := show_main_menu false.

(** *** The nightly job *)

Definition night_text (rt : runtime) : string :=
  "🌙 **НОЧНОЕ ОБНОВЛЕНИЕ МАГАЗИНА**" ++ nl ++ nl
  ++ "🕒 " ++ now_dmy_hm rt ++ " МСК" ++ nl
  ++ "🛒 Магазин Fortnite обновился!" ++ nl ++ nl
  ++ "👇 Выберите раздел:".

Definition night_update {T : Telegram} (rt : runtime) (chat_id : string) : io unit :=
  emit (SendMessage chat_id (markdown (night_text rt) night_rows)).

(** The job [setup] registers: [CronTrigger(hour=0, minute=0,
    timezone='UTC')] running [night_update]. *)
Record cron_job : Type := {
  job_id : string;
  hour : Z;
  minute : Z;
  timezone : string;
  job : runtime -> string -> io unit
}.

Definition scheduled_jobs {T : Telegram} : list cron_job :=
  [ {| job_id := "night"; hour := 0; minute := 0; timezone := "UTC";
       job := night_update |} ].

(** *** Commands and buttons *)

(** [/shop], [/daily] and [/featured]: a placeholder is sent, then
    edited.  Only [/shop] records the snapshot. *)
Definition shop_command {T : Telegram} (rt : runtime) (origin : nat -> origin_reply)
    (placeholder section : string) (remember : bool) : io unit :=
  emit (ReplyText (plain placeholder)) ;;;
  data <~ fetch rt origin ;;
  if Py.truthy data
  then
    (if remember then write_last_shop_data data else io_ret tt) ;;;
    text <~ lift (format_shop_text rt data section) ;;
    emit (EditMessageText
            (markdown text (shop_rows ++ [back_row "🔙 Назад" "menu"])%list))
  else emit (EditMessageText (plain
         (if remember then "😢 Не удалось получить данные магазина"
          else "😢 Не удалось получить данные"))).

Definition shop {T : Telegram} (rt : runtime) (origin : nat -> origin_reply) : io unit :=
  shop_command rt origin "🔄 Загружаю магазин..." "all" true.

Definition daily {T : Telegram} (rt : runtime) (origin : nat -> origin_reply) : io unit :=
  shop_command rt origin "✨ Загружаю ежедневные..." "daily" false.

Definition featured {T : Telegram} (rt : runtime) (origin : nat -> origin_reply) : io unit :=
  shop_command rt origin "🌟 Загружаю новинки..." "featured" false.

Definition quick_help_text : string :=
  "❓ **Быстрая помощь**" ++ nl ++ nl
  ++ "🛒 **Весь магазин** – все предметы" ++ nl
  ++ "✨ **Ежедневные** – только ежедневные" ++ nl
  ++ "🌟 **Новинки** – только новинки" ++ nl
  ++ "🎲 **Случайный предмет** – один предмет" ++ nl
  ++ "📊 **Статистика** – общая информация" ++ nl
  ++ "🏆 **Топ-5** – самые дорогие предметы" ++ nl
  ++ "💱 **Курс валют** – информация о курсе" ++ nl
  ++ "🌐 **Официальный сайт** – открыть в браузере" ++ nl ++ nl
  ++ "💰 **Курс:** 1 V-Buck = 0.499 ₽ " ++ nl ++ nl
  ++ "⏰ Автоуведомления в 3:00 МСК" ++ nl ++ nl
  ++ "**Типы предметов:**" ++ nl
  ++ "👕 Костюм, ⛏️ Инструмент, 🪂 Планер, 💃 Эмоция, 🎒 Украшение, 🎁 Обёртка, 📦 Набор, 🎵 Музыка".

Definition button_handler {T : Telegram} (rt : runtime) (origin : nat -> origin_reply)
    (data : string) : io unit :=
  emit QueryAnswer ;;;
  if String.eqb data "shop_all" then
    emit (EditMessageText (plain "🔄 Загружаю весь магазин...")) ;;;
    show_shop_result rt origin "all"
  else if String.eqb data "shop_daily" then
    emit (EditMessageText (plain "✨ Загружаю ежедневные...")) ;;;
    show_shop_result rt origin "daily"
  else if String.eqb data "shop_featured" then
    emit (EditMessageText (plain "🌟 Загружаю новинки...")) ;;;
    show_shop_result rt origin "featured"
  else if String.eqb data "random_item" then
    emit (EditMessageText (plain "🎲 Выбираю случайный предмет...")) ;;;
    show_random_item_result rt origin
  else if String.eqb data "stats" then
    emit (EditMessageText (plain "📊 Считаю статистику...")) ;;;
    show_stats_result rt origin
  else if String.eqb data "top" then
    emit (EditMessageText (plain "🏆 Составляю топ...")) ;;;
    show_top_result rt origin
  else if String.eqb data "exchange" then
    emit (EditMessageText (plain "💱 Загружаю курс...")) ;;;
    show_exchange_result rt
  else if String.eqb data "refresh" then
    cached <~ read_last_shop_data ;;
    if Py.truthy cached
    then
      emit (EditMessageText (plain "🔄 Обновляю...")) ;;;
      show_shop_result rt origin "all"
    else emit (EditMessageText (plain "Сначала загрузите магазин"))
  else if String.eqb data "help" then
    emit (EditMessageText
            (markdown quick_help_text [back_row "🔙 Назад" "menu"]))
  else if String.eqb data "menu" then
    show_main_menu true
  else io_ret tt.

(** ** A concrete runtime

    Lower-casing of ASCII letters, a fixed clock, ISO dates with two
    digits for month and day.  It agrees with Python on ASCII text. *)

Definition is_digit (c : ascii) : bool :=
  let n := N_of_ascii c in (48 <=? n)%N && (n <=? 57)%N.

Definition iso_to_dmy (s : string) : option string :=
  match s with
  | String y1 (String y2 (String y3 (String y4 (String "-"
      (String m1 (String m2 (String "-" (String d1 (String d2 EmptyString))))))))) =>
      if forallb is_digit [y1; y2; y3; y4; m1; m2; d1; d2]
      then Some (String d1 (String d2 (String "." (String m1 (String m2
                 (String "." (String y1 (String y2 (String y3 (String y4
                 EmptyString))))))))))
      else None
  | _ => None
  end.

Definition ascii_runtime : runtime :=
  {| str_lower := Str.ascii_lower;
     py_str := fun v => match v with
                        | VNone => "None"
                        | VBool true => "True"
                        | VBool false => "False"
                        | VInt n => Str.of_Z n
                        | _ => ""
                        end;
     now_ymd := "2024-03-01";
     now_dmy := "01.03.2024";
     now_dmy_hm := "01.03.2024 03:00";
     reformat_date := iso_to_dmy;
     sorted_other := fun _ => Raise TypeError;
     random_index := fun _ => 0%nat |}.

(** ** Items as the data model describes them *)

(** A dict with a string under ["name"] and an integer under
    ["price"]. *)
Definition well_formed (item : value) : bool :=
  match item with
  | VDict d =>
      match Py.lookup "name" d, Py.lookup "price" d with
      | Some (VStr _), Some (VInt _) => true
      | _, _ => false
      end
  | _ => false
  end.

Definition item_name (item : value) : string :=
  match Py.item item "name" with
  | Ok (VStr s) => s
  | _ => ""
  end.

Definition item_price (item : value) : Z :=
  match Py.item item "price" with
  | Ok (VInt n) => n
  | _ => 0
  end.

(** [item.get('type', 'unknown')] *)
Definition item_type (item : value) : value :=
  match Py.get item "type" (VStr "unknown") with
  | Ok t => t
  | Raise _ => VStr "unknown"
  end.

(** The distinct elements of [l], each at its first occurrence. *)
Fixpoint first_seen (l : list string) : list string :=
  match l with
  | [] => []
  | x :: rest => x :: filter (fun y => negb (String.eqb x y)) (first_seen rest)
  end.

(** The [(price, type)] pairs of the items called [name], in input
    order. *)
Definition entries_of (name : string) (items : list value)
    : list (value * value) :=
  map (fun it => (VInt (item_price it), item_type it))
      (filter (fun it => String.eqb name (item_name it)) items).

(** Grouping as the data model words it. *)
Definition grouped_entries (items : list value) : grouped :=
  map (fun name => (VStr name, entries_of name items))
      (first_seen (map item_name items)).



(** The position of the first occurrence of [x] in [l] ([length l] when
    there is none). *)
Fixpoint first_index (x : string) (l : list string) : nat :=
  match l with
  | [] => O
  | y :: rest => if String.eqb x y then O else S (first_index x rest)
  end.

(** The items in decreasing order of price, equal prices in input
    order. *)
Definition by_price_desc (items : list value) : list value :=
  map snd (sort_desc (map (fun it => (item_price it, it)) items)).

Definition price_is (p : Z) (item : value) : bool := item_price item =? p.

Definition sum_of_prices (items : list value) : Z :=
  fold_right (fun it acc => item_price it + acc) 0 items.

(** The items whose name contains the query, case folded by
    [str_lower]. *)
Definition matches (rt : runtime) (query : string) (item : value) : bool :=
  Str.contains (str_lower rt query) (str_lower rt (item_name item)).

(** ** View kinds that render an item set *)

Inductive view_kind : Type :=
| FullView
| DailyView
| FeaturedView
| StatsView
| TopView (n : Z)
| SearchView (query : string)
| RandomItemView.

Definition section_of (v : view_kind) : string :=
  match v with
  | DailyView => "daily"
  | FeaturedView => "featured"
  | _ => "all"
  end.

(** The local [items] of [format_shop_text] when the view tests
    [if not items]: the statements of the view up to there, in their
    order, the date being read before any item. *)
Definition section_items (rt : runtime) (data : value) (section : string)
    : result (list value) :=
  shop_data <- Py.get data "data" data ;;
  _ <- Py.get shop_data "date" (VStr (now_dmy rt)) ;;
  items <- (if one_of section "all" "daily"
            then extend_from shop_data "daily" []
            else Ok []) ;;
  if one_of section "all" "featured"
  then extend_from shop_data "featured" items
  else Ok items.

(** The local [items] of a view when it tests [if not items]. *)
Definition view_items (rt : runtime) (v : view_kind) (data : value)
    : result (list value) :=
  match v with
  | FullView | DailyView | FeaturedView => section_items rt data (section_of v)
  | _ => get_all_items data
  end.

(** The text a view shows for a snapshot. *)
Definition render (rt : runtime) (v : view_kind) (data : value)
    : result string :=
  match v with
  | FullView | DailyView | FeaturedView =>
      format_shop_text rt data (section_of v)
  | StatsView => get_shop_stats rt data
  | TopView n => get_top_items rt data n
  | SearchView query => search_items rt data query
  | RandomItemView => m <- random_item_message rt data ;; Ok (text m)
  end.

(** The notice each view shows when it has no item. *)
Definition nothing_available (v : view_kind) : string :=
  match v with
  | FullView | DailyView | FeaturedView | RandomItemView =>
      "😢 В магазине нет предметов"
  | StatsView => "😢 Нет данных для статистики."
  | TopView _ => "😢 Нет данных."
  | SearchView _ => "😢 Нет данных для поиска."
  end.

(** The snapshot proper ([data['data']], or [data] itself) is a dict. *)
Definition is_snapshot (data : value) : bool :=
  match Py.get data "data" data with
  | Ok (VDict _) => true
  | _ => false
  end.

(** The message on display after the calls in [log]: the last one sent
    or edited. *)
Fixpoint displayed (log : list effect) (current : option message)
    : option message :=
  match log with
  | [] => current
  | EditMessageText m :: rest => displayed rest (Some m)
  | ReplyText m :: rest => displayed rest (Some m)
  | SendMessage _ m :: rest => displayed rest (Some m)
  | _ :: rest => displayed rest current
  end.

(** The callbacks a keyboard offers. *)
Definition callbacks (kb : keyboard) : list string :=
  flat_map (fun row =>
    flat_map (fun b => match target b with
                       | Callback c => [c]
                       | Url _ => []
                       end) row) kb.

(** ** Auxiliary notions for the sort *)

(** An item paired with its price, as the sort sees it. *)
Definition keyed (item : value) : Z * value := (item_price item, item).

Definition ge_key (a b : Z * value) : Prop := fst b <= fst a.

(** The pair carries the price of its item. *)
Definition consistent (p : Z * value) : Prop := fst p = item_price (snd p).

(** A well-formed item whose price is not negative. *)
Definition valid_item (item : value) : bool :=
  well_formed item && (0 <=? item_price item).

(** The double [x] is exactly the rational [num / den]. *)
Definition is_exactly (x : F64.t) (num den : Z) : Prop :=
  F64.neg x = false
  /\ F64.man x * 2 ^ Z.max 0 (F64.exp x) * den
     = num * 2 ^ Z.max 0 (- F64.exp x).

(** [m] is the first of the items of largest price. *)
Definition first_of_max_price (m : value) (items : list value) : Prop :=
  exists before after,
    items = (before ++ m :: after)%list
    /\ Forall (fun it => item_price it < item_price m) before
    /\ Forall (fun it => item_price it <= item_price m) after.

(** ** Auxiliary notions for grouping *)

(** One turn of the grouping loop on a well-formed item. *)
Definition add_item (g : grouped) (item : value) : grouped :=
  setdefault_append (VStr (item_name item))
    (VInt (item_price item), item_type item) g.

Definition other_name (name : string) (item : value) : bool :=
  negb (String.eqb name (item_name item)).

(** ** Auxiliary notions for the handlers *)

(** The world after the calls [es]. *)
Definition after_calls (w : world) (es : list effect) : world :=
  {| last_shop_data := last_shop_data w;
     requests := requests w;
     outbox := (outbox w ++ es)%list |}.

(** What the next request to the origin yields. *)
Definition fetched (rt : runtime) (origin : nat -> origin_reply) (w : world)
    : value :=
  get_shop_data rt (origin (requests w)).

(** The world once [show_shop_result] has fetched. *)
Definition after_fetch (rt : runtime) (origin : nat -> origin_reply)
    (w : world) : world :=
  {| last_shop_data :=
       if Py.truthy (fetched rt origin w)
       then fetched rt origin w
       else last_shop_data w;
     requests := S (requests w);
     outbox := (outbox w ++ [OriginRequest])%list |}.

(** Two small catalogs used in examples. *)
Definition catalog_of (item : value) : value :=
  VDict [("data", VDict [("date", VStr "2024-03-01");
                         ("daily", VList [VDict [("items", VList [item])]])])].

Definition old_catalog : value := catalog_of (shop_item "Old Wrap" 300 "wrap").
Definition new_catalog : value := catalog_of (shop_item "New Glider" 1200 "glider").

Definition holds_ok (r : result string) : bool :=
  match r with
  | Ok _ => true
  | Raise _ => false
  end.

(** ** The remaining commands *)

(** [update.message.reply_text(text, parse_mode='Markdown')] *)
Definition markdown_text (text : string) : message :=
  {| text := text; parse_mode := Some "Markdown"; reply_markup := None;
     disable_web_page_preview := false |}.

(** The keyboard the commands put under their result. *)
Definition back_keyboard : keyboard := [back_row "🔙 Назад" "menu"].

(** The time of day [datetime.now()] reads. *)
Record clock_time : Type := {
  clock_hour : Z;
  clock_minute : Z;
  clock_second : Z;
  clock_microsecond : Z
}.

(** Microseconds since midnight. *)
Definition microseconds_of (now : clock_time) : Z :=
  ((clock_hour now * 60 + clock_minute now) * 60 + clock_second now) * 1000000
  + clock_microsecond now.

(** [target - now] in microseconds, [target] being midnight of the
    next day. *)
Definition until_midnight (now : clock_time) : Z :=
  86400 * 1000000 - microseconds_of now.

(** [delta.seconds] of a non-negative [timedelta]: the whole seconds
    that the days leave over. *)
Definition timedelta_seconds (microseconds : Z) : Z :=
  (microseconds / 1000000) mod 86400.

(** The locals [hours] and [minutes] of [next_update]. *)
Definition hours_left (now : clock_time) : Z :=
  timedelta_seconds (until_midnight now) / 3600.

Definition minutes_left (now : clock_time) : Z :=
  (timedelta_seconds (until_midnight now) mod 3600) / 60.

Definition next_update_text (now : clock_time) : string :=
  "⏳ Следующее обновление магазина через **" ++ Str.of_Z (hours_left now)
  ++ " ч " ++ Str.of_Z (minutes_left now) ++ " мин** (в 3:00 МСК).".

Definition next_update {T : Telegram} (now : clock_time) : io unit :=
  emit (ReplyText (markdown_text (next_update_text now))).

Definition search_usage : string :=
  "🔍 Введите запрос после команды, например: `/search Jin`".

(** [/search]; [args] is [context.args]. *)
Definition search_command {T : Telegram} (rt : runtime) (origin : nat -> origin_reply)
    (args : list string) : io unit :=
  match args with
  | [] => emit (ReplyText (markdown_text search_usage))
  | _ =>
      let query := String.concat " " args in
      emit (ReplyText (plain ("🔍 Ищу «" ++ query ++ "»..."))) ;;;
      data <~ fetch rt origin ;;
      if negb (Py.truthy data)
      then emit (EditMessageText
                   (plain "😢 Не удалось получить данные магазина."))
      else
        result <~ lift (search_items rt data query) ;;
        emit (EditMessageText (markdown result back_keyboard))
  end.

(** Not called from anywhere in the file. *)
Definition show_search_result {T : Telegram} (rt : runtime) (origin : nat -> origin_reply)
    (query_text : string) : io unit :=
  data <~ fetch rt origin ;;
  if negb (Py.truthy data)
  then emit (EditMessageText (plain "😢 Не удалось получить данные магазина."))
  else
    result <~ lift (search_items rt data query_text) ;;
    edit_message_with_result result "menu" [].

Definition help_text : string :=
  "❓ **Помощь**" ++ nl ++ nl
  ++ "**Команды:**" ++ nl
  ++ "/start – главное меню" ++ nl
  ++ "/shop – весь магазин" ++ nl
  ++ "/daily – ежедневные предметы" ++ nl
  ++ "/featured – новинки" ++ nl
  ++ "/random – случайный предмет" ++ nl
  ++ "/stats – статистика магазина" ++ nl
  ++ "/top – топ-5 самых дорогих" ++ nl
  ++ "/exchange – курс V-Bucks к рублю" ++ nl
  ++ "/search <текст> – поиск предмета" ++ nl
  ++ "/nextupdate – время до обновления" ++ nl
  ++ "/help – это сообщение" ++ nl ++ nl
  ++ "🕒 Автоуведомления каждый день в 3:00 МСК" ++ nl ++ nl
  ++ "💰 **Курс:** 1 V-Buck = 0.499 ₽ " ++ nl ++ nl
  ++ "**Типы предметов:**" ++ nl
  ++ "👕 Костюм, ⛏️ Инструмент, 🪂 Планер, 💃 Эмоция, 🎒 Украшение, 🎁 Обёртка, 📦 Набор, 🎵 Музыка и др."
  ++ nl ++ nl
  ++ "🌐 [Официальный магазин](https://www.fortnite.com/item-shop)".

Definition help_command {T : Telegram} : io unit :=
  emit (ReplyText
          {| text := help_text; parse_mode := Some "Markdown";
             reply_markup := Some [back_row "🔙 В меню" "menu"];
             disable_web_page_preview := true |}).

(** [/stats] and [/top]: placeholder, fetch, then the text under the
    back button. *)
Definition text_command {T : Telegram} (rt : runtime) (origin : nat -> origin_reply)
    (placeholder : string) (view : value -> result string) : io unit :=
  emit (ReplyText (plain placeholder)) ;;;
  data <~ fetch rt origin ;;
  if Py.truthy data
  then
    text <~ lift (view data) ;;
    emit (EditMessageText (markdown text back_keyboard))
  else emit (EditMessageText (plain "😢 Нет данных")).

Definition stats_command {T : Telegram} (rt : runtime) (origin : nat -> origin_reply)
    : io unit :=
  text_command rt origin "📊 Загружаю статистику..." (get_shop_stats rt).

Definition top_command {T : Telegram} (rt : runtime) (origin : nat -> origin_reply)
    : io unit :=
  text_command rt origin "🏆 Загружаю топ..."
    (fun data => get_top_items rt data 5).

Definition random_command {T : Telegram} (rt : runtime) (origin : nat -> origin_reply)
    : io unit :=
  emit (ReplyText (plain "🎲 Выбираю случайный предмет...")) ;;;
  data <~ fetch rt origin ;;
  if negb (Py.truthy data)
  then emit (EditMessageText (plain "😢 Нет данных"))
  else
    m <~ lift (random_item_message rt data) ;;
    emit (EditMessageText m).

Definition exchange_command {T : Telegram} (rt : runtime) : io unit :=
  emit (ReplyText (plain "💱 Загружаю курс...")) ;;;
  text <~ lift (get_exchange_info rt) ;;
  emit (EditMessageText (markdown text back_keyboard)).

(** The command handlers [setup] registers, in order; each takes the
    clock and the arguments of the command. *)
Definition command_handlers {T : Telegram} (rt : runtime) (origin : nat -> origin_reply)
    : list (string * (clock_time -> list string -> io unit)) :=
  [ ("start", fun _ _ => start);
    ("shop", fun _ _ => shop rt origin);
    ("daily", fun _ _ => daily rt origin);
    ("featured", fun _ _ => featured rt origin);
    ("nextupdate", fun now _ => next_update now);
    ("search", fun _ args => search_command rt origin args);
    ("stats", fun _ _ => stats_command rt origin);
    ("top", fun _ _ => top_command rt origin);
    ("random", fun _ _ => random_command rt origin);
    ("exchange", fun _ _ => exchange_command rt);
    ("help", fun _ _ => help_command) ].

(** The identifiers [button_handler] has a branch for. *)
Definition known_buttons : list string :=
  [ "shop_all"; "shop_daily"; "shop_featured"; "random_item"; "stats"; "top";
    "exchange"; "refresh"; "help"; "menu" ].

(** ** Notions used to state further properties *)

(** Telegram when every call returns.  A statement that names no
    other [Telegram] is about runs in which the calls are accepted. *)
#[global] Instance accepting : Telegram := {| refuses := fun _ _ => false |}.

(** Telegram when every edit of a message is refused. *)
Definition edits_refused : Telegram :=
  {| refuses := fun _ call => match call with
                              | EditMessageText _ => true
                              | _ => false
                              end |}.

(** The items of one section: its ["items"] list, nothing when the
    key is absent. *)
Definition section_entries (sec : value) : list value :=
  match sec with
  | VDict d =>
      match Py.lookup "items" d with
      | Some (VList l) => l
      | _ => []
      end
  | _ => []
  end.

(** A section is a dict whose ["items"], when present, is a list. *)
Definition section_shaped (sec : value) : bool :=
  match sec with
  | VDict d =>
      match Py.lookup "items" d with
      | None | Some (VList _) => true
      | Some _ => false
      end
  | _ => false
  end.

(** What a snapshot holds under ["daily"] or ["featured"]: nothing, or
    a list of sections. *)
Definition sections_shaped (entry : option value) : bool :=
  match entry with
  | None => true
  | Some (VList secs) => forallb section_shaped secs
  | Some _ => false
  end.

Definition sections_of (entry : option value) : list value :=
  match entry with
  | Some (VList secs) => secs
  | _ => []
  end.

(** What every handler respects: it only adds calls, makes at most one
    request to the origin, and leaves the cache alone or replaces it by
    a truthy value it has just fetched. *)
Definition orderly (rt : runtime) (origin : nat -> origin_reply)
    (h : io unit) : Prop :=
  forall w,
    let w' := snd (h w) in
    (exists calls, outbox w' = (outbox w ++ calls)%list)
    /\ (requests w' = requests w /\ last_shop_data w' = last_shop_data w
        \/ requests w' = S (requests w)
           /\ (last_shop_data w' = last_shop_data w
               \/ last_shop_data w' = fetched rt origin w
                  /\ Py.truthy (fetched rt origin w) = true)).

(** An item the grouping of the shop view accepts: a dict whose name,
    or the default name, can be a dictionary key. *)
Definition groupable (item : value) : bool :=
  match item with
  | VDict d =>
      Py.hashable (match Py.lookup "name" d with
                   | Some v => v
                   | None => VStr "Без названия"
                   end)
  | _ => false
  end.

(** The number of [(price, type)] entries in all groups. *)
Definition entry_count (g : grouped) : nat :=
  fold_right (fun group n => (List.length (snd group) + n)%nat) O g.

Definition different_keys (a b : value) : Prop := Py.key_eqb a b = false.

(** Two handlers end alike in [w]: same result, same number of
    requests, and, when they do not raise, the same message on
    display. *)
Definition same_outcome (c b : io unit) (w : world) : Prop :=
  fst (c w) = fst (b w)
  /\ requests (snd (c w)) = requests (snd (b w))
  /\ (fst (c w) = Ok tt ->
      forall current,
        displayed (outbox (snd (c w))) current
        = displayed (outbox (snd (b w))) current).

(** A valid item whose type, when present, is a string. *)
Definition typed_item (item : value) : bool :=
  valid_item item
  && match item_type item with
     | VStr _ => true
     | _ => false
     end.

(** An entry of a group that prints: a price that converts to a finite
    double, and a string as type. *)
Definition printable_entry (entry : value * value) : Prop :=
  (exists p, fst entry = VInt p /\ 0 <= p < 2 ^ 1023)
  /\ (exists t, snd entry = VStr t).

Definition printable_group (group : value * list (value * value)) : Prop :=
  (exists name, fst group = VStr name) /\ Forall printable_entry (snd group).

(** An item every view can print. *)
Definition printable_item (item : value) : Prop :=
  typed_item item = true /\ item_price item < 2 ^ 1023.

(** * Properties *)

(** ** Sanity checks of the string and number primitives *)

Example contains_examples :
  Str.contains "jin" "sung jin-woo" = true
  /\ Str.contains "jin" "cha hae-in" = false
  /\ Str.contains "" "x" = true.
Proof. repeat split. Qed.

Example grouped_digits :
  map Str.of_Z_grouped [0; 999; 1000; -1800; 1234567]
  = ["0"; "999"; "1,000"; "-1,800"; "1,234,567"].
Proof. reflexivity. Qed.

Example code_points :
  Str.len "Без названия" = 12 /\ Str.take 3 "Без названия" = "Без".
Proof. split; reflexivity. Qed.

(** [0.499] is [0x1.fef9db22d0e56p-2]. *)
Example rate_bits : vbuck_to_rub = F64.mk false 8989184856231510 (-54).
Proof. reflexivity. Qed.

(** Ties go to the even neighbour of the binary value, as [round] and
    the [.2f] format do: [0.125] prints as [0.12], and [5 * 0.499], a
    double just above [2.495], as [2.50]. *)
Example rounding_examples :
  F64.format_fixed 2 (F64.mk false 1 (-3)) = "0.12"
  /\ format_price_with_rub (VInt 5) = Ok "5 V-Bucks (~2,50 ₽)"
  /\ format_price_with_rub (VInt (-1800)) = Ok "-1 800 V-Bucks (~-898,20 ₽)"
  /\ format_price_with_rub (VBool true) = Ok "1 V-Bucks (~0,50 ₽)"
  /\ format_price_with_rub (VStr "1800") = Raise TypeError
  /\ format_price_with_rub (VInt (2 ^ 1024)) = Raise OverflowError.
Proof. repeat split; vm_compute; reflexivity. Qed.

(** ** Rarity *)

(** C8. [get_rarity] lower-cases the name and returns the rarity of
    the first rule of the ordered table (legendary, epic, rare,
    uncommon keywords) one of whose keywords occurs in it, and common
    when none does; names that differ only by case are classified
    alike; "Blood-Red Commander Igris" is legendary and "Generic Wrap"
    is common. *)
Theorem get_rarity_first_match :
  (forall rt name,
     get_rarity rt name = first_match rarity_rules (str_lower rt name))
  /\ (forall rt a b,
        str_lower rt a = str_lower rt b -> get_rarity rt a = get_rarity rt b)
  /\ map fst rarity_rules
     = [ ["legendary"; "reaper"; "igris"]; ["epic"; "jin"; "hao"];
         ["rare"; "dino"]; ["uncommon"] ]
  /\ map snd rarity_rules = ["legendary"; "epic"; "rare"; "uncommon"]
  /\ first_match [] "anything" = "common"
  /\ get_rarity ascii_runtime "Blood-Red Commander Igris" = "legendary"
  /\ get_rarity ascii_runtime "BLOOD-RED COMMANDER IGRIS" = "legendary"
  /\ get_rarity ascii_runtime "Generic Wrap" = "common"
  /\ get_rarity ascii_runtime "Epic Reaper" = "legendary".
Proof.
  split; [|split; [|repeat split]].
  - intros rt name. unfold get_rarity, rarity_rules.
    generalize (str_lower rt name) as s. intro s.
    cbn [first_match existsb].
    repeat match goal with
           | |- context [Str.contains ?k s] =>
               let b := fresh "b" in
               generalize (Str.contains k s) as b; intro b
           end.
    repeat match goal with b : bool |- _ => destruct b end; reflexivity.
  - intros rt a b H. unfold get_rarity. now rewrite H.
Qed.

Lemma get_rarity_first_match_witness :
  str_lower ascii_runtime "Shadow REAPER" = str_lower ascii_runtime "shadow reaper"
  /\ get_rarity ascii_runtime "Shadow REAPER"
     = get_rarity ascii_runtime "shadow reaper".
Proof.
  split; [reflexivity|].
  destruct get_rarity_first_match as (_ & H & _).
  apply H. reflexivity.
Defined.

(** ** Prices *)

(** C9. A price of 1800 at the rate 0.499 is written
    "1 800 V-Bucks (~898,20 ₽)": the amount is grouped by thousands
    with spaces, the converted amount is the double nearest to 898.20,
    printed with two decimals and a comma. *)
Theorem format_price_1800 :
  format_price_with_rub (VInt 1800) = Ok "1 800 V-Bucks (~898,20 ₽)"
  /\ (forall n,
        format_price_with_rub (VInt n)
        = (x <- F64.of_int n ;;
           Ok (Str.replace "," " " (Str.of_Z_grouped n) ++ " V-Bucks (~"
               ++ Str.replace "." ","
                    (F64.format_fixed 2 (F64.round (F64.mul x vbuck_to_rub) 2))
               ++ " ₽)")))
  /\ vbuck_to_rub = F64.round_rat false 499 1000
  /\ Str.replace "," " " (Str.of_Z_grouped 1800) = "1 800"
  /\ vbucks_to_rubles (VInt 1800) = Ok (F64.round_rat false 89820 100)
  /\ Str.replace "." "," (F64.format_fixed 2 (F64.round_rat false 89820 100))
     = "898,20".
Proof.
  split; [vm_compute; reflexivity|]. split.
  - intros n. unfold format_price_with_rub, vbucks_to_rubles.
    cbn [Py.as_int bind]. destruct (F64.of_int n); reflexivity.
  - repeat split; vm_compute; reflexivity.
Qed.

(** ** Well-formed items *)

Lemma well_formed_fields item :
  well_formed item = true ->
  exists d, item = VDict d
    /\ Py.lookup "name" d = Some (VStr (item_name item))
    /\ Py.lookup "price" d = Some (VInt (item_price item)).
Proof.
  destruct item as [| | | | |d]; try discriminate.
  unfold well_formed, item_name, item_price, Py.item.
  destruct (Py.lookup "name" d) as [[| | |s| |]|] eqn:En; try discriminate.
  destruct (Py.lookup "price" d) as [[| |n| | |]|] eqn:Ep; try discriminate.
  intros _. exists d. repeat split; assumption.
Qed.

Lemma well_formed_price item :
  well_formed item = true -> Py.item item "price" = Ok (VInt (item_price item)).
Proof.
  intros H. destruct (well_formed_fields item H) as (d & -> & _ & Hp).
  unfold Py.item at 1. now rewrite Hp.
Qed.

Lemma well_formed_name item :
  well_formed item = true -> Py.item item "name" = Ok (VStr (item_name item)).
Proof.
  intros H. destruct (well_formed_fields item H) as (d & -> & Hn & _).
  unfold Py.item at 1. now rewrite Hn.
Qed.

Lemma forallb_cons {A} (f : A -> bool) x l :
  forallb f (x :: l) = true -> f x = true /\ forallb f l = true.
Proof. simpl. apply andb_true_iff. Qed.

(** ** Top: the sort *)

Lemma insert_desc_perm x l : Permutation (insert_desc x l) (x :: l).
Proof.
  induction l as [|y l IH]; simpl; [reflexivity|].
  destruct (fst x <? fst y); [|reflexivity].
  rewrite IH. apply perm_swap.
Qed.

Lemma sort_desc_perm l : Permutation (sort_desc l) l.
Proof.
  induction l as [|x l IH]; simpl; [constructor|].
  rewrite insert_desc_perm. now constructor.
Qed.

Lemma insert_desc_sorted x l :
  StronglySorted ge_key l -> StronglySorted ge_key (insert_desc x l).
Proof.
  induction 1 as [|y l Hs IH Hall]; simpl.
  - repeat constructor.
  - destruct (fst x <? fst y) eqn:E.
    + constructor; [assumption|].
      apply Z.ltb_lt in E.
      eapply Permutation_Forall; [symmetry; apply insert_desc_perm|].
      constructor; [unfold ge_key; lia | assumption].
    + apply Z.ltb_ge in E.
      constructor; [now constructor|].
      constructor; [exact E|].
      eapply Forall_impl; [|exact Hall].
      unfold ge_key. intros; lia.
Qed.

Lemma sort_desc_sorted l : StronglySorted ge_key (sort_desc l).
Proof.
  induction l; simpl; [constructor | now apply insert_desc_sorted].
Qed.

(** Insertion never moves an element past one with the same key. *)
Lemma insert_desc_filter p x l :
  filter (fun y => fst y =? p) (insert_desc x l)
  = filter (fun y => fst y =? p) (x :: l).
Proof.
  induction l as [|y l IH]; [reflexivity|].
  cbn [insert_desc].
  destruct (fst x <? fst y) eqn:E; [|reflexivity].
  apply Z.ltb_lt in E.
  cbn [filter] in *. rewrite IH.
  destruct (fst x =? p) eqn:Ex, (fst y =? p) eqn:Ey; try reflexivity.
  apply Z.eqb_eq in Ex, Ey. lia.
Qed.

Lemma sort_desc_filter p l :
  filter (fun y => fst y =? p) (sort_desc l) = filter (fun y => fst y =? p) l.
Proof.
  induction l as [|x l IH]; [reflexivity|].
  cbn [sort_desc]. rewrite insert_desc_filter. cbn [filter]. now rewrite IH.
Qed.

Lemma keyed_consistent items : Forall consistent (map keyed items).
Proof. induction items; constructor; auto. reflexivity. Qed.

Lemma sort_desc_consistent l :
  Forall consistent l -> Forall consistent (sort_desc l).
Proof.
  intros H. eapply Permutation_Forall; [symmetry; apply sort_desc_perm|exact H].
Qed.

Lemma filter_consistent p l :
  Forall consistent l ->
  map snd (filter (fun y => fst y =? p) l) = filter (price_is p) (map snd l).
Proof.
  induction 1 as [|x l Hx _ IH]; [reflexivity|].
  cbn [filter map]. unfold price_is at 1. rewrite <- Hx.
  destruct (fst x =? p); cbn [map]; now rewrite IH.
Qed.

Lemma sorted_consistent l :
  Forall consistent l -> StronglySorted ge_key l ->
  StronglySorted (fun a b => item_price b <= item_price a) (map snd l).
Proof.
  intros Hc Hs. induction Hs as [|x l Hs IH Hall]; [constructor|].
  inversion Hc as [|? ? Hx Hl]; subst.
  cbn [map]. constructor; [auto|].
  apply Forall_map.
  rewrite Forall_forall in *. intros y Hy.
  specialize (Hall y Hy). specialize (Hl y Hy).
  unfold ge_key, consistent in *. lia.
Qed.

Lemma map_snd_keyed items : map snd (map keyed items) = items.
Proof. induction items; simpl; congruence. Qed.

Lemma keys_of_well_formed items :
  forallb well_formed items = true ->
  map_result (fun item => k <- Py.item item "price" ;; Ok (k, item)) items
  = Ok (map (fun it => (VInt (item_price it), it)) items).
Proof.
  induction items as [|x l IH]; [reflexivity|].
  intros H. apply forallb_cons in H as [Hx Hl].
  cbn [map_result map]. rewrite (well_formed_price x Hx). cbn [bind].
  rewrite (IH Hl). reflexivity.
Qed.

Lemma int_keys_of_prices items :
  int_keys (map (fun it => (VInt (item_price it), it)) items)
  = Some (map keyed items).
Proof.
  induction items as [|x l IH]; [reflexivity|].
  cbn [map int_keys Py.as_int]. now rewrite IH.
Qed.

Lemma sorted_by_price_desc_well_formed rt items :
  forallb well_formed items = true ->
  sorted_by_price_desc rt items = Ok (by_price_desc items).
Proof.
  intros H. unfold sorted_by_price_desc.
  rewrite (keys_of_well_formed items H). cbn [bind].
  rewrite int_keys_of_prices. reflexivity.
Qed.

(** C5. On well-formed items and for [n >= 0], the items
    [get_top_items] lists are the first [n] of the item list sorted by
    decreasing price; that sorted list is a rearrangement of the items
    in which prices never increase and in which, for every price, the
    items of that price stand in their original (flattening) order. *)
Theorem top_items_stable (rt : runtime) (items : list value) (n : Z) :
  forallb well_formed items = true ->
  0 <= n ->
  top_items rt items n = Ok (firstn (Z.to_nat n) (by_price_desc items))
  /\ Permutation (by_price_desc items) items
  /\ StronglySorted (fun a b => item_price b <= item_price a)
       (by_price_desc items)
  /\ (forall p, filter (price_is p) (by_price_desc items)
                = filter (price_is p) items)
  /\ (forall data,
        get_all_items data = Ok items ->
        items <> [] ->
        get_top_items rt data n
        = (date <- snapshot_date rt data ;;
           top_lines rt 1 (firstn (Z.to_nat n) (by_price_desc items))
             ("🏆 **Топ-" ++ Str.of_Z n ++ " самых дорогих предметов** ("
              ++ date ++ ")" ++ nl ++ nl))).
Proof.
  intros Hwf Hn.
  assert (Htop : top_items rt items n
                 = Ok (firstn (Z.to_nat n) (by_price_desc items))).
  { unfold top_items. rewrite sorted_by_price_desc_well_formed by assumption.
    cbn [bind]. unfold slice_to.
    destruct (0 <=? n) eqn:E; [reflexivity | apply Z.leb_gt in E; lia]. }
  split; [exact Htop|]. split; [|split; [|split]]; cycle 3.
  { intros data Hdata Hne. unfold get_top_items. rewrite Hdata. cbn [bind].
    destruct items as [|x l]; [congruence|]. now rewrite Htop. }
  - unfold by_price_desc. fold keyed.
    rewrite <- (map_snd_keyed items) at 2.
    apply Permutation_map, sort_desc_perm.
  - unfold by_price_desc. fold keyed.
    apply sorted_consistent; [|apply sort_desc_sorted].
    apply sort_desc_consistent, keyed_consistent.
  - intros p. unfold by_price_desc. fold keyed.
    rewrite <- filter_consistent
      by (apply sort_desc_consistent, keyed_consistent).
    rewrite sort_desc_filter.
    rewrite filter_consistent by apply keyed_consistent.
    now rewrite map_snd_keyed.
Qed.

Lemma top_items_stable_witness :
  let items := [ shop_item "a" 5 "outfit"; shop_item "b" 7 "outfit";
                 shop_item "c" 5 "wrap"; shop_item "d" 7 "emote" ] in
  forallb well_formed items = true
  /\ 0 <= 3
  /\ top_items ascii_runtime items 3
     = Ok [ shop_item "b" 7 "outfit"; shop_item "d" 7 "emote";
            shop_item "a" 5 "outfit" ].
Proof.
  intros items.
  split; [reflexivity|]. split; [lia|].
  destruct (top_items_stable ascii_runtime items 3) as [H _];
    [reflexivity | lia | exact H].
Defined.

(** With a negative [n] the slice [[:n]] drops items from the end
    instead. *)
Example negative_count :
  slice_to (-1) [1; 2; 3] = [1; 2] /\ slice_to (-5) [1; 2; 3] = []
  /\ slice_to 0 [1; 2; 3] = [] /\ slice_to 5 [1; 2; 3] = [1; 2; 3].
Proof. repeat split. Qed.

(** ** Binary64: range and exactness *)

Lemma rne_div_bounds a b :
  0 <= a -> 0 < b -> a / b <= F64.rne_div a b <= a / b + 1.
Proof.
  intros Ha Hb. unfold F64.rne_div.
  destruct (2 * (a mod b) <? b); [lia|].
  destruct (b <? 2 * (a mod b)); [lia|].
  destruct (Z.even (a / b)); lia.
Qed.

Lemma rne_div_multiple k c : 0 < c -> F64.rne_div (k * c) c = k.
Proof.
  intros Hc. unfold F64.rne_div.
  rewrite Z.mod_mul, Z.div_mul by lia.
  replace (2 * 0 <? c) with true by (symmetry; apply Z.ltb_lt; lia).
  reflexivity.
Qed.

Lemma pow2_split a b : 0 <= a -> 0 <= b -> 2 ^ (a + b) = 2 ^ a * 2 ^ b.
Proof. intros. apply Z.pow_add_r; assumption. Qed.

(** When [num < den] the quotient is below one. *)
Lemma ilog2_rat_small num den :
  0 < num -> num < den -> F64.ilog2_rat num den < 0.
Proof.
  intros Hn Hd. unfold F64.ilog2_rat.
  assert (Hab : Z.log2 num <= Z.log2 den) by (apply Z.log2_le_mono; lia).
  destruct (Z.log2 den <=? Z.log2 num) eqn:E.
  - apply Z.leb_le in E.
    replace (Z.log2 num - Z.log2 den) with 0 by lia.
    rewrite Z.pow_0_r.
    destruct (den * 1 <=? num) eqn:E'; [apply Z.leb_le in E'|]; lia.
  - apply Z.leb_gt in E.
    destruct (den <=? num * 2 ^ (Z.log2 den - Z.log2 num)); lia.
Qed.

(** When [den <= num] the result brackets the quotient. *)
Lemma ilog2_rat_spec num den :
  0 < den -> den <= num ->
  let L := F64.ilog2_rat num den in
  0 <= L /\ den * 2 ^ L <= num < den * 2 ^ (L + 1).
Proof.
  intros Hd Hn. unfold F64.ilog2_rat.
  assert (Hab : Z.log2 den <= Z.log2 num) by (apply Z.log2_le_mono; lia).
  destruct (Z.log2_spec num ltac:(lia)) as [Ha1 Ha2].
  destruct (Z.log2_spec den Hd) as [Hb1 Hb2].
  pose proof (Z.log2_nonneg den) as Hb0.
  replace (Z.log2 den <=? Z.log2 num) with true
    by (symmetry; apply Z.leb_le; lia).
  set (a := Z.log2 num) in *. set (b := Z.log2 den) in *.
  assert (HA : 2 ^ a = 2 ^ b * 2 ^ (a - b))
    by (rewrite <- pow2_split by lia; f_equal; lia).
  assert (HA' : 2 ^ Z.succ a = 2 ^ b * 2 ^ (a - b + 1))
    by (rewrite <- pow2_split by lia; f_equal; lia).
  assert (HD : 0 < 2 ^ (a - b)) by (apply Z.pow_pos_nonneg; lia).
  assert (HD1 : 2 ^ (a - b + 1) = 2 * 2 ^ (a - b))
    by (rewrite Z.pow_add_r by lia; lia).
  destruct (den * 2 ^ (a - b) <=? num) eqn:E; cbn zeta.
  - apply Z.leb_le in E. split; [lia|]. split; [exact E|].
    rewrite HD1. nia.
  - apply Z.leb_gt in E.
    assert (Hab' : b < a).
    { destruct (Z.eq_dec a b) as [e|]; [|lia].
      rewrite e, Z.sub_diag, Z.pow_0_r in E. lia. }
    assert (HD2 : 2 ^ (a - b) = 2 * 2 ^ (a - b - 1)).
    { replace (a - b) with (1 + (a - b - 1)) at 1 by lia.
      rewrite Z.pow_add_r by lia. lia. }
    assert (HB1 : 2 ^ Z.succ b = 2 * 2 ^ b)
      by (rewrite Z.pow_succ_r by lia; lia).
    assert (HD3 : 0 < 2 ^ (a - b - 1)) by (apply Z.pow_pos_nonneg; lia).
    split; [lia|]. split.
    + nia.
    + replace (a - b - 1 + 1) with (a - b) by lia. exact E.
Qed.

(** A quotient below [2^1023] rounds to a finite double. *)
Lemma round_rat_finite sign num den :
  0 <= num -> 0 < den -> num < den * 2 ^ 1023 ->
  F64.too_large (F64.round_rat sign num den) = false.
Proof.
  intros Hn Hd Hlt. unfold F64.round_rat.
  destruct (num =? 0) eqn:E0; [reflexivity|].
  apply Z.eqb_neq in E0.
  unfold F64.too_large. cbn [F64.exp F64.man].
  set (L := F64.ilog2_rat num den).
  set (e := Z.max (L - 52) (-1074)).
  destruct (0 <=? e) eqn:Ee; [|reflexivity].
  apply Z.leb_le in Ee. cbn [andb].
  apply Z.leb_gt.
  assert (HL : 52 <= L) by lia.
  assert (He : e = L - 52) by lia.
  destruct (Z.lt_ge_cases num den) as [Hsmall|Hbig].
  { pose proof (ilog2_rat_small num den ltac:(lia) Hsmall). fold L in H. lia. }
  destruct (ilog2_rat_spec num den Hd Hbig) as (_ & Hlo & Hhi). fold L in Hlo, Hhi.
  assert (Hpe : 0 < 2 ^ e) by (apply Z.pow_pos_nonneg; lia).
  assert (HL1 : 2 ^ (L + 1) = 2 ^ e * 2 ^ 53)
    by (rewrite <- pow2_split by lia; f_equal; lia).
  assert (HL2 : L < 1023).
  { apply (Z.pow_lt_mono_r_iff 2); [lia | lia |]. nia. }
  assert (Hq : num / (den * 2 ^ e) < 2 ^ 53).
  { apply Z.div_lt_upper_bound; [nia|]. rewrite HL1 in Hhi. nia. }
  pose proof (rne_div_bounds num (den * 2 ^ e) Hn ltac:(nia)) as [_ Hm].
  assert (Hle : 2 ^ (L + 1) <= 2 ^ 1023)
    by (apply Z.pow_le_mono_r; lia).
  assert (H24 : 2 ^ 1024 = 2 * 2 ^ 1023) by reflexivity.
  assert (H23 : 0 < 2 ^ 1023) by reflexivity.
  rewrite H24.
  set (m := F64.rne_div num (den * 2 ^ e)) in *.
  assert (m * 2 ^ e <= 2 ^ 53 * 2 ^ e) by nia.
  lia.
Qed.

(** A quotient that is an integer below [2^53] is not rounded. *)
Lemma round_rat_exact q c :
  0 <= q < 2 ^ 53 -> 0 < c ->
  is_exactly (F64.round_rat false (q * c) c) (q * c) c.
Proof.
  intros [Hq0 Hq] Hc. unfold is_exactly, F64.round_rat.
  destruct (q * c =? 0) eqn:E0.
  { apply Z.eqb_eq in E0. cbn. rewrite E0. split; reflexivity. }
  apply Z.eqb_neq in E0.
  assert (Hq1 : 0 < q) by nia.
  destruct (ilog2_rat_spec (q * c) c Hc ltac:(nia)) as (HL & Hlo & Hhi).
  set (L := F64.ilog2_rat (q * c) c) in *.
  assert (HpL : 0 < 2 ^ L) by (apply Z.pow_pos_nonneg; lia).
  assert (HL52 : L <= 52).
  { assert (2 ^ L < 2 ^ 53) by nia.
    apply (Z.pow_lt_mono_r_iff 2) in H; lia. }
  cbn [F64.neg F64.man F64.exp]. split; [reflexivity|].
  replace (Z.max (L - 52) (-1074)) with (L - 52) by lia.
  destruct (0 <=? L - 52) eqn:Ee.
  - apply Z.leb_le in Ee. replace (L - 52) with 0 by lia.
    rewrite Z.pow_0_r. replace (c * 1) with c by lia.
    rewrite rne_div_multiple by assumption. cbn. lia.
  - apply Z.leb_gt in Ee.
    replace (Z.max 0 (L - 52)) with 0 by lia.
    replace (Z.max 0 (- (L - 52))) with (- (L - 52)) by lia.
    replace (q * c * 2 ^ (- (L - 52))) with (q * 2 ^ (- (L - 52)) * c) by lia.
    rewrite rne_div_multiple by assumption.
    rewrite Z.pow_0_r. lia.
Qed.

Lemma of_int_finite n :
  0 <= n < 2 ^ 1023 -> F64.of_int n = Ok (F64.round_rat false n 1).
Proof.
  intros [H0 H1]. unfold F64.of_int.
  replace (n <? 0) with false by (symmetry; apply Z.ltb_ge; lia).
  rewrite Z.abs_eq by assumption.
  rewrite round_rat_finite by lia. reflexivity.
Qed.

Lemma truediv_finite a b :
  0 <= a < 2 ^ 1023 -> 0 < b ->
  F64.truediv a b = Ok (F64.round_rat false a b).
Proof.
  intros [H0 H1] Hb. unfold F64.truediv.
  replace (b =? 0) with false by (symmetry; apply Z.eqb_neq; lia).
  replace (a <? 0) with false by (symmetry; apply Z.ltb_ge; lia).
  replace (b <? 0) with false by (symmetry; apply Z.ltb_ge; lia).
  cbn [xorb]. rewrite !Z.abs_eq by lia.
  rewrite round_rat_finite; [reflexivity | lia | lia |].
  assert (0 < 2 ^ 1023) by reflexivity. nia.
Qed.

(** ** Statistics *)

Lemma valid_item_inv item :
  valid_item item = true -> well_formed item = true /\ 0 <= item_price item.
Proof.
  unfold valid_item. rewrite andb_true_iff, Z.leb_le. tauto.
Qed.

Lemma valid_items_well_formed items :
  forallb valid_item items = true -> forallb well_formed items = true.
Proof.
  induction items as [|x l IH]; [reflexivity|].
  intros H. apply forallb_cons in H as [Hx Hl].
  apply valid_item_inv in Hx as [Hx _].
  cbn [forallb]. now rewrite Hx, IH.
Qed.

Lemma sum_prices_from items : forall acc,
  forallb well_formed items = true ->
  for_each items acc (fun total item =>
    price <- Py.item item "price" ;;
    p <- Py.as_int price ;;
    Ok (total + p))
  = Ok (acc + sum_of_prices items).
Proof.
  induction items as [|x l IH]; intros acc H.
  - cbn. f_equal. lia.
  - apply forallb_cons in H as [Hx Hl].
    cbn [for_each]. rewrite (well_formed_price x Hx).
    cbn [bind Py.as_int]. rewrite (IH _ Hl).
    cbn [sum_of_prices fold_right]. f_equal. fold (sum_of_prices l). lia.
Qed.

Lemma sum_prices_well_formed items :
  forallb well_formed items = true ->
  sum_prices items = Ok (sum_of_prices items).
Proof. intros H. unfold sum_prices. now rewrite sum_prices_from. Qed.

Lemma sum_of_prices_nonneg items :
  forallb valid_item items = true -> 0 <= sum_of_prices items.
Proof.
  induction items as [|x l IH]; intros H; [cbn; lia|].
  apply forallb_cons in H as [Hx Hl]. apply valid_item_inv in Hx as [_ Hx].
  specialize (IH Hl). cbn [sum_of_prices fold_right].
  fold (sum_of_prices l). lia.
Qed.

Lemma price_le_sum x items :
  forallb valid_item items = true -> In x items ->
  0 <= item_price x <= sum_of_prices items.
Proof.
  induction items as [|y l IH]; intros H Hin; [destruct Hin|].
  apply forallb_cons in H as [Hy Hl].
  pose proof (sum_of_prices_nonneg l Hl) as Hs.
  apply valid_item_inv in Hy as [_ Hy].
  cbn [sum_of_prices fold_right]. fold (sum_of_prices l).
  destruct Hin as [->|Hin]; [lia|].
  specialize (IH Hl Hin). lia.
Qed.

(** *** The maximum *)

Lemma max_from_first best items :
  forallb well_formed items = true ->
  exists m, max_from best (item_price best) items = Ok m
    /\ first_of_max_price m (best :: items).
Proof.
  revert best. induction items as [|x l IH]; intros best H.
  - exists best. split; [reflexivity|]. exists [], []. repeat split; constructor.
  - apply forallb_cons in H as [Hx Hl].
    cbn [max_from]. rewrite (well_formed_price x Hx). cbn [bind Py.as_int].
    destruct (item_price best <? item_price x) eqn:E.
    + apply Z.ltb_lt in E.
      destruct (IH x Hl) as (m & Hm & before & after & Heq & Hb & Ha).
      exists m. split; [exact Hm|].
      exists (best :: before), after. cbn [app]. rewrite Heq.
      repeat split; [|exact Ha].
      constructor; [|exact Hb].
      destruct before as [|b before'].
      * cbn [app] in Heq. injection Heq as ->. exact E.
      * cbn [app] in Heq. injection Heq as <- _.
        inversion Hb; subst. lia.
    + apply Z.ltb_ge in E.
      destruct (IH best Hl) as (m & Hm & before & after & Heq & Hb & Ha).
      exists m. split; [exact Hm|].
      destruct before as [|b before'].
      * cbn [app] in Heq. injection Heq as <- ->.
        exists [], (x :: after). repeat split; constructor; assumption.
      * cbn [app] in Heq. injection Heq as <- ->.
        exists (best :: x :: before'), after. repeat split; [|exact Ha].
        inversion Hb; subst.
        constructor; [assumption|]. constructor; [lia | assumption].
Qed.

Lemma max_by_price_first first rest :
  forallb well_formed (first :: rest) = true ->
  exists m, max_by_price first rest = Ok m
    /\ first_of_max_price m (first :: rest).
Proof.
  intros H. apply forallb_cons in H as [Hx Hl].
  unfold max_by_price. rewrite (well_formed_price first Hx).
  cbn [bind Py.as_int]. now apply max_from_first.
Qed.

Lemma first_of_max_price_in m items :
  first_of_max_price m items -> In m items.
Proof.
  intros (before & after & -> & _). apply in_or_app. right. now left.
Qed.

(** *** Rendering cannot fail on valid figures *)

Lemma vbucks_to_rubles_finite n :
  0 <= n < 2 ^ 1023 ->
  vbucks_to_rubles (VInt n)
  = Ok (vbucks_to_rubles_float (F64.round_rat false n 1)).
Proof.
  intros H. unfold vbucks_to_rubles. cbn [Py.as_int bind].
  now rewrite of_int_finite.
Qed.

Lemma format_price_finite n :
  0 <= n < 2 ^ 1023 -> exists s, format_price_with_rub (VInt n) = Ok s.
Proof.
  intros H. unfold format_price_with_rub.
  rewrite vbucks_to_rubles_finite by assumption.
  cbn [bind Py.as_int]. eexists. reflexivity.
Qed.

(** A document with at least one item holds its sections in a dict. *)
Lemma items_need_snapshot data x l :
  get_all_items data = Ok (x :: l) -> is_snapshot data = true.
Proof.
  unfold get_all_items, is_snapshot.
  destruct (Py.get data "data" data) as [shop_data|e]; [|discriminate].
  cbn [bind].
  destruct shop_data as [| | |s|sl|d]; try discriminate; try reflexivity.
  - unfold extend_from. cbn [Py.contains bind Py.item].
    destruct (Str.contains "daily" s); [discriminate|].
    cbn [bind].
    destruct (Str.contains "featured" s); discriminate.
  - unfold extend_from. cbn [Py.contains bind Py.item].
    destruct (existsb (Py.is_str "daily") sl); [discriminate|].
    cbn [bind].
    destruct (existsb (Py.is_str "featured") sl); discriminate.
Qed.

Lemma snapshot_date_defined rt data :
  is_snapshot data = true -> exists date, snapshot_date rt data = Ok date.
Proof.
  unfold is_snapshot, snapshot_date.
  destruct (Py.get data "data" data) as [[| | | | |d]|e]; try discriminate.
  intros _. cbn [bind Py.get]. eexists. reflexivity.
Qed.

(** C6. For a non-empty flattened list of valid items (whose prices
    sum to a finite double), the figures of [get_shop_stats] are: the
    number of items; as total the sum of all prices; as average the
    floating-point quotient of total by count, that is the double
    nearest to it, and the quotient itself whenever it is an integer
    below [2^53]; as most expensive item the first item, in flattening
    order, among those of largest price.  The text returned is the
    rendering of these figures. *)
Theorem shop_stats_figures (rt : runtime) (data first : value)
    (rest : list value) :
  get_all_items data = Ok (first :: rest) ->
  forallb valid_item (first :: rest) = true ->
  sum_of_prices (first :: rest) < 2 ^ 1023 ->
  exists st date text,
    compute_stats first rest = Ok st
    /\ total_items st = Z.of_nat (List.length (first :: rest))
    /\ total_value_vb st = sum_of_prices (first :: rest)
    /\ F64.truediv (total_value_vb st) (total_items st) = Ok (avg_price_vb st)
    /\ avg_price_vb st
       = F64.round_rat false (total_value_vb st) (total_items st)
    /\ (forall q, 0 <= q < 2 ^ 53 ->
          total_value_vb st = q * total_items st ->
          is_exactly (avg_price_vb st) (total_value_vb st) (total_items st))
    /\ first_of_max_price (max_item st) (first :: rest)
    /\ max_name st = VStr (item_name (max_item st))
    /\ max_price_vb st = VInt (item_price (max_item st))
    /\ snapshot_date rt data = Ok date
    /\ stats_text rt date st = Ok text
    /\ get_shop_stats rt data = Ok text.
Proof.
  intros Hitems Hvalid Hsum.
  pose proof (valid_items_well_formed _ Hvalid) as Hwf.
  pose proof (sum_of_prices_nonneg _ Hvalid) as Hsum0.
  set (items := first :: rest) in *.
  set (total := sum_of_prices items) in *.
  set (count := Z.of_nat (List.length items)).
  assert (Hcount : 0 < count) by (subst count items; cbn [List.length]; lia).
  destruct (max_by_price_first first rest Hwf) as (m & Hm & Hfirst).
  pose proof (first_of_max_price_in _ _ Hfirst) as Hin.
  destruct (price_le_sum m items Hvalid Hin) as [Hm0 Hmle].
  assert (Hmwf : well_formed m = true).
  { rewrite forallb_forall in Hwf. now apply Hwf. }
  destruct (snapshot_date_defined rt data (items_need_snapshot _ _ _ Hitems))
    as [date Hdate].
  destruct (format_price_finite (item_price m) ltac:(fold total in Hmle; lia))
    as [ps Hps].
  set (st := {| total_items := count; total_value_vb := total;
       total_value_rub := vbucks_to_rubles_float (F64.round_rat false total 1);
       avg_price_vb := F64.round_rat false total count;
       avg_price_rub :=
         vbucks_to_rubles_float (F64.round_rat false total count);
       max_item := m; max_price_vb := VInt (item_price m);
       max_price_rub :=
         vbucks_to_rubles_float (F64.round_rat false (item_price m) 1);
       max_name := VStr (item_name m) |}).
  assert (Hstats : compute_stats first rest = Ok st).
  { unfold compute_stats. fold items. fold count.
    rewrite (sum_prices_well_formed items Hwf). fold total. cbn [bind].
    rewrite vbucks_to_rubles_finite by lia. cbn [bind].
    rewrite truediv_finite by lia. cbn [bind].
    rewrite Hm. cbn [bind].
    rewrite (well_formed_price m Hmwf). cbn [bind].
    rewrite vbucks_to_rubles_finite by lia. cbn [bind].
    rewrite (well_formed_name m Hmwf). cbn [bind]. reflexivity. }
  assert (Htext : exists text, stats_text rt date st = Ok text).
  { unfold stats_text. cbn [max_price_vb st]. rewrite Hps. cbn [bind].
    eexists. reflexivity. }
  destruct Htext as [text Htext].
  exists st, date, text.
  split; [exact Hstats|].
  subst st.
  cbn [total_items total_value_vb avg_price_vb max_item max_name max_price_vb].
  split; [reflexivity|]. split; [reflexivity|].
  split; [apply truediv_finite; lia|]. split; [reflexivity|].
  split.
  { intros q Hq Heq. rewrite Heq. apply round_rat_exact; assumption. }
  split; [exact Hfirst|]. split; [reflexivity|]. split; [reflexivity|].
  split; [exact Hdate|].
  split; [exact Htext|].
  unfold get_shop_stats. rewrite Hitems. subst items. cbn [bind].
  rewrite Hstats. cbn [bind]. rewrite Hdate. cbn [bind].
  exact Htext.
Qed.

Lemma shop_stats_figures_witness :
  let a := shop_item "a" 1800 "outfit" in
  let b := shop_item "b" 2400 "bundle" in
  let c := shop_item "c" 2400 "outfit" in
  let data := VDict [("daily", VList [VDict [("items", VList [a; b])]]);
                     ("featured", VList [VDict [("items", VList [c])]])] in
  get_all_items data = Ok [a; b; c]
  /\ forallb valid_item [a; b; c] = true
  /\ sum_of_prices [a; b; c] < 2 ^ 1023
  /\ exists st text,
       compute_stats a [b; c] = Ok st
       /\ total_value_vb st = 6600
       /\ is_exactly (avg_price_vb st) 6600 3
       /\ max_item st = b
       /\ get_shop_stats ascii_runtime data = Ok text.
Proof.
  intros a b c data.
  assert (H1 : get_all_items data = Ok [a; b; c]) by reflexivity.
  assert (H2 : forallb valid_item [a; b; c] = true) by reflexivity.
  assert (H3 : sum_of_prices [a; b; c] < 2 ^ 1023) by reflexivity.
  split; [exact H1|]. split; [exact H2|]. split; [exact H3|].
  destruct (shop_stats_figures ascii_runtime data a [b; c] H1 H2 H3)
    as (st & date & text & Hst & _ & Htot & _ & _ & Hex & _ & _ & _ & _ & _ & Hget).
  exists st, text.
  split; [exact Hst|].
  assert (E : compute_stats a [b; c] = Ok st) by exact Hst.
  vm_compute in E. injection E as <-.
  split; [reflexivity|]. split; [|split; [reflexivity | exact Hget]].
  split; reflexivity.
Defined.

(** ** Grouping *)

Lemma well_formed_type item :
  well_formed item = true ->
  Py.get item "type" (VStr "unknown") = Ok (item_type item).
Proof.
  intros H. destruct (well_formed_fields item H) as (d & -> & _ & _).
  reflexivity.
Qed.

Lemma well_formed_get_name item default :
  well_formed item = true ->
  Py.get item "name" default = Ok (VStr (item_name item)).
Proof.
  intros H. destruct (well_formed_fields item H) as (d & -> & Hn & _).
  cbn [Py.get]. now rewrite Hn.
Qed.

Lemma well_formed_get_price item default :
  well_formed item = true ->
  Py.get item "price" default = Ok (VInt (item_price item)).
Proof.
  intros H. destruct (well_formed_fields item H) as (d & -> & _ & Hp).
  cbn [Py.get]. now rewrite Hp.
Qed.

(** On well-formed items both grouping loops fold [add_item]. *)
Lemma group_with_defaults_fold items : forall g,
  forallb well_formed items = true ->
  for_each items g (fun g item =>
    name <- Py.get item "name" (VStr "Без названия") ;;
    price <- Py.get item "price" (VInt 0) ;;
    item_type <- Py.get item "type" (VStr "unknown") ;;
    group_add name price item_type g)
  = Ok (fold_left add_item items g).
Proof.
  induction items as [|x l IH]; intros g H; [reflexivity|].
  apply forallb_cons in H as [Hx Hl].
  cbn [for_each fold_left].
  rewrite (well_formed_get_name x _ Hx), (well_formed_get_price x _ Hx),
    (well_formed_type x Hx).
  cbn [bind group_add Py.hashable]. now apply IH.
Qed.

Lemma group_strict_fold items : forall g,
  forallb well_formed items = true ->
  for_each items g (fun g item =>
    name <- Py.item item "name" ;;
    price <- Py.item item "price" ;;
    item_type <- Py.get item "type" (VStr "unknown") ;;
    group_add name price item_type g)
  = Ok (fold_left add_item items g).
Proof.
  induction items as [|x l IH]; intros g H; [reflexivity|].
  apply forallb_cons in H as [Hx Hl].
  cbn [for_each fold_left].
  rewrite (well_formed_name x Hx), (well_formed_price x Hx),
    (well_formed_type x Hx).
  cbn [bind group_add Py.hashable]. now apply IH.
Qed.

(** A group at the head of the dict collects its own items; the other
    items go to the rest of the dict. *)
Lemma fold_add_item_head items : forall name entries g,
  fold_left add_item items ((VStr name, entries) :: g)
  = (VStr name, (entries ++ entries_of name items)%list)
    :: fold_left add_item (filter (other_name name) items) g.
Proof.
  induction items as [|x l IH]; intros name entries g.
  - cbn. now rewrite app_nil_r.
  - cbn [fold_left]. unfold add_item at 2. cbn [setdefault_append Py.key_eqb].
    unfold entries_of, other_name. cbn [filter].
    destruct (String.eqb name (item_name x)) eqn:E; cbn [negb map].
    + rewrite IH. unfold entries_of, other_name.
      now rewrite <- app_assoc.
    + rewrite IH. reflexivity.
Qed.

Lemma filter_filter_comm {A} (p q : A -> bool) l :
  filter p (filter q l) = filter q (filter p l).
Proof.
  induction l as [|x l IH]; [reflexivity|].
  cbn [filter]. destruct (p x) eqn:Ep, (q x) eqn:Eq; cbn [filter];
    rewrite ?Ep, ?Eq, IH; reflexivity.
Qed.

Lemma filter_absorb {A} (p q : A -> bool) l :
  (forall x, p x = true -> q x = true) ->
  filter p (filter q l) = filter p l.
Proof.
  intros H. induction l as [|x l IH]; [reflexivity|].
  cbn [filter]. destruct (q x) eqn:Eq; cbn [filter].
  - now rewrite IH.
  - destruct (p x) eqn:Ep; [|exact IH].
    apply H in Ep. congruence.
Qed.

Lemma first_seen_filter p l :
  first_seen (filter p l) = filter p (first_seen l).
Proof.
  induction l as [|x l IH]; [reflexivity|].
  cbn [filter first_seen]. destruct (p x) eqn:Ep.
  - cbn [first_seen]. rewrite IH. f_equal. apply filter_filter_comm.
  - rewrite IH. symmetry. apply filter_absorb.
    intros y Hy. destruct (String.eqb x y) eqn:E; [|reflexivity].
    apply String.eqb_eq in E. congruence.
Qed.

Lemma map_name_filter (p : string -> bool) items :
  map item_name (filter (fun it => p (item_name it)) items)
  = filter p (map item_name items).
Proof.
  induction items as [|x l IH]; [reflexivity|].
  cbn [filter map]. destruct (p (item_name x)); cbn [map]; now rewrite IH.
Qed.

Lemma entries_of_other name k items :
  String.eqb k name = false ->
  entries_of name (filter (other_name k) items) = entries_of name items.
Proof.
  intros H. unfold entries_of. f_equal. apply filter_absorb.
  intros x Hx. unfold other_name. apply String.eqb_eq in Hx. subst name.
  now rewrite H.
Qed.

Lemma filter_length_le {A} (p : A -> bool) l :
  (List.length (filter p l) <= List.length l)%nat.
Proof.
  induction l as [|x l IH]; [reflexivity|].
  cbn [filter]. destruct (p x); cbn [List.length]; lia.
Qed.

Lemma fold_add_item_grouped : forall n items,
  (List.length items <= n)%nat ->
  fold_left add_item items [] = grouped_entries items.
Proof.
  induction n as [|n IH]; intros items Hlen.
  - destruct items; [reflexivity | cbn in Hlen; lia].
  - destruct items as [|x l]; [reflexivity|].
    cbn [fold_left]. unfold add_item at 2. cbn [setdefault_append].
    rewrite fold_add_item_head.
    rewrite IH
      by (cbn in Hlen; pose proof (filter_length_le (other_name (item_name x)) l);
          lia).
    unfold grouped_entries. cbn [map first_seen].
    f_equal.
    + unfold entries_of. cbn [filter]. rewrite String.eqb_refl. reflexivity.
    + unfold other_name at 2.
      rewrite (map_name_filter (fun y => negb (String.eqb (item_name x) y)) l).
      rewrite first_seen_filter.
      apply map_ext_in. intros name Hin.
      apply filter_In in Hin as [_ Hne].
      apply negb_true_iff in Hne.
      rewrite entries_of_other by assumption.
      unfold entries_of. cbn [filter].
      rewrite String.eqb_sym in Hne. now rewrite Hne.
Qed.

(** *** The order of first occurrences *)

Lemma first_seen_in x l : In x (first_seen l) <-> In x l.
Proof.
  induction l as [|y l IH]; [reflexivity|].
  cbn [first_seen In]. rewrite filter_In, IH.
  destruct (String.eqb y x) eqn:E.
  - apply String.eqb_eq in E. subst. cbn. tauto.
  - apply String.eqb_neq in E. cbn. tauto.
Qed.

Lemma first_seen_nodup l : NoDup (first_seen l).
Proof.
  induction l as [|y l IH]; [constructor|].
  cbn [first_seen]. constructor.
  - rewrite filter_In. intros [_ H]. now rewrite String.eqb_refl in H.
  - now apply NoDup_filter.
Qed.

Lemma strongly_sorted_filter {A} (R : A -> A -> Prop) p l :
  StronglySorted R l -> StronglySorted R (filter p l).
Proof.
  induction 1 as [|x l Hs IH Hall]; [constructor|].
  cbn [filter]. destruct (p x); [|exact IH].
  constructor; [exact IH|].
  rewrite Forall_forall in *. intros y Hy.
  apply filter_In in Hy as [Hy _]. now apply Hall.
Qed.

Lemma strongly_sorted_impl_in {A} (R R' : A -> A -> Prop) l :
  (forall a b, In a l -> In b l -> R a b -> R' a b) ->
  StronglySorted R l -> StronglySorted R' l.
Proof.
  intros H Hs. induction Hs as [|x l Hs IH Hall]; [constructor|].
  constructor.
  - apply IH. intros a b Ha Hb. apply H; now right.
  - rewrite Forall_forall in *. intros y Hy.
    apply H; [now left | now right | now apply Hall].
Qed.

Lemma first_seen_by_first_index l :
  StronglySorted (fun a b => (first_index a l < first_index b l)%nat)
    (first_seen l).
Proof.
  induction l as [|x l IH]; [constructor|].
  cbn [first_seen]. constructor.
  - apply strongly_sorted_filter with (p := fun y => negb (String.eqb x y)) in IH.
    revert IH. apply strongly_sorted_impl_in.
    intros a b Ha Hb Hab.
    apply filter_In in Ha as [_ Ha]. apply filter_In in Hb as [_ Hb].
    apply negb_true_iff in Ha, Hb.
    cbn [first_index].
    rewrite (String.eqb_sym a x), (String.eqb_sym b x), Ha, Hb. lia.
  - rewrite Forall_forall. intros y Hy.
    apply filter_In in Hy as [_ Hy]. apply negb_true_iff in Hy.
    cbn [first_index]. rewrite String.eqb_refl, (String.eqb_sym y x), Hy. lia.
Qed.

(** C4. For every list of well-formed items, both grouping loops
    (the one of [format_shop_text] and the one of [search_items])
    produce one group per distinct name, the names in the order of
    their first occurrence in the list -- each name once, exactly the
    names of the list, by increasing position of first occurrence --
    and under each name the (price, type) pairs of the items of that
    name in input order. *)
Theorem grouping_first_seen_order (items : list value) :
  forallb well_formed items = true ->
  group_with_defaults items = Ok (grouped_entries items)
  /\ group_strict items = Ok (grouped_entries items)
  /\ map fst (grouped_entries items)
     = map VStr (first_seen (map item_name items))
  /\ NoDup (first_seen (map item_name items))
  /\ (forall name,
        In name (first_seen (map item_name items))
        <-> In name (map item_name items))
  /\ StronglySorted
       (fun a b => (first_index a (map item_name items)
                    < first_index b (map item_name items))%nat)
       (first_seen (map item_name items))
  /\ (forall name,
        In name (map item_name items) ->
        In (VStr name,
            map (fun it => (VInt (item_price it), item_type it))
                (filter (fun it => String.eqb name (item_name it)) items))
           (grouped_entries items)).
Proof.
  intros Hwf.
  split; [|split; [|split; [|split; [|split; [|split]]]]].
  - unfold group_with_defaults. rewrite group_with_defaults_fold by assumption.
    f_equal. now apply (fold_add_item_grouped (List.length items)).
  - unfold group_strict. rewrite group_strict_fold by assumption.
    f_equal. now apply (fold_add_item_grouped (List.length items)).
  - unfold grouped_entries. rewrite map_map. reflexivity.
  - apply first_seen_nodup.
  - intros name. apply first_seen_in.
  - apply first_seen_by_first_index.
  - intros name Hin. unfold grouped_entries.
    apply in_map_iff. exists name. split; [reflexivity|].
    now apply first_seen_in.
Qed.

Lemma grouping_first_seen_order_witness :
  let items := [ shop_item "Jacket" 800 "outfit"; shop_item "Axe" 500 "pickaxe";
                 shop_item "Jacket" 1200 "bundle" ] in
  forallb well_formed items = true
  /\ group_with_defaults items
     = Ok [ (VStr "Jacket", [ (VInt 800, VStr "outfit");
                              (VInt 1200, VStr "bundle") ]);
            (VStr "Axe", [ (VInt 500, VStr "pickaxe") ]) ].
Proof.
  intros items. split; [reflexivity|].
  destruct (grouping_first_seen_order items) as [H _]; [reflexivity | exact H].
Defined.

(** ** Search *)

Lemma find_items_from rt query items : forall found,
  forallb well_formed items = true ->
  for_each items found (fun found item =>
    name <- Py.item item "name" ;;
    match name with
    | VStr s =>
        if Str.contains (str_lower rt query) (str_lower rt s)
        then Ok (found ++ [item])%list
        else Ok found
    | _ => Raise AttributeError
    end)
  = Ok (found ++ filter (matches rt query) items)%list.
Proof.
  induction items as [|x l IH]; intros found H.
  - cbn. now rewrite app_nil_r.
  - apply forallb_cons in H as [Hx Hl].
    cbn [for_each filter]. rewrite (well_formed_name x Hx). cbn [bind].
    unfold matches at 1.
    destruct (Str.contains (str_lower rt query) (str_lower rt (item_name x))).
    + cbn [bind]. rewrite (IH _ Hl). now rewrite <- app_assoc.
    + cbn [bind]. now rewrite (IH _ Hl).
Qed.





(** *** The order of the lines *)












(** ** Views without items *)

Lemma for_each_sections_acc (secs : list value) : forall acc more,
  for_each secs (acc ++ more)%list (fun items sec =>
    has_items <- Py.contains "items" sec ;;
    if has_items
    then its <- Py.item sec "items" ;; l <- Py.iter its ;; Ok (items ++ l)%list
    else Ok items)
  = (r <- for_each secs more (fun items sec =>
            has_items <- Py.contains "items" sec ;;
            if has_items
            then its <- Py.item sec "items" ;; l <- Py.iter its ;;
                 Ok (items ++ l)%list
            else Ok items) ;;
     Ok (acc ++ r)%list).
Proof.
  induction secs as [|sec secs IH]; intros acc more; [reflexivity|].
  cbn [for_each].
  destruct (Py.contains "items" sec) as [[|]|e]; cbn [bind]; try reflexivity.
  - destruct (Py.item sec "items") as [its|e]; cbn [bind]; [|reflexivity].
    destruct (Py.iter its) as [l|e]; cbn [bind]; [|reflexivity].
    rewrite <- app_assoc. apply IH.
  - apply IH.
Qed.

Lemma extend_from_acc shop_data key acc :
  extend_from shop_data key acc
  = (l <- extend_from shop_data key [] ;; Ok (acc ++ l)%list).
Proof.
  unfold extend_from.
  destruct (Py.contains key shop_data) as [[|]|e]; cbn [bind];
    [| now rewrite app_nil_r | reflexivity].
  destruct (Py.item shop_data key) as [sections|e]; cbn [bind]; [|reflexivity].
  destruct (Py.iter sections) as [secs|e]; cbn [bind]; [|reflexivity].
  rewrite <- (app_nil_r acc) at 1. apply for_each_sections_acc.
Qed.

(** On a snapshot the date is there or defaulted, and the view goes on
    to the sections. *)
Lemma section_items_snapshot rt data d section :
  Py.get data "data" data = Ok (VDict d) ->
  section_items rt data section
  = (items <- (if one_of section "all" "daily"
               then extend_from (VDict d) "daily" []
               else Ok []) ;;
     if one_of section "all" "featured"
     then extend_from (VDict d) "featured" items
     else Ok items).
Proof. intros Hget. unfold section_items. now rewrite Hget. Qed.

Lemma section_items_all rt data :
  is_snapshot data = true ->
  section_items rt data "all" = get_all_items data.
Proof.
  unfold is_snapshot.
  destruct (Py.get data "data" data) as [[| | | | |d]|e] eqn:Hget;
    try discriminate.
  intros _. rewrite (section_items_snapshot rt data d "all" Hget).
  unfold get_all_items. now rewrite Hget.
Qed.

(** The shop views read the date first: without a dict to read it
    from they raise before any item is looked at. *)
Lemma shop_view_needs_snapshot rt data section :
  is_snapshot data = false ->
  section_items rt data section = Raise AttributeError
  /\ format_shop_text rt data section = Raise AttributeError.
Proof.
  unfold is_snapshot, section_items, format_shop_text.
  destruct data as [| | | | |top]; cbn [Py.get bind]; try (now split).
  destruct (Py.lookup "data" top) as [[| | | | |d]|]; cbn [Py.get bind];
    try (now split); discriminate.
Qed.

(** What [format_shop_text] does with the items it has collected. *)
Lemma format_shop_text_collects rt data section :
  match section_items rt data section with
  | Raise e => format_shop_text rt data section = Raise e
  | Ok [] => format_shop_text rt data section = Ok "😢 В магазине нет предметов"
  | Ok items =>
      exists header,
        format_shop_text rt data section
        = (g <- group_with_defaults items ;;
           render_groups rt (fun i => Str.of_Z i ++ ". ") g header)
  end.
Proof.
  unfold section_items, format_shop_text.
  destruct (Py.get data "data" data) as [shop_data|e]; cbn [bind];
    [|reflexivity].
  destruct (Py.get shop_data "date" (VStr (now_dmy rt))) as [date|e];
    cbn [bind]; [|reflexivity].
  destruct (if one_of section "all" "daily"
            then extend_from shop_data "daily" []
            else Ok []) as [items|e]; cbn [bind]; [|reflexivity].
  destruct (if one_of section "all" "featured"
            then extend_from shop_data "featured" items
            else Ok items) as [[|x l]|e]; cbn [bind]; try reflexivity.
  eexists. reflexivity.
Qed.

Lemma format_shop_text_empty rt data section :
  section_items rt data section = Ok [] ->
  format_shop_text rt data section = Ok "😢 В магазине нет предметов".
Proof.
  intros H. pose proof (format_shop_text_collects rt data section) as Hc.
  now rewrite H in Hc.
Qed.

(** The flattened list splits into what the daily and the featured
    view collect. *)
Lemma sections_split rt data items :
  is_snapshot data = true ->
  get_all_items data = Ok items ->
  exists daily_items featured_items,
    section_items rt data "daily" = Ok daily_items
    /\ section_items rt data "featured" = Ok featured_items
    /\ section_items rt data "all" = Ok items
    /\ items = (daily_items ++ featured_items)%list.
Proof.
  intros Hsnap Hall.
  pose proof (section_items_all rt data Hsnap) as Hfull.
  unfold is_snapshot in Hsnap.
  destruct (Py.get data "data" data) as [[| | | | |d]|e] eqn:Hget;
    try discriminate.
  rewrite !(section_items_snapshot rt data d _ Hget).
  rewrite (section_items_snapshot rt data d _ Hget) in Hfull.
  unfold get_all_items in Hall. rewrite Hget in Hall. cbn [bind] in Hall.
  cbn [one_of String.eqb Ascii.eqb Bool.eqb orb] in *.
  destruct (extend_from (VDict d) "daily" []) as [dl|e]; [|discriminate].
  cbn [bind] in *. rewrite extend_from_acc in Hall.
  destruct (extend_from (VDict d) "featured" []) as [fl|e] eqn:Ef;
    [|discriminate].
  cbn [bind] in Hall. injection Hall as <-.
  exists dl, fl. repeat split.
  rewrite extend_from_acc, Ef. reflexivity.
Qed.

(** C10 (amended). A view that finds its item set empty returns its
    fixed notice, which is not empty, and does not raise.  The
    statistics, the top, the search and the random item look at the
    flattened list only.  The three shop views read the date before
    they collect items: on a snapshot (the data part is a dict) whose
    flattened list is empty every view returns its notice; on a
    document whose data part is no dict the shop views raise
    [AttributeError], whatever the section. *)
Theorem render_empty (rt : runtime) (v : view_kind) (data : value) :
  (view_items rt v data = Ok [] ->
   render rt v data = Ok (nothing_available v))
  /\ nothing_available v <> ""
  /\ (is_snapshot data = true ->
      get_all_items data = Ok [] ->
      view_items rt v data = Ok []
      /\ render rt v data = Ok (nothing_available v))
  /\ (is_snapshot data = false ->
      forall section,
        format_shop_text rt data section = Raise AttributeError)
  /\ (is_snapshot data = true ->
      view_items rt FullView data = get_all_items data).
Proof.
  assert (Hempty : view_items rt v data = Ok [] ->
                   render rt v data = Ok (nothing_available v)).
  { intros Hempty.
    destruct v; cbn [view_items render nothing_available section_of] in *;
      try (now apply format_shop_text_empty).
    - unfold get_shop_stats. now rewrite Hempty.
    - unfold get_top_items. now rewrite Hempty.
    - unfold search_items. now rewrite Hempty.
    - unfold random_item_message. now rewrite Hempty. }
  split; [exact Hempty|]. split; [|split; [|split]].
  - destruct v; cbn; discriminate.
  - intros Hsnap Hall.
    assert (Hitems : view_items rt v data = Ok []).
    { destruct (sections_split rt data [] Hsnap Hall)
        as (dl & fl & Hd & Hf & Ha & Heq).
      symmetry in Heq. apply app_eq_nil in Heq as [-> ->].
      destruct v; cbn [view_items section_of]; assumption. }
    split; [exact Hitems | now apply Hempty].
  - intros Hno section. now apply shop_view_needs_snapshot.
  - intros Hsnap. now apply section_items_all.
Qed.

Lemma render_empty_witness :
  let data := VDict [("data", VDict [("date", VStr "2024-03-01");
                                     ("daily", VList [VDict [("items", VList [])]]);
                                     ("featured", VList [])])] in
  let full := VDict [("daily", VList [VDict [("items", VList [VInt 1])]])] in
  is_snapshot data = true
  /\ get_all_items data = Ok []
  /\ render ascii_runtime (TopView 5) data = Ok "😢 Нет данных."
  /\ render ascii_runtime FullView data = Ok "😢 В магазине нет предметов"
  /\ view_items ascii_runtime FeaturedView full = Ok []
  /\ render ascii_runtime FeaturedView full = Ok "😢 В магазине нет предметов"
  /\ is_snapshot (VDict [("data", VStr "daily")]) = false
  /\ format_shop_text ascii_runtime (VDict [("data", VStr "daily")]) "all"
     = Raise AttributeError.
Proof.
  intros data full.
  assert (H1 : is_snapshot data = true) by reflexivity.
  assert (H2 : get_all_items data = Ok []) by reflexivity.
  assert (H3 : view_items ascii_runtime FeaturedView full = Ok [])
    by reflexivity.
  assert (H4 : is_snapshot (VDict [("data", VStr "daily")]) = false)
    by reflexivity.
  split; [exact H1|]. split; [exact H2|].
  split; [|split; [|split; [exact H3|split; [|split; [exact H4|]]]]].
  - destruct (render_empty ascii_runtime (TopView 5) data)
      as (_ & _ & H & _). exact (proj2 (H H1 H2)).
  - destruct (render_empty ascii_runtime FullView data)
      as (_ & _ & H & _). exact (proj2 (H H1 H2)).
  - destruct (render_empty ascii_runtime FeaturedView full) as (H & _).
    exact (H H3).
  - destruct (render_empty ascii_runtime FullView
                (VDict [("data", VStr "daily")])) as (_ & _ & _ & H & _).
    exact (H H4 "all").
Defined.

(** C10 as first stated fails: a document whose ["data"] is an empty
    list has no item -- the flattened list is empty and the statistics
    report the absence -- and the three shop views raise on it, because
    they ask the list for its date. *)
Theorem shop_views_raise_on_list_document :
  let data := VDict [("data", VList [])] in
  get_all_items data = Ok []
  /\ render ascii_runtime FullView data = Raise AttributeError
  /\ render ascii_runtime DailyView data = Raise AttributeError
  /\ render ascii_runtime FeaturedView data = Raise AttributeError
  /\ render ascii_runtime StatsView data = Ok "😢 Нет данных для статистики.".
Proof. repeat split. Qed.

(** ** The message on display *)

Lemma displayed_app log1 : forall log2 current,
  displayed (log1 ++ log2) current = displayed log2 (displayed log1 current).
Proof.
  induction log1 as [|e log1 IH]; intros log2 current; [reflexivity|].
  destruct e; cbn [displayed app]; apply IH.
Qed.

(** ** The fetch gateway *)

Lemma test_data_renders rt :
  holds_ok (format_shop_text rt (get_test_data rt) "all") = true.
Proof. vm_compute. reflexivity. Qed.

Lemma show_shop_result_run rt origin section w :
  show_shop_result rt origin section w
  = let data := fetched rt origin w in
    let w1 := after_fetch rt origin w in
    if Py.truthy data
    then match format_shop_text rt data section with
         | Ok text =>
             (Ok tt,
              after_calls w1
                [EditMessageText
                   (markdown text
                      (shop_rows ++ [back_row "🔙 Назад" "menu"])%list)])
         | Raise e => (Raise e, w1)
         end
    else (Ok tt,
          after_calls w1
            [EditMessageText (plain "😢 Не удалось получить данные магазина")]).
Proof.
  unfold show_shop_result, io_bind, fetch, after_fetch, fetched.
  cbv zeta.
  destruct (Py.truthy (get_shop_data rt (origin (requests w)))) eqn:E.
  - unfold write_last_shop_data, lift. cbn [last_shop_data requests outbox].
    destruct (format_shop_text rt (get_shop_data rt (origin (requests w))) section);
      reflexivity.
  - reflexivity.
Qed.

(** C1 (amended). [get_shop_data] never raises.  When the request
    fails, the status is not 200 or the body is not JSON, it returns the
    built-in sample, which is truthy, holds twenty items and renders as
    the full view.  On status 200 with a JSON body it returns that body
    as it is, whatever its shape.  It does not store anything itself:
    [show_shop_result] (and [/shop]) store the value it returned, sample
    included, as [last_shop_data] whenever that value is truthy, and
    [/daily] stores nothing. *)
Theorem get_shop_data_fallback (rt : runtime) :
  (forall reply,
     get_shop_data rt reply
     = match reply with
       | Response status_code (Some body) =>
           if status_code =? 200 then body else get_test_data rt
       | Response _ None => get_test_data rt
       | RequestFailed => get_test_data rt
       end)
  /\ Py.truthy (get_test_data rt) = true
  /\ (exists items,
        get_all_items (get_test_data rt) = Ok items
        /\ List.length items = 20%nat)
  /\ (exists text, format_shop_text rt (get_test_data rt) "all" = Ok text)
  /\ (forall origin w,
        fetch rt origin w
        = (Ok (fetched rt origin w),
           {| last_shop_data := last_shop_data w;
              requests := S (requests w);
              outbox := (outbox w ++ [OriginRequest])%list |}))
  /\ (forall origin section w,
        last_shop_data (snd (show_shop_result rt origin section w))
        = if Py.truthy (fetched rt origin w)
          then fetched rt origin w
          else last_shop_data w)
  /\ (forall origin w,
        last_shop_data (snd (shop rt origin w))
        = if Py.truthy (fetched rt origin w)
          then fetched rt origin w
          else last_shop_data w)
  /\ (forall origin w,
        last_shop_data (snd (daily rt origin w)) = last_shop_data w).
Proof.
  split; [|split; [|split; [|split; [|split; [|split; [|split]]]]]].
  - intros [|status [body|]]; cbn [get_shop_data]; try reflexivity.
    destruct (status =? 200); reflexivity.
  - reflexivity.
  - eexists. split; reflexivity.
  - pose proof (test_data_renders rt) as H.
    destruct (format_shop_text rt (get_test_data rt) "all") as [text|e];
      [now exists text | discriminate].
  - reflexivity.
  - intros origin section w. rewrite show_shop_result_run. cbv zeta.
    destruct (Py.truthy (fetched rt origin w)) eqn:E.
    + destruct (format_shop_text rt (fetched rt origin w) section);
        cbn [snd after_calls after_fetch last_shop_data]; now rewrite E.
    + cbn [snd after_calls after_fetch last_shop_data]. now rewrite E.
  - intros origin w.
    unfold shop, shop_command, io_bind, emit, refuses, accepting, fetch, fetched.
    cbn [last_shop_data requests outbox app].
    destruct (Py.truthy (get_shop_data rt (origin (requests w)))) eqn:E.
    + unfold write_last_shop_data, lift. cbn [last_shop_data requests outbox].
      destruct (format_shop_text rt (get_shop_data rt (origin (requests w))) "all");
        reflexivity.
    + reflexivity.
  - intros origin w.
    unfold daily, shop_command, io_bind, emit, refuses, accepting, fetch, io_ret.
    cbn [last_shop_data requests outbox app].
    destruct (Py.truthy (get_shop_data rt (origin (requests w)))) eqn:E.
    + unfold lift. cbn [last_shop_data requests outbox].
      destruct (format_shop_text rt (get_shop_data rt (origin (requests w))) "daily");
        reflexivity.
    + reflexivity.
Qed.

(** C1, as stated, fails: a status 200 whose body is the JSON list
    [[1]] -- not the expected shape -- is returned as it is instead of
    the sample; [show_shop_result] stores it and raises while
    rendering.  And a successful fetch made by [/daily] is not stored. *)
Lemma get_shop_data_keeps_any_body :
  let reply := Response 200 (Some (VList [VInt 1])) in
  get_shop_data ascii_runtime reply = VList [VInt 1]
  /\ get_shop_data ascii_runtime reply <> get_test_data ascii_runtime
  /\ show_shop_result ascii_runtime (fun _ => reply) "all" initial_world
     = (Raise AttributeError,
        {| last_shop_data := VList [VInt 1];
           requests := 1;
           outbox := [OriginRequest] |})
  /\ last_shop_data
       (snd (daily ascii_runtime (fun _ => Response 200 (Some new_catalog))
               initial_world))
     = VNone.
Proof.
  intros reply. split; [reflexivity|]. split; [|split; reflexivity].
  cbn. discriminate.
Qed.

(** ** The refresh button *)

(** C2 (amended). When [last_shop_data] is truthy the refresh button
    shows "🔄 Обновляю..." and then runs the full view, which makes a
    new request to the origin, stores what it fetched and renders that;
    the value cached before only opens the gate.  When nothing is
    cached, refresh makes no request, leaves the cache as it is and
    replaces the message by the bare text "Сначала загрузите магазин",
    without buttons.  The refresh button is offered under shop views,
    not in the main menu. *)
Theorem refresh_button (rt : runtime) (origin : nat -> origin_reply)
    (w : world) :
  button_handler rt origin "refresh" w
  = (if Py.truthy (last_shop_data w)
     then show_shop_result rt origin "all"
            (after_calls w [QueryAnswer;
                            EditMessageText (plain "🔄 Обновляю...")])
     else (Ok tt,
           after_calls w [QueryAnswer;
                          EditMessageText (plain "Сначала загрузите магазин")]))
  /\ (let w' := snd (button_handler rt origin "refresh" w) in
      if Py.truthy (last_shop_data w)
      then requests w' = S (requests w)
           /\ last_shop_data w'
              = (if Py.truthy (fetched rt origin w)
                 then fetched rt origin w
                 else last_shop_data w)
           /\ (forall text,
                 Py.truthy (fetched rt origin w) = true ->
                 format_shop_text rt (fetched rt origin w) "all" = Ok text ->
                 displayed (outbox w') None
                 = Some (markdown text
                           (shop_rows ++ [back_row "🔙 Назад" "menu"])%list))
      else requests w' = requests w
           /\ last_shop_data w' = last_shop_data w
           /\ displayed (outbox w') None
              = Some (plain "Сначала загрузите магазин"))
  /\ In "refresh" (callbacks shop_rows)
  /\ ~ In "refresh" (callbacks menu_rows).
Proof.
  assert (Hrun : button_handler rt origin "refresh" w
    = (if Py.truthy (last_shop_data w)
       then show_shop_result rt origin "all"
              (after_calls w [QueryAnswer;
                              EditMessageText (plain "🔄 Обновляю...")])
       else (Ok tt,
             after_calls w [QueryAnswer;
                            EditMessageText (plain "Сначала загрузите магазин")]))).
  { unfold button_handler. cbn [String.eqb Ascii.eqb Bool.eqb].
    unfold io_bind, emit, refuses, accepting, read_last_shop_data, after_calls.
    cbn [last_shop_data requests outbox].
    destruct (Py.truthy (last_shop_data w));
      cbn [last_shop_data requests outbox];
      rewrite <- app_assoc; reflexivity. }
  split; [exact Hrun|]. split; [|split].
  - cbv zeta. rewrite Hrun.
    destruct (Py.truthy (last_shop_data w)) eqn:Ecache.
    + rewrite show_shop_result_run. cbv zeta.
      set (w0 := after_calls w _).
      assert (Hf : fetched rt origin w0 = fetched rt origin w) by reflexivity.
      rewrite Hf.
      destruct (Py.truthy (fetched rt origin w)) eqn:Efetch.
      * destruct (format_shop_text rt (fetched rt origin w) "all") as [t|e] eqn:Et.
        -- cbn [snd after_calls after_fetch requests last_shop_data outbox].
           rewrite Hf, Efetch.
           split; [reflexivity|]. split; [reflexivity|].
           intros text _ [= <-].
           rewrite !displayed_app. reflexivity.
        -- cbn [snd after_calls after_fetch requests last_shop_data outbox].
           rewrite Hf, Efetch.
           split; [reflexivity|]. split; [reflexivity|].
           intros text _ [=].
      * cbn [snd after_calls after_fetch requests last_shop_data outbox].
        rewrite Hf, Efetch.
        split; [reflexivity|]. split; [reflexivity|].
        intros text [=].
    + cbn [snd after_calls requests last_shop_data outbox].
      split; [reflexivity|]. split; [reflexivity|].
      rewrite displayed_app. reflexivity.
  - cbn. tauto.
  - cbn. intuition discriminate.
Qed.

Lemma refresh_button_witness :
  let origin := fun _ : nat => Response 200 (Some new_catalog) in
  let cached := {| last_shop_data := old_catalog; requests := 0;
                   outbox := [] |} in
  Py.truthy (last_shop_data cached) = true
  /\ Py.truthy (fetched ascii_runtime origin cached) = true
  /\ exists text,
       format_shop_text ascii_runtime (fetched ascii_runtime origin cached) "all"
       = Ok text
       /\ displayed
            (outbox (snd (button_handler ascii_runtime origin "refresh" cached)))
            None
          = Some (markdown text (shop_rows ++ [back_row "🔙 Назад" "menu"])%list).
Proof.
  intros origin cached.
  split; [reflexivity|]. split; [reflexivity|].
  destruct (refresh_button ascii_runtime origin cached) as (_ & H & _).
  cbv zeta in H.
  change (Py.truthy (last_shop_data cached)) with true in H.
  destruct H as (_ & _ & H).
  eexists. split; [|apply H]; [| reflexivity |]; vm_compute; reflexivity.
Defined.

(** C2, as stated, fails.  With [old_catalog] cached and an origin that
    now serves [new_catalog], refresh makes a request and shows and
    stores the new catalog, not the cached one.  With nothing cached,
    what is on display afterwards is a bare notice, not the main
    menu. *)
Lemma refresh_fetches_again :
  let origin := fun _ : nat => Response 200 (Some new_catalog) in
  let cached := {| last_shop_data := old_catalog; requests := 0;
                   outbox := [] |} in
  let w' := snd (button_handler ascii_runtime origin "refresh" cached) in
  let w'' := snd (button_handler ascii_runtime origin "refresh" initial_world) in
  requests w' = 1%nat
  /\ In OriginRequest (outbox w')
  /\ last_shop_data w' = new_catalog
  /\ last_shop_data w' <> old_catalog
  /\ option_map (fun m => Ok (text m)) (displayed (outbox w') None)
     = Some (format_shop_text ascii_runtime new_catalog "all")
  /\ option_map (fun m => Ok (text m)) (displayed (outbox w') None)
     <> Some (format_shop_text ascii_runtime old_catalog "all")
  /\ displayed (outbox w'') None
     = Some (plain "Сначала загрузите магазин")
  /\ displayed (outbox w'') None <> Some (markdown menu_text menu_rows).
Proof.
  cbv zeta.
  split; [reflexivity|]. split; [vm_compute; tauto|].
  split; [reflexivity|]. split; [vm_compute; discriminate|].
  split; [reflexivity|]. split; [vm_compute; discriminate|].
  split; [reflexivity|]. vm_compute; discriminate.
Qed.

(** ** The nightly job *)

(** C3 (amended). When the nightly job fires it makes no request to
    the origin and renders no catalog: it sends to the configured chat
    one fixed notice (with the time of sending) under the menu buttons;
    the catalog is fetched only when one of these buttons is pressed.
    The job is registered for 00:00 UTC. *)
Theorem night_update_notice (rt : runtime) (chat_id : string) (w : world) :
  night_update rt chat_id w
  = (Ok tt,
     after_calls w [SendMessage chat_id (markdown (night_text rt) night_rows)])
  /\ requests (snd (night_update rt chat_id w)) = requests w
  /\ last_shop_data (snd (night_update rt chat_id w)) = last_shop_data w
  /\ ~ In OriginRequest
       [SendMessage chat_id (markdown (night_text rt) night_rows)]
  /\ callbacks night_rows
     = ["shop_all"; "shop_daily"; "shop_featured"; "random_item"; "stats";
        "top"; "exchange"]
  /\ map (fun j => (job_id j, hour j, minute j, timezone j)) scheduled_jobs
     = [("night", 0, 0, "UTC")]
  /\ map (fun j => job j rt chat_id w) scheduled_jobs
     = [night_update rt chat_id w].
Proof.
  repeat split. cbn. intuition discriminate.
Qed.

(** C3, as stated, fails: with the origin down, the full view would be
    the rendering of the sample; the job sends its notice instead and
    never asks the origin. *)
Lemma night_update_sends_no_catalog :
  let w' := snd (night_update ascii_runtime "1001" initial_world) in
  let full := format_shop_text ascii_runtime
                (get_shop_data ascii_runtime RequestFailed) "all" in
  requests w' = 0%nat
  /\ outbox w'
     = [SendMessage "1001" (markdown (night_text ascii_runtime) night_rows)]
  /\ holds_ok full = true
  /\ full <> Ok (night_text ascii_runtime)
  /\ forall m, displayed (outbox w') None = Some m -> full <> Ok (text m).
Proof.
  cbv zeta.
  assert (Hne : format_shop_text ascii_runtime
                  (get_shop_data ascii_runtime RequestFailed) "all"
                <> Ok (night_text ascii_runtime)).
  { intros H.
    apply (f_equal (fun r => match r with
                             | Ok t => Str.contains "V-Bucks" t
                             | Raise _ => false
                             end)) in H.
    vm_compute in H. discriminate. }
  split; [reflexivity|]. split; [reflexivity|]. split; [reflexivity|].
  split; [exact Hne|].
  intros m [= <-]. exact Hne.
Qed.

(** * Further properties of the code *)

(** ** Flattening *)

(** X1. On a snapshot the full view works on the list
    [get_all_items] returns, and that list is what the daily view
    collects followed by what the featured view collects, errors
    included.  What a shop view collects it either reports as absent,
    or groups and prints under a header; if collecting raises, so does
    the view. *)
Theorem get_all_items_daily_then_featured (rt : runtime) (data : value) :
  is_snapshot data = true ->
  section_items rt data "all" = get_all_items data
  /\ get_all_items data
     = (daily_items <- section_items rt data "daily" ;;
        featured_items <- section_items rt data "featured" ;;
        Ok (daily_items ++ featured_items)%list)
  /\ (forall section,
        match section_items rt data section with
        | Raise e => format_shop_text rt data section = Raise e
        | Ok [] =>
            format_shop_text rt data section
            = Ok "😢 В магазине нет предметов"
        | Ok items =>
            exists header,
              format_shop_text rt data section
              = (g <- group_with_defaults items ;;
                 render_groups rt (fun i => Str.of_Z i ++ ". ") g header)
        end).
Proof.
  intros Hsnap.
  split; [now apply section_items_all|].
  split; [|intros section; apply format_shop_text_collects].
  unfold is_snapshot in Hsnap.
  destruct (Py.get data "data" data) as [[| | | | |d]|e] eqn:Hget;
    try discriminate.
  rewrite !(section_items_snapshot rt data d _ Hget).
  unfold get_all_items. rewrite Hget.
  cbn [bind one_of String.eqb Ascii.eqb Bool.eqb orb].
  destruct (extend_from (VDict d) "daily" []) as [dl|e]; cbn [bind];
    [|reflexivity].
  apply extend_from_acc.
Qed.

Lemma get_all_items_daily_then_featured_witness :
  let a := shop_item "a" 100 "wrap" in
  let b := shop_item "b" 200 "emote" in
  let data := VDict [("daily", VList [VDict [("items", VList [a])]]);
                     ("featured", VList [VDict [("items", VList [b; a])]])] in
  is_snapshot data = true
  /\ section_items ascii_runtime data "daily" = Ok [a]
  /\ section_items ascii_runtime data "featured" = Ok [b; a]
  /\ get_all_items data = Ok [a; b; a]
  /\ section_items ascii_runtime data "all" = Ok [a; b; a].
Proof.
  intros a b data.
  assert (H : is_snapshot data = true) by reflexivity.
  destruct (get_all_items_daily_then_featured ascii_runtime data H)
    as (Hall & Hsplit & _).
  assert (Hd : section_items ascii_runtime data "daily" = Ok [a])
    by reflexivity.
  assert (Hf : section_items ascii_runtime data "featured" = Ok [b; a])
    by reflexivity.
  rewrite Hd, Hf in Hsplit. cbn [bind app] in Hsplit.
  split; [exact H|]. split; [exact Hd|]. split; [exact Hf|].
  split; [exact Hsplit|]. now rewrite Hall.
Defined.

Lemma sections_collect (secs : list value) : forall acc,
  forallb section_shaped secs = true ->
  for_each secs acc (fun items sec =>
    has_items <- Py.contains "items" sec ;;
    if has_items
    then its <- Py.item sec "items" ;; l <- Py.iter its ;; Ok (items ++ l)%list
    else Ok items)
  = Ok (acc ++ flat_map section_entries secs)%list.
Proof.
  induction secs as [|sec secs IH]; intros acc H.
  - cbn. now rewrite app_nil_r.
  - apply forallb_cons in H as [Hsec Hsecs].
    cbn [for_each flat_map].
    destruct sec as [| | | | |d]; try discriminate.
    cbn [section_shaped] in Hsec.
    cbn [Py.contains Py.item section_entries].
    destruct (Py.lookup "items" d) as [[| | | |l|]|]; try discriminate;
      cbn [bind Py.iter].
    + rewrite (IH _ Hsecs). now rewrite <- app_assoc.
    + rewrite (IH _ Hsecs). reflexivity.
Qed.

Lemma extend_from_shaped d key acc :
  sections_shaped (Py.lookup key d) = true ->
  extend_from (VDict d) key acc
  = Ok (acc ++ flat_map section_entries (sections_of (Py.lookup key d)))%list.
Proof.
  unfold extend_from, sections_shaped, sections_of.
  cbn [Py.contains Py.item].
  destruct (Py.lookup key d) as [[| | | |secs|]|]; try discriminate;
    cbn [bind Py.iter]; intros H.
  - now apply sections_collect.
  - cbn. now rewrite app_nil_r.
Qed.

(** X2. For a snapshot dict whose "daily" and "featured" entries are
    absent or lists of sections, flattening never raises and yields the
    items of the daily sections, then those of the featured sections,
    in source order and with repetitions; an absent entry or a section
    without "items" contributes nothing. *)
Theorem get_all_items_of_snapshot (data : value) (d : list (string * value)) :
  Py.get data "data" data = Ok (VDict d) ->
  sections_shaped (Py.lookup "daily" d) = true ->
  sections_shaped (Py.lookup "featured" d) = true ->
  get_all_items data
  = Ok (flat_map section_entries (sections_of (Py.lookup "daily" d))
        ++ flat_map section_entries (sections_of (Py.lookup "featured" d)))%list.
Proof.
  intros Hget Hdaily Hfeatured. unfold get_all_items.
  rewrite Hget. cbn [bind].
  rewrite (extend_from_shaped d "daily" [] Hdaily). cbn [bind app].
  now rewrite (extend_from_shaped d "featured" _ Hfeatured).
Qed.

Lemma get_all_items_of_snapshot_witness :
  let a := shop_item "a" 100 "wrap" in
  let b := shop_item "b" 200 "emote" in
  let d := [("daily", VList [VDict [("items", VList [a; b])];
                             VDict [("title", VStr "empty")];
                             VDict [("items", VList [a])]])] in
  Py.get (VDict d) "data" (VDict d) = Ok (VDict d)
  /\ sections_shaped (Py.lookup "daily" d) = true
  /\ sections_shaped (Py.lookup "featured" d) = true
  /\ get_all_items (VDict d) = Ok [a; b; a].
Proof.
  intros a b d.
  split; [reflexivity|]. split; [reflexivity|]. split; [reflexivity|].
  apply (get_all_items_of_snapshot (VDict d) d); reflexivity.
Defined.

(** ** Documents without sections *)





(** ** The countdown of [/nextupdate] *)

(** X4. For a valid time of day, [/nextupdate] reports a number of
    hours below 24 and of minutes below 60 which are the whole minutes
    left until the next local midnight; at midnight sharp, when a full
    day is left, it reports 0 h 0 min, because [delta.seconds] leaves
    the day out. *)
Theorem next_update_countdown (now : clock_time) :
  0 <= clock_hour now < 24 ->
  0 <= clock_minute now < 60 ->
  0 <= clock_second now < 60 ->
  0 <= clock_microsecond now < 1000000 ->
  0 <= hours_left now < 24
  /\ 0 <= minutes_left now < 60
  /\ (0 < microseconds_of now ->
      (hours_left now * 60 + minutes_left now) * 60000000
      <= until_midnight now
      < (hours_left now * 60 + minutes_left now + 1) * 60000000)
  /\ (microseconds_of now = 0 ->
      until_midnight now = 24 * 60 * 60000000
      /\ hours_left now = 0 /\ minutes_left now = 0).
Proof.
  intros Hh Hm Hs Hu.
  unfold hours_left, minutes_left, timedelta_seconds, until_midnight,
    microseconds_of.
  set (t := ((clock_hour now * 60 + clock_minute now) * 60 + clock_second now)
            * 1000000 + clock_microsecond now).
  assert (Ht : 0 <= t < 86400 * 1000000) by (subst t; lia).
  clearbody t.
  repeat split; intros; Z.div_mod_to_equations; lia.
Qed.

Lemma next_update_countdown_witness :
  let evening := {| clock_hour := 21; clock_minute := 14; clock_second := 59;
                    clock_microsecond := 500000 |} in
  (0 <= clock_hour evening < 24)
  /\ (0 <= clock_minute evening < 60)
  /\ (0 <= clock_second evening < 60)
  /\ (0 <= clock_microsecond evening < 1000000)
  /\ 0 <= hours_left evening < 24
  /\ next_update_text evening
     = "⏳ Следующее обновление магазина через **2 ч 45 мин** (в 3:00 МСК).".
Proof.
  intros evening.
  assert (H1 : 0 <= clock_hour evening < 24) by (cbn; lia).
  assert (H2 : 0 <= clock_minute evening < 60) by (cbn; lia).
  assert (H3 : 0 <= clock_second evening < 60) by (cbn; lia).
  assert (H4 : 0 <= clock_microsecond evening < 1000000) by (cbn; lia).
  split; [exact H1|]. split; [exact H2|]. split; [exact H3|].
  split; [exact H4|].
  split; [exact (proj1 (next_update_countdown evening H1 H2 H3 H4))|].
  reflexivity.
Defined.

(** ** What all handlers respect *)

Ltac unfold_handlers_any :=
  unfold button_handler, start, show_shop_result, show_random_item_result,
    show_stats_result, show_top_result, show_exchange_result, show_main_menu,
    edit_message_with_result, shop, daily, featured, shop_command,
    next_update, search_command, help_command, stats_command, top_command,
    text_command, random_command, exchange_command;
  unfold io_bind, emit, fetch, lift, io_ret, read_last_shop_data,
    write_last_shop_data.

(** The same when Telegram accepts every call. *)
Ltac unfold_handlers := unfold_handlers_any; unfold refuses, accepting.

Ltac split_cases :=
  repeat match goal with
         | |- context [match ?x with _ => _ end] =>
             lazymatch x with
             | context [match _ with _ => _ end] => fail
             | _ => destruct x eqn:?
             end
         | |- context [if ?x then _ else _] =>
             lazymatch x with
             | context [if _ then _ else _] => fail
             | context [match _ with _ => _ end] => fail
             | _ => destruct x eqn:?
             end
         end.

Ltac orderly_case :=
  cbn [fst snd last_shop_data requests outbox negb];
  split;
  [ eexists; rewrite <- ?app_assoc; try reflexivity;
    symmetry; apply app_nil_r
  | first
      [ left; split; reflexivity
      | right; split; [reflexivity|]; left; reflexivity
      | right; split; [reflexivity|]; right; split;
        [reflexivity | unfold fetched; assumption] ] ].

Lemma button_handler_orderly (T : Telegram) rt origin data :
  orderly rt origin (button_handler rt origin data).
Proof.
  intros w. cbv zeta. unfold_handlers_any.
  cbn [fst snd last_shop_data requests outbox].
  split_cases; orderly_case.
Qed.

Lemma command_handlers_orderly (T : Telegram) rt origin name h :
  In (name, h) (command_handlers rt origin) ->
  forall now args, orderly rt origin (h now args).
Proof.
  unfold command_handlers. cbn [In].
  intros H now args.
  repeat match type of H with
         | _ \/ _ => destruct H as [H|H]
         end;
    try contradiction; injection H as _ <-; intros w; cbv zeta;
    unfold_handlers_any; cbn [fst snd last_shop_data requests outbox];
    split_cases; orderly_case.
Qed.

(** X6. Whatever Telegram does with the calls, every button press and
    every registered command only adds calls to those already made,
    asks the origin at most once, and either leaves the cached
    snapshot as it is or replaces it by a truthy value fetched in that
    very run; so a cache that is truthy stays truthy, whatever the
    origin answers and also when the handler raises. *)
Theorem handlers_keep_order (T : Telegram) (rt : runtime)
    (origin : nat -> origin_reply) :
  (forall data, orderly rt origin (button_handler rt origin data))
  /\ (forall name h now args,
        In (name, h) (command_handlers rt origin) ->
        orderly rt origin (h now args))
  /\ (forall h w,
        orderly rt origin h ->
        Py.truthy (last_shop_data w) = true ->
        Py.truthy (last_shop_data (snd (h w))) = true).
Proof.
  split; [|split].
  - intros data. apply button_handler_orderly.
  - intros name h now args Hin.
    now apply (command_handlers_orderly T rt origin name).
  - intros h w Hh Hw. destruct (Hh w) as (_ & [[_ ->]|[_ [->|[-> Ht]]]]);
      assumption.
Qed.

Lemma handlers_keep_order_witness :
  let origin := fun _ : nat => Response 200 (Some (VDict [])) in
  let w := {| last_shop_data := old_catalog; requests := 3; outbox := [] |} in
  In ("stats", fun (_ : clock_time) (_ : list string) =>
                 stats_command ascii_runtime origin)
     (command_handlers ascii_runtime origin)
  /\ Py.truthy (last_shop_data w) = true
  /\ Py.truthy
       (last_shop_data (snd (button_handler ascii_runtime origin "refresh" w)))
     = true
  /\ Py.truthy
       (last_shop_data
          (snd (@button_handler edits_refused ascii_runtime origin "refresh" w)))
     = true
  /\ orderly ascii_runtime origin (stats_command ascii_runtime origin).
Proof.
  intros origin w.
  destruct (handlers_keep_order accepting ascii_runtime origin)
    as (Hb & Hc & Ht).
  destruct (handlers_keep_order edits_refused ascii_runtime origin)
    as (Hb' & _ & Ht').
  assert (Hin : In ("stats", fun (_ : clock_time) (_ : list string) =>
                               stats_command ascii_runtime origin)
                   (command_handlers ascii_runtime origin)).
  { cbn. tauto. }
  split; [exact Hin|]. split; [reflexivity|]. split; [|split].
  - apply Ht; [apply Hb | reflexivity].
  - apply Ht'; [apply Hb' | reflexivity].
  - exact (Hc _ _ {| clock_hour := 0; clock_minute := 0; clock_second := 0;
                     clock_microsecond := 0 |} [] Hin).
Defined.

(** ** Buttons *)

Lemma unknown_button_run rt origin data w :
  ~ In data known_buttons ->
  button_handler rt origin data w = (Ok tt, after_calls w [QueryAnswer]).
Proof.
  intros H. unfold button_handler.
  repeat match goal with
         | |- context [String.eqb data ?s] =>
             destruct (String.eqb_spec data s) as [->|_];
             [exfalso; apply H; cbn; tauto|]
         end.
  reflexivity.
Qed.

Lemma known_button_edits rt origin data w :
  In data known_buttons ->
  exists m rest,
    outbox (snd (button_handler rt origin data w))
    = (outbox w ++ QueryAnswer :: EditMessageText m :: rest)%list.
Proof.
  unfold known_buttons. cbn [In]. intros H.
  repeat match type of H with
         | _ \/ _ => destruct H as [H|H]
         end;
    try contradiction; subst data;
    unfold_handlers;
    cbn [String.eqb Ascii.eqb Bool.eqb fst snd last_shop_data requests outbox];
    split_cases;
    cbn [fst snd last_shop_data requests outbox];
    eexists; eexists; rewrite <- ?app_assoc; cbn [app]; reflexivity.
Qed.

(** X5. (Telegram accepting the calls.)  A button identifier is
    handled exactly when it is one of the
    ten the dispatcher knows: for these the message is edited right
    after the press is acknowledged; any other identifier is
    acknowledged and nothing else happens.  Every callback on the
    keyboards the bot sends is one of the ten. *)
Theorem button_dispatch (rt : runtime) (origin : nat -> origin_reply)
    (data : string) (w : world) :
  (In data known_buttons ->
   exists m rest,
     outbox (snd (button_handler rt origin data w))
     = (outbox w ++ QueryAnswer :: EditMessageText m :: rest)%list)
  /\ (~ In data known_buttons ->
      button_handler rt origin data w = (Ok tt, after_calls w [QueryAnswer]))
  /\ incl (callbacks menu_rows ++ callbacks shop_rows ++ callbacks night_rows
           ++ callbacks [back_row "🔙 Назад" "menu"]
           ++ callbacks [back_row "🔙 В меню" "menu"])%list
          known_buttons.
Proof.
  split; [apply known_button_edits|]. split; [apply unknown_button_run|].
  intros c Hc. cbn in Hc. cbn.
  repeat match type of Hc with
         | _ \/ _ => destruct Hc as [Hc|Hc]
         end; try contradiction; subst c; tauto.
Qed.

Lemma button_dispatch_witness :
  In "top" known_buttons
  /\ ~ In "shop_weekly" known_buttons
  /\ button_handler ascii_runtime (fun _ => RequestFailed) "shop_weekly"
       initial_world
     = (Ok tt, after_calls initial_world [QueryAnswer])
  /\ exists m rest,
       outbox (snd (button_handler ascii_runtime (fun _ => RequestFailed) "top"
                      initial_world))
       = QueryAnswer :: EditMessageText m :: rest.
Proof.
  assert (H1 : In "top" known_buttons) by (cbn; tauto).
  assert (H2 : ~ In "shop_weekly" known_buttons)
    by (cbn; intuition discriminate).
  destruct (button_dispatch ascii_runtime (fun _ => RequestFailed)
              "shop_weekly" initial_world) as (_ & Hu & _).
  destruct (button_dispatch ascii_runtime (fun _ => RequestFailed)
              "top" initial_world) as (Hk & _ & _).
  split; [exact H1|]. split; [exact H2|]. split; [exact (Hu H2)|].
  exact (Hk H1).
Defined.

(** ** Handlers that raise *)





(** ** Items without a price *)

Lemma for_each_app {A S : Type} (body : S -> A -> result S) xs : forall ys acc,
  for_each (xs ++ ys) acc body
  = (acc' <- for_each xs acc body ;; for_each ys acc' body).
Proof.
  induction xs as [|x xs IH]; intros ys acc; [reflexivity|].
  cbn [app for_each]. destruct (body acc x); cbn [bind]; [apply IH|reflexivity].
Qed.

Lemma map_result_app {A B : Type} (f : A -> result B) xs : forall ys,
  map_result f (xs ++ ys)
  = (l <- map_result f xs ;; r <- map_result f ys ;; Ok (l ++ r)%list).
Proof.
  induction xs as [|x xs IH]; intros ys.
  - cbn. destruct (map_result f ys); reflexivity.
  - cbn [app map_result]. destruct (f x); cbn [bind]; [|reflexivity].
    rewrite IH. destruct (map_result f xs); cbn [bind]; [|reflexivity].
    destruct (map_result f ys); reflexivity.
Qed.

Lemma sum_prices_missing pre d post :
  forallb well_formed pre = true ->
  Py.lookup "price" d = None ->
  sum_prices (pre ++ VDict d :: post) = Raise KeyError.
Proof.
  intros Hpre Hd. unfold sum_prices. rewrite for_each_app.
  rewrite sum_prices_from by assumption. cbn [bind for_each Py.item].
  now rewrite Hd.
Qed.

Lemma keys_missing pre d post :
  forallb well_formed pre = true ->
  Py.lookup "price" d = None ->
  map_result (fun item => k <- Py.item item "price" ;; Ok (k, item))
    (pre ++ VDict d :: post)
  = Raise KeyError.
Proof.
  intros Hpre Hd. rewrite map_result_app.
  rewrite keys_of_well_formed by assumption. cbn [bind map_result Py.item].
  now rewrite Hd.
Qed.

Lemma find_items_missing rt query pre d post :
  forallb well_formed pre = true ->
  Py.lookup "name" d = None ->
  find_items rt (pre ++ VDict d :: post) query = Raise KeyError.
Proof.
  intros Hpre Hd. unfold find_items. rewrite for_each_app.
  rewrite find_items_from by assumption. cbn [bind for_each Py.item].
  now rewrite Hd.
Qed.

(** X8. An item that is a dict without "price", coming after
    well-formed items, makes the statistics and the top raise
    [KeyError] -- the top for every [n], since the sort reads all
    prices before anything is cut -- and one without "name" makes the
    search raise [KeyError]; the grouping of the shop view instead
    takes the missing price as 0. *)
Theorem item_without_price (rt : runtime) (data : value)
    (pre post : list value) (d : list (string * value)) :
  get_all_items data = Ok (pre ++ VDict d :: post)%list ->
  forallb well_formed pre = true ->
  (Py.lookup "price" d = None ->
   get_shop_stats rt data = Raise KeyError
   /\ (forall n, get_top_items rt data n = Raise KeyError)
   /\ (forall name,
         Py.lookup "name" d = Some (VStr name) ->
         group_with_defaults [VDict d]
         = Ok [(VStr name, [(VInt 0, item_type (VDict d))])]))
  /\ (Py.lookup "name" d = None ->
      forall query, search_items rt data query = Raise KeyError).
Proof.
  intros Hitems Hpre.
  split.
  - intros Hd. split; [|split].
    + unfold get_shop_stats. rewrite Hitems. cbn [bind].
      pose proof (sum_prices_missing pre d post Hpre Hd) as Hsum.
      destruct (pre ++ VDict d :: post)%list as [|first rest] eqn:E.
      { discriminate Hsum. }
      unfold compute_stats. cbv zeta. now rewrite Hsum.
    + intros n. unfold get_top_items. rewrite Hitems. cbn [bind].
      pose proof (keys_missing pre d post Hpre Hd) as Hkeys.
      destruct (pre ++ VDict d :: post)%list as [|first rest] eqn:E.
      { discriminate Hkeys. }
      unfold top_items, sorted_by_price_desc. now rewrite Hkeys.
    + intros name Hname. unfold group_with_defaults.
      cbn [for_each Py.get]. rewrite Hname, Hd. reflexivity.
  - intros Hd query. unfold search_items. rewrite Hitems. cbn [bind].
    pose proof (find_items_missing rt query pre d post Hpre Hd) as Hfind.
    destruct (pre ++ VDict d :: post)%list as [|first rest] eqn:E.
    { discriminate Hfind. }
    now rewrite Hfind.
Qed.

Lemma item_without_price_witness :
  let good := shop_item "Axe" 500 "pickaxe" in
  let free := VDict [("name", VStr "Gift"); ("type", VStr "wrap")] in
  let data := VDict [("daily", VList [VDict [("items", VList [good; free])]])] in
  get_all_items data = Ok ([good] ++ free :: [])%list
  /\ forallb well_formed [good] = true
  /\ get_shop_stats ascii_runtime data = Raise KeyError
  /\ get_top_items ascii_runtime data 0 = Raise KeyError
  /\ holds_ok (format_shop_text ascii_runtime data "all") = true.
Proof.
  intros good free data.
  assert (H1 : get_all_items data = Ok ([good] ++ free :: [])%list)
    by reflexivity.
  assert (H2 : forallb well_formed [good] = true) by reflexivity.
  destruct (item_without_price ascii_runtime data [good] []
              [("name", VStr "Gift"); ("type", VStr "wrap")] H1 H2)
    as [Hprice _].
  destruct (Hprice eq_refl) as (Hstats & Htop & _).
  split; [exact H1|]. split; [exact H2|]. split; [exact Hstats|].
  split; [exact (Htop 0)|]. reflexivity.
Defined.

(** ** Grouping keeps every item *)

Lemma setdefault_append_count name entry g :
  entry_count (setdefault_append name entry g) = S (entry_count g).
Proof.
  induction g as [|[k entries] g IH]; [reflexivity|].
  cbn [setdefault_append]. destruct (Py.key_eqb k name); cbn [entry_count fold_right snd].
  - rewrite length_app. cbn [List.length]. fold (entry_count g). lia.
  - fold (entry_count (setdefault_append name entry g)). rewrite IH.
    fold (entry_count g). lia.
Qed.

Lemma setdefault_append_nonempty name entry g :
  Forall (fun group => snd group <> []) g ->
  Forall (fun group => snd group <> []) (setdefault_append name entry g).
Proof.
  induction 1 as [|[k entries] g Hk Hg IH]; cbn [setdefault_append].
  - constructor; [discriminate | constructor].
  - destruct (Py.key_eqb k name); constructor; auto.
    cbn [snd]. destruct entries; discriminate.
Qed.

Lemma setdefault_append_keys_forall (Q : value -> Prop) name entry g :
  Forall Q (map fst g) -> Q name ->
  Forall Q (map fst (setdefault_append name entry g)).
Proof.
  intros Hg Hname. induction g as [|[k entries] g IH]; cbn [setdefault_append].
  - repeat constructor. exact Hname.
  - inversion Hg as [|? ? Hk Hrest]; subst.
    destruct (Py.key_eqb k name); cbn [map fst]; constructor; auto.
Qed.

Lemma setdefault_append_distinct name entry g :
  ForallOrdPairs different_keys (map fst g) ->
  ForallOrdPairs different_keys (map fst (setdefault_append name entry g)).
Proof.
  induction g as [|[k entries] g IH]; cbn [setdefault_append]; intros H.
  - repeat constructor.
  - cbn [map fst] in H. inversion H as [|? ? Hk Hrest]; subst.
    destruct (Py.key_eqb k name) eqn:E; cbn [map fst].
    + constructor; assumption.
    + constructor; [|now apply IH].
      now apply setdefault_append_keys_forall.
Qed.

Lemma group_with_defaults_from items : forall g,
  forallb groupable items = true ->
  exists g',
    for_each items g (fun g item =>
      name <- Py.get item "name" (VStr "Без названия") ;;
      price <- Py.get item "price" (VInt 0) ;;
      item_type <- Py.get item "type" (VStr "unknown") ;;
      group_add name price item_type g) = Ok g'
    /\ entry_count g' = (entry_count g + List.length items)%nat
    /\ (Forall (fun group => snd group <> []) g ->
        Forall (fun group => snd group <> []) g')
    /\ (ForallOrdPairs different_keys (map fst g) ->
        ForallOrdPairs different_keys (map fst g')).
Proof.
  induction items as [|item items IH]; intros g H.
  - exists g. cbn. repeat split; auto.
  - apply forallb_cons in H as [Hitem Hitems].
    destruct item as [| | | | |d]; try discriminate.
    cbn [groupable] in Hitem. cbn [for_each Py.get bind].
    unfold group_add. rewrite Hitem.
    set (g1 := setdefault_append _ _ g).
    destruct (IH g1 Hitems) as (g' & Hrun & Hcount & Hne & Hdist).
    exists g'. split; [exact Hrun|]. split; [|split].
    + rewrite Hcount. unfold g1. rewrite setdefault_append_count.
      cbn [List.length]. lia.
    + intros Hg. apply Hne. now apply setdefault_append_nonempty.
    + intros Hg. apply Hdist. now apply setdefault_append_distinct.
Qed.

Lemma group_with_defaults_rejects items : forall g,
  forallb groupable items = false ->
  for_each items g (fun g item =>
    name <- Py.get item "name" (VStr "Без названия") ;;
    price <- Py.get item "price" (VInt 0) ;;
    item_type <- Py.get item "type" (VStr "unknown") ;;
    group_add name price item_type g) = Raise AttributeError
  \/ for_each items g (fun g item =>
       name <- Py.get item "name" (VStr "Без названия") ;;
       price <- Py.get item "price" (VInt 0) ;;
       item_type <- Py.get item "type" (VStr "unknown") ;;
       group_add name price item_type g) = Raise TypeError.
Proof.
  induction items as [|item items IH]; intros g H; [discriminate|].
  cbn [forallb] in H. cbn [for_each].
  destruct item as [| | | | |d]; try (left; reflexivity).
  cbn [Py.get bind]. unfold group_add.
  cbn [groupable] in H.
  destruct (Py.hashable _) eqn:E in H |- *.
  - cbn [andb] in H. apply IH. exact H.
  - right. reflexivity.
Qed.

(** X9. The grouping of the shop view succeeds exactly on lists of
    dicts whose name (the default name when the key is absent) is
    hashable; otherwise it raises [AttributeError] (an item that is not
    a dict) or [TypeError] (a list or dict as name).  When it succeeds
    no item is lost or repeated: the groups together hold as many
    entries as there are items, no group is empty and no two groups
    have the same key. *)
Theorem grouping_keeps_every_item (items : list value) :
  (forallb groupable items = true ->
   exists g,
     group_with_defaults items = Ok g
     /\ entry_count g = List.length items
     /\ Forall (fun group => snd group <> []) g
     /\ ForallOrdPairs different_keys (map fst g))
  /\ (forallb groupable items = false ->
      group_with_defaults items = Raise AttributeError
      \/ group_with_defaults items = Raise TypeError).
Proof.
  split.
  - intros H. destruct (group_with_defaults_from items [] H)
      as (g & Hrun & Hcount & Hne & Hdist).
    exists g. split; [exact Hrun|]. split; [exact Hcount|].
    split; [apply Hne; constructor | apply Hdist; constructor].
  - apply group_with_defaults_rejects.
Qed.

Lemma grouping_keeps_every_item_witness :
  let items := [ VDict [("price", VInt 300)];
                 VDict [("name", VInt 1); ("price", VInt 5)];
                 VDict [];
                 VDict [("name", VBool true)] ] in
  forallb groupable items = true
  /\ forallb groupable [VDict [("name", VList [])]] = false
  /\ (exists g, group_with_defaults items = Ok g /\ entry_count g = 4%nat)
  /\ group_with_defaults [VDict [("name", VList [])]] = Raise TypeError.
Proof.
  intros items.
  assert (H1 : forallb groupable items = true) by reflexivity.
  assert (H2 : forallb groupable [VDict [("name", VList [])]] = false)
    by reflexivity.
  split; [exact H1|]. split; [exact H2|]. split.
  - destruct (proj1 (grouping_keeps_every_item items) H1)
      as (g & Hg & Hcount & _).
    exists g. split; [exact Hg | exact Hcount].
  - destruct (proj2 (grouping_keeps_every_item [VDict [("name", VList [])]]) H2)
      as [H|H]; [discriminate H | exact H].
Defined.

(** Items without a name share the default group, and [True] joins
    the group of [1]. *)
Example grouping_defaults :
  group_with_defaults
    [ VDict [("price", VInt 300)];
      VDict [("name", VInt 1); ("price", VInt 5)];
      VDict [];
      VDict [("name", VBool true)] ]
  = Ok [ (VStr "Без названия",
          [ (VInt 300, VStr "unknown"); (VInt 0, VStr "unknown") ]);
         (VInt 1, [ (VInt 5, VStr "unknown"); (VInt 0, VStr "unknown") ]) ].
Proof. reflexivity. Qed.

(** ** How many items the top lists *)

Lemma by_price_desc_length items :
  List.length (by_price_desc items) = List.length items.
Proof.
  unfold by_price_desc. rewrite length_map.
  rewrite (Permutation_length (sort_desc_perm _)). apply length_map.
Qed.

Lemma by_price_desc_incl items : incl (by_price_desc items) items.
Proof.
  unfold by_price_desc. intros x Hx.
  apply in_map_iff in Hx as ([k y] & <- & Hin).
  apply (Permutation_in _ (sort_desc_perm _)) in Hin.
  apply in_map_iff in Hin as (z & [= _ ->] & Hz). exact Hz.
Qed.

Lemma in_firstn {A} (x : A) n l : In x (firstn n l) -> In x l.
Proof.
  intros H. rewrite <- (firstn_skipn n l). apply in_or_app. now left.
Qed.

(** X10. On well-formed items the top never raises and lists items of
    the catalog only: for [n >= 0] as many as the smaller of [n] and
    the number of items; for a negative [n] the slice drops the [-n]
    cheapest instead, leaving none when there are not more than that. *)
Theorem top_items_length (rt : runtime) (items : list value) (n : Z) :
  forallb well_formed items = true ->
  exists top,
    top_items rt items n = Ok top
    /\ incl top items
    /\ (0 <= n -> List.length top = Nat.min (Z.to_nat n) (List.length items))
    /\ (n < 0 -> List.length top = (List.length items - Z.to_nat (- n))%nat).
Proof.
  intros Hwf. unfold top_items.
  rewrite sorted_by_price_desc_well_formed by assumption. cbn [bind].
  eexists. split; [reflexivity|]. unfold slice_to. split; [|split].
  - intros x Hx. apply by_price_desc_incl.
    destruct (0 <=? n); now apply in_firstn in Hx.
  - intros Hn. replace (0 <=? n) with true by (symmetry; apply Z.leb_le; lia).
    rewrite length_firstn. now rewrite by_price_desc_length.
  - intros Hn. replace (0 <=? n) with false by (symmetry; apply Z.leb_gt; lia).
    rewrite length_firstn, by_price_desc_length. lia.
Qed.

Lemma top_items_length_witness :
  let items := [ shop_item "a" 5 "wrap"; shop_item "b" 7 "wrap" ] in
  forallb well_formed items = true
  /\ (0 <= 5)
  /\ (-1 < 0)
  /\ (exists top, top_items ascii_runtime items 5 = Ok top
                  /\ List.length top = 2%nat)
  /\ (exists top, top_items ascii_runtime items (-1) = Ok top
                  /\ List.length top = 1%nat).
Proof.
  intros items.
  assert (H : forallb well_formed items = true) by reflexivity.
  split; [exact H|]. split; [lia|]. split; [lia|]. split.
  - destruct (top_items_length ascii_runtime items 5 H) as (top & Ht & _ & Hl & _).
    exists top. split; [exact Ht|]. rewrite Hl by lia. reflexivity.
  - destruct (top_items_length ascii_runtime items (-1) H)
      as (top & Ht & _ & _ & Hl).
    exists top. split; [exact Ht|]. rewrite Hl by lia. reflexivity.
Defined.

(** ** The most expensive item and the top *)

Lemma first_of_max_price_unique m m' items :
  first_of_max_price m items -> first_of_max_price m' items -> m = m'.
Proof.
  intros (b1 & a1 & E1 & Hb1 & Ha1) (b2 & a2 & E2 & Hb2 & Ha2).
  rewrite E1 in E2. clear E1 items. revert b2 E2 Hb2.
  induction b1 as [|x b1 IH]; intros b2 E2 Hb2.
  - destruct b2 as [|y b2]; cbn [app] in E2.
    + now injection E2.
    + injection E2 as Ey Ea. apply Forall_inv in Hb2. rewrite <- Ey in Hb2.
      assert (Hin : In m' a1) by (rewrite Ea; apply in_or_app; right; now left).
      rewrite Forall_forall in Ha1. specialize (Ha1 m' Hin). lia.
  - pose proof (Forall_inv Hb1) as Hx. apply Forall_inv_tail in Hb1.
    destruct b2 as [|y b2]; cbn [app] in E2.
    + injection E2 as Ex Ea. rewrite Ex in Hx.
      assert (Hin : In m a2) by (rewrite <- Ea; apply in_or_app; right; now left).
      rewrite Forall_forall in Ha2. specialize (Ha2 m Hin). lia.
    + injection E2 as _ Ea. apply Forall_inv_tail in Hb2.
      now apply (IH Hb1 b2).
Qed.

Lemma first_of_max_price_bound m items x :
  first_of_max_price m items -> In x items -> item_price x <= item_price m.
Proof.
  intros (b & a & -> & Hb & Ha) Hin.
  rewrite Forall_forall in Hb, Ha.
  apply in_app_or in Hin as [Hin|[<-|Hin]];
    [specialize (Hb x Hin) | | specialize (Ha x Hin)]; lia.
Qed.

Lemma sort_desc_head x items :
  exists m rest,
    sort_desc (map keyed (x :: items)) = keyed m :: rest
    /\ first_of_max_price m (x :: items).
Proof.
  revert x. induction items as [|y items IH]; intros x.
  - exists x, []. split; [reflexivity|]. exists [], []. repeat split; constructor.
  - destruct (IH y) as (h & rest & Hsort & Hmax).
    cbn [map sort_desc] in Hsort |- *. rewrite Hsort.
    cbn [insert_desc keyed fst].
    destruct (item_price x <? item_price h) eqn:E.
    + apply Z.ltb_lt in E. exists h. eexists. split; [reflexivity|].
      destruct Hmax as (b & a & Eq & Hb & Ha).
      exists (x :: b), a. cbn [app]. rewrite Eq.
      repeat split; [constructor|]; assumption.
    + apply Z.ltb_ge in E. exists x. eexists. split; [reflexivity|].
      exists [], (y :: items). repeat split; [constructor|].
      rewrite Forall_forall. intros z Hz.
      pose proof (first_of_max_price_bound _ _ _ Hmax Hz). lia.
Qed.

(** X11. On a non-empty list of well-formed items the item the
    statistics call the most expensive is the one the top puts first:
    both pick the earliest item of largest price. *)
Theorem most_expensive_is_top_one (rt : runtime) (first : value)
    (rest : list value) :
  forallb well_formed (first :: rest) = true ->
  exists m,
    max_by_price first rest = Ok m
    /\ top_items rt (first :: rest) 1 = Ok [m]
    /\ first_of_max_price m (first :: rest).
Proof.
  intros Hwf.
  destruct (max_by_price_first first rest Hwf) as (m & Hm & Hmax).
  exists m. split; [exact Hm|]. split; [|exact Hmax].
  unfold top_items. rewrite sorted_by_price_desc_well_formed by assumption.
  cbn [bind]. unfold by_price_desc. fold keyed.
  destruct (sort_desc_head first rest) as (h & t & Hsort & Hh).
  rewrite Hsort.
  rewrite (first_of_max_price_unique h m (first :: rest) Hh Hmax).
  reflexivity.
Qed.

Lemma most_expensive_is_top_one_witness :
  let a := shop_item "a" 5 "wrap" in
  let b := shop_item "b" 7 "wrap" in
  let c := shop_item "c" 7 "emote" in
  forallb well_formed [a; b; c] = true
  /\ max_by_price a [b; c] = Ok b
  /\ top_items ascii_runtime [a; b; c] 1 = Ok [b].
Proof.
  intros a b c.
  assert (H : forallb well_formed [a; b; c] = true) by reflexivity.
  split; [exact H|].
  destruct (most_expensive_is_top_one ascii_runtime a [b; c] H)
    as (m & Hm & Htop & _).
  assert (E : max_by_price a [b; c] = Ok b) by reflexivity.
  rewrite E in Hm. injection Hm as <-.
  split; [exact E | exact Htop].
Defined.

(** ** The rarities that occur *)

(** X12. Whatever the name, [get_rarity] returns one of the five
    rarities legendary, epic, rare, uncommon, common, each of which has
    a marker in [RARITY_EMOJI]: the default marker of the lookup is
    never needed and the marker of "mythic" is never shown. *)
Theorem get_rarity_range (rt : runtime) (name : string) :
  In (get_rarity rt name) ["legendary"; "epic"; "rare"; "uncommon"; "common"]
  /\ table_lookup (get_rarity rt name) RARITY_EMOJI
     = Some (rarity_emoji (get_rarity rt name))
  /\ In (rarity_emoji (get_rarity rt name)) ["🟠"; "🟣"; "🔵"; "🟢"; "⚪"]
  /\ rarity_emoji (get_rarity rt name) <> rarity_emoji "mythic".
Proof.
  unfold get_rarity.
  repeat match goal with
         | |- context [if ?c then _ else _] => destruct c
         end;
    cbn; (split; [tauto|]); (split; [reflexivity|]);
    (split; [tauto | discriminate]).
Qed.

(** ** Commands and their buttons *)

Ltac same_outcome_case :=
  cbn [fst snd last_shop_data requests outbox];
  repeat split; try reflexivity; try discriminate;
  intros; rewrite <- ?app_assoc; rewrite ?displayed_app; reflexivity.

(** X14. (Telegram accepting the calls.)  The commands [/shop],
    [/stats], [/top] and [/exchange] end
    like the buttons of the same name: same result or exception, same
    number of requests, same cache, and the same final message and
    keyboard when they do not raise.  [/daily] and [/featured] show
    what their buttons show when a truthy snapshot was fetched, but
    they never store it, whereas the buttons do. *)
Theorem commands_match_buttons (rt : runtime) (origin : nat -> origin_reply)
    (w : world) :
  (same_outcome (shop rt origin) (button_handler rt origin "shop_all") w
   /\ last_shop_data (snd (shop rt origin w))
      = last_shop_data (snd (button_handler rt origin "shop_all" w)))
  /\ (same_outcome (stats_command rt origin)
        (button_handler rt origin "stats") w
      /\ last_shop_data (snd (stats_command rt origin w)) = last_shop_data w
      /\ last_shop_data (snd (button_handler rt origin "stats" w))
         = last_shop_data w)
  /\ (same_outcome (top_command rt origin) (button_handler rt origin "top") w
      /\ last_shop_data (snd (top_command rt origin w)) = last_shop_data w
      /\ last_shop_data (snd (button_handler rt origin "top" w))
         = last_shop_data w)
  /\ same_outcome (exchange_command rt)
       (button_handler rt origin "exchange") w
  /\ (Py.truthy (fetched rt origin w) = true ->
      same_outcome (daily rt origin) (button_handler rt origin "shop_daily") w
      /\ same_outcome (featured rt origin)
           (button_handler rt origin "shop_featured") w
      /\ last_shop_data (snd (daily rt origin w)) = last_shop_data w
      /\ last_shop_data (snd (featured rt origin w)) = last_shop_data w
      /\ last_shop_data (snd (button_handler rt origin "shop_daily" w))
         = fetched rt origin w
      /\ last_shop_data (snd (button_handler rt origin "shop_featured" w))
         = fetched rt origin w).
Proof.
  unfold same_outcome, fetched.
  split; [|split; [|split; [|split]]].
  - unfold_handlers. cbn [String.eqb Ascii.eqb Bool.eqb].
    cbn [fst snd last_shop_data requests outbox].
    split_cases; same_outcome_case.
  - unfold_handlers. cbn [String.eqb Ascii.eqb Bool.eqb].
    cbn [fst snd last_shop_data requests outbox].
    split_cases; same_outcome_case.
  - unfold_handlers. cbn [String.eqb Ascii.eqb Bool.eqb].
    cbn [fst snd last_shop_data requests outbox].
    split_cases; same_outcome_case.
  - unfold_handlers. cbn [String.eqb Ascii.eqb Bool.eqb].
    cbn [fst snd last_shop_data requests outbox].
    split_cases; same_outcome_case.
  - intros Htruthy. unfold_handlers. cbn [String.eqb Ascii.eqb Bool.eqb].
    cbn [fst snd last_shop_data requests outbox].
    rewrite Htruthy.
    split_cases; same_outcome_case.
Qed.

Lemma commands_match_buttons_witness :
  let origin := fun _ : nat => Response 200 (Some new_catalog) in
  Py.truthy (fetched ascii_runtime origin initial_world) = true
  /\ fst (daily ascii_runtime origin initial_world) = Ok tt
  /\ displayed (outbox (snd (daily ascii_runtime origin initial_world))) None
     = displayed
         (outbox (snd (button_handler ascii_runtime origin "shop_daily"
                         initial_world))) None
  /\ last_shop_data (snd (daily ascii_runtime origin initial_world)) = VNone
  /\ last_shop_data
       (snd (button_handler ascii_runtime origin "shop_daily" initial_world))
     = new_catalog.
Proof.
  intros origin.
  assert (H : Py.truthy (fetched ascii_runtime origin initial_world) = true)
    by reflexivity.
  assert (Hok : fst (daily ascii_runtime origin initial_world) = Ok tt)
    by reflexivity.
  destruct (commands_match_buttons ascii_runtime origin initial_world)
    as (_ & _ & _ & _ & Hd).
  destruct (Hd H) as ((_ & _ & Hshown) & _ & Hc & _ & Hb & _).
  split; [exact H|]. split; [exact Hok|]. split; [exact (Hshown Hok None)|].
  split; [exact Hc | exact Hb].
Defined.

(** ** Refresh after [/daily] *)

Lemma daily_command_run rt origin placeholder section w text :
  Py.truthy (fetched rt origin w) = true ->
  format_shop_text rt (fetched rt origin w) section = Ok text ->
  shop_command rt origin placeholder section false w
  = (Ok tt,
     {| last_shop_data := last_shop_data w;
        requests := S (requests w);
        outbox :=
          (outbox w
           ++ [ ReplyText (plain placeholder); OriginRequest;
                EditMessageText
                  (markdown text
                     (shop_rows ++ [back_row "🔙 Назад" "menu"])%list) ])%list |}).
Proof.
  unfold fetched. intros Ht Hf. unfold shop_command.
  unfold io_bind, emit, refuses, accepting, fetch, lift, io_ret.
  cbn [fst snd last_shop_data requests outbox].
  rewrite Ht, Hf. cbn [last_shop_data requests outbox].
  rewrite <- !app_assoc. reflexivity.
Qed.

(** X15. (Telegram accepting the calls.)  [/daily] and [/featured]
    put the refresh button under their
    view without storing the snapshot: started with an empty cache and
    having shown their view, they leave a world in which pressing that
    button makes no request and only answers
    "Сначала загрузите магазин". *)
Theorem refresh_after_daily (rt : runtime) (origin : nat -> origin_reply)
    (w : world) (section placeholder text : string) :
  Py.truthy (last_shop_data w) = false ->
  Py.truthy (fetched rt origin w) = true ->
  format_shop_text rt (fetched rt origin w) section = Ok text ->
  let w1 := snd (shop_command rt origin placeholder section false w) in
  (exists kb,
     displayed (outbox w1) None = Some (markdown text kb)
     /\ In "refresh" (callbacks kb))
  /\ button_handler rt origin "refresh" w1
     = (Ok tt,
        after_calls w1
          [QueryAnswer; EditMessageText (plain "Сначала загрузите магазин")])
  /\ daily rt origin
     = shop_command rt origin "✨ Загружаю ежедневные..." "daily" false
  /\ featured rt origin
     = shop_command rt origin "🌟 Загружаю новинки..." "featured" false.
Proof.
  intros Hcache Hfetched Hformat. cbv zeta.
  rewrite (daily_command_run rt origin placeholder section w text Hfetched Hformat).
  cbn [snd]. split; [|split; [|split; reflexivity]].
  - eexists. split.
    + cbn [outbox]. rewrite displayed_app. reflexivity.
    + cbn. tauto.
  - unfold button_handler. cbn [String.eqb Ascii.eqb Bool.eqb].
    unfold io_bind, emit, refuses, accepting, read_last_shop_data, after_calls.
    cbn [fst snd last_shop_data requests outbox].
    rewrite Hcache. cbn [last_shop_data requests outbox].
    rewrite <- !app_assoc. reflexivity.
Qed.

Lemma refresh_after_daily_witness :
  let origin := fun _ : nat => Response 200 (Some new_catalog) in
  let w1 := snd (daily ascii_runtime origin initial_world) in
  Py.truthy (last_shop_data initial_world) = false
  /\ Py.truthy (fetched ascii_runtime origin initial_world) = true
  /\ holds_ok (format_shop_text ascii_runtime
                 (fetched ascii_runtime origin initial_world) "daily") = true
  /\ button_handler ascii_runtime origin "refresh" w1
     = (Ok tt,
        after_calls w1
          [QueryAnswer; EditMessageText (plain "Сначала загрузите магазин")]).
Proof.
  intros origin w1.
  assert (H1 : Py.truthy (last_shop_data initial_world) = false) by reflexivity.
  assert (H2 : Py.truthy (fetched ascii_runtime origin initial_world) = true)
    by reflexivity.
  split; [exact H1|]. split; [exact H2|]. split; [reflexivity|].
  destruct (format_shop_text ascii_runtime
              (fetched ascii_runtime origin initial_world) "daily")
    as [text|e] eqn:Hf; [|vm_compute in Hf; discriminate Hf].
  exact (proj1 (proj2 (refresh_after_daily ascii_runtime origin initial_world
                         "daily" "✨ Загружаю ежедневные..." text H1 H2 Hf))).
Defined.

(** ** The accuracy of the conversion *)

Lemma rne_div_error a b :
  0 <= a -> 0 < b -> 2 * Z.abs (F64.rne_div a b * b - a) <= b.
Proof.
  intros Ha Hb. unfold F64.rne_div.
  pose proof (Z.div_mod a b ltac:(lia)) as Hdm.
  pose proof (Z.mod_pos_bound a b Hb) as Hr.
  destruct (2 * (a mod b) <? b) eqn:E1; [apply Z.ltb_lt in E1; nia|].
  apply Z.ltb_ge in E1.
  destruct (b <? 2 * (a mod b)) eqn:E2; [apply Z.ltb_lt in E2; nia|].
  apply Z.ltb_ge in E2.
  destruct (Z.even (a / b)); nia.
Qed.

Lemma rne_div_unique a b k :
  0 < b -> 2 * Z.abs (k * b - a) < b -> F64.rne_div a b = k.
Proof.
  intros Hb Hk. unfold F64.rne_div.
  pose proof (Z.div_mod a b ltac:(lia)) as Hdm.
  pose proof (Z.mod_pos_bound a b Hb) as Hr.
  set (q := a / b) in *. set (r := a mod b) in *.
  assert (Hq : k = q \/ k = q + 1) by nia.
  destruct (2 * r <? b) eqn:E1.
  - apply Z.ltb_lt in E1. destruct Hq as [->| ->]; [reflexivity|nia].
  - apply Z.ltb_ge in E1.
    destruct (b <? 2 * r) eqn:E2.
    + apply Z.ltb_lt in E2. destruct Hq as [->| ->]; [nia|reflexivity].
    + apply Z.ltb_ge in E2. destruct Hq as [->| ->]; nia.
Qed.

(** A quotient below [2^K], [K <= 52], rounds to a double with a
    negative exponent, at most half a unit of its last place away. *)
Lemma round_rat_small_error sign num den K :
  0 < num -> 0 < den -> 0 <= K <= 52 -> num < den * 2 ^ K ->
  F64.neg (F64.round_rat sign num den) = sign
  /\ -1074 <= F64.exp (F64.round_rat sign num den) <= K - 53
  /\ 2 * Z.abs (F64.man (F64.round_rat sign num den) * den
                - num * 2 ^ (- F64.exp (F64.round_rat sign num den)))
     <= den.
Proof.
  intros Hn Hd HK Hlt. unfold F64.round_rat.
  replace (num =? 0) with false by (symmetry; apply Z.eqb_neq; lia).
  set (L := F64.ilog2_rat num den).
  assert (HL : L < K).
  { destruct (Z.lt_ge_cases num den) as [Hs|Hb].
    - pose proof (ilog2_rat_small num den Hn Hs). fold L in H. lia.
    - destruct (ilog2_rat_spec num den Hd Hb) as (HL0 & Hlo & _).
      fold L in HL0, Hlo.
      apply (Z.pow_lt_mono_r_iff 2); [lia | lia |]. nia. }
  set (e := Z.max (L - 52) (-1074)).
  assert (He : -1074 <= e <= K - 53) by lia.
  replace (0 <=? e) with false by (symmetry; apply Z.leb_gt; lia).
  cbn [F64.neg F64.exp F64.man].
  split; [reflexivity|]. split; [exact He|].
  apply rne_div_error; [|exact Hd].
  assert (0 < 2 ^ (- e)) by (apply Z.pow_pos_nonneg; lia). nia.
Qed.

(** Integers below [2^53] convert without rounding. *)
Lemma of_int_exact n :
  0 < n < 2 ^ 53 ->
  F64.of_int n
  = Ok (F64.mk false (n * 2 ^ (52 - Z.log2 n)) (Z.log2 n - 52)).
Proof.
  intros [Hn0 Hn].
  assert (Hbig : 2 ^ 53 < 2 ^ 1023) by reflexivity.
  rewrite of_int_finite by lia. f_equal.
  unfold F64.round_rat.
  replace (n =? 0) with false by (symmetry; apply Z.eqb_neq; lia).
  destruct (Z.log2_spec n Hn0) as [Hlo Hhi].
  pose proof (Z.log2_nonneg n) as Ha0.
  assert (Ha : Z.log2 n < 53) by (apply Z.log2_lt_pow2; lia).
  assert (HL : F64.ilog2_rat n 1 = Z.log2 n).
  { unfold F64.ilog2_rat. change (Z.log2 1) with 0.
    replace (0 <=? Z.log2 n) with true by (symmetry; apply Z.leb_le; lia).
    rewrite Z.sub_0_r.
    replace (1 * 2 ^ Z.log2 n <=? n) with true
      by (symmetry; apply Z.leb_le; lia).
    reflexivity. }
  rewrite HL.
  replace (Z.max (Z.log2 n - 52) (-1074)) with (Z.log2 n - 52) by lia.
  assert (Hone : forall k, F64.rne_div k 1 = k).
  { intros k. rewrite <- (Z.mul_1_r k) at 1. apply rne_div_multiple. lia. }
  destruct (0 <=? Z.log2 n - 52) eqn:E.
  - apply Z.leb_le in E. replace (Z.log2 n - 52) with 0 by lia.
    replace (52 - Z.log2 n) with 0 by lia.
    change (1 * 2 ^ 0) with 1. rewrite Hone. f_equal. cbn. lia.
  - replace (- (Z.log2 n - 52)) with (52 - Z.log2 n) by lia.
    now rewrite Hone.
Qed.

Lemma scaled_error digits x :
  F64.exp x < 0 -> 0 <= F64.man x ->
  F64.scaled digits x
  = F64.rne_div (F64.man x * 10 ^ Z.of_nat digits) (2 ^ (- F64.exp x))
  /\ 2 * Z.abs (F64.scaled digits x * 2 ^ (- F64.exp x)
                - F64.man x * 10 ^ Z.of_nat digits)
     <= 2 ^ (- F64.exp x).
Proof.
  intros He Hm. unfold F64.scaled.
  replace (0 <=? F64.exp x) with false by (symmetry; apply Z.leb_gt; lia).
  split; [reflexivity|].
  assert (0 < 10 ^ Z.of_nat digits) by (apply Z.pow_pos_nonneg; lia).
  apply rne_div_error; [nia|]. apply Z.pow_pos_nonneg; lia.
Qed.

Lemma round_rat_man_nonneg sign num den :
  0 <= num -> 0 < den -> 0 <= F64.man (F64.round_rat sign num den).
Proof.
  intros Hn Hd. unfold F64.round_rat.
  destruct (num =? 0); [cbn; lia|].
  cbn [F64.man].
  set (e := Z.max _ _).
  assert (0 < 2 ^ e \/ e < 0).
  { destruct (Z.lt_ge_cases e 0); [now right|left].
    apply Z.pow_pos_nonneg; lia. }
  assert (0 < 2 ^ (- e) \/ 0 < e).
  { destruct (Z.lt_ge_cases 0 e); [now right|left].
    apply Z.pow_pos_nonneg; lia. }
  destruct (0 <=? e) eqn:E.
  - apply Z.leb_le in E.
    pose proof (rne_div_bounds num (den * 2 ^ e) Hn ltac:(nia)) as [Hlo _].
    pose proof (Z.div_pos num (den * 2 ^ e) Hn ltac:(nia)). lia.
  - apply Z.leb_gt in E.
    pose proof (rne_div_bounds (num * 2 ^ (- e)) den ltac:(nia) Hd) as [Hlo _].
    pose proof (Z.div_pos (num * 2 ^ (- e)) den ltac:(nia) Hd). lia.
Qed.

(** The heart of the matter, on integers: the kopecks printed for the
    product differ from [49.9 * n] by at most one half. *)
Lemma kopecks_close n mp A N :
  0 < n < 2 ^ 40 ->
  2 ^ 14 <= A ->
  2 * Z.abs (mp * 2 ^ 54 - n * 8989184856231510 * A) <= 2 ^ 54 ->
  2 * Z.abs (N * A - mp * 100) <= A ->
  Z.abs (10 * N - 499 * n) <= 5.
Proof.
  intros Hn HA H1 H2.
  assert (Hc : 2 ^ 54 = 18014398509481984) by reflexivity.
  assert (H40 : 2 ^ 40 = 1099511627776) by reflexivity.
  assert (H14 : 2 ^ 14 = 16384) by reflexivity.
  rewrite Hc in *. rewrite H40 in *. rewrite H14 in *.
  set (a1 := mp * 18014398509481984 - n * 8989184856231510 * A) in *.
  set (a2 := N * A - mp * 100) in *.
  assert (Hid : (10 * N - 499 * n) * (A * 18014398509481984)
                = 10 * 18014398509481984 * a2 + 1000 * a1 - 16 * (n * A))
    by (subst a1 a2; ring).
  assert (HnA : 0 < n * A <= 1099511627775 * A) by nia.
  set (nA := n * A) in *.
  set (X := 10 * N - 499 * n) in *.
  assert (HX : Z.abs X * (A * 18014398509481984)
               <= 5 * (A * 18014398509481984) + 500 * 18014398509481984
                  + 16 * nA).
  { replace (Z.abs X * (A * 18014398509481984))
      with (Z.abs (X * (A * 18014398509481984)))
      by (rewrite Z.abs_mul; f_equal; apply Z.abs_eq; lia).
    rewrite Hid. lia. }
  destruct (Z.le_gt_cases (Z.abs X) 5) as [Hle|Hgt]; [exact Hle|].
  assert (6 * (A * 18014398509481984) <= Z.abs X * (A * 18014398509481984))
    by nia.
  lia.
Qed.

(** X13. For every amount from 0 up to [2^40] V-Bucks the conversion
    succeeds and the kopecks printed after "~" are within half a
    kopeck of the exact [n * 0.499]: binary floating point never moves
    the printed amount to a wrong cent; only an exact half may fall
    either way. *)
Theorem rubles_within_half_kopeck (n : Z) :
  0 <= n < 2 ^ 40 ->
  exists rubles,
    vbucks_to_rubles (VInt n) = Ok rubles
    /\ Z.abs (10 * F64.scaled 2 rubles - 499 * n) <= 5
    /\ F64.format_fixed 2 rubles
       = Str.of_Z (F64.scaled 2 rubles / 100) ++ "."
         ++ Str.pad_left 2 (Str.of_Z (F64.scaled 2 rubles mod 100)).
Proof.
  intros [Hn0 Hn].
  destruct (Z.eq_dec n 0) as [->|Hne].
  { eexists. split; [reflexivity|]. split; [vm_compute; discriminate|].
    reflexivity. }
  assert (H40 : 2 ^ 40 < 2 ^ 53) by reflexivity.
  unfold vbucks_to_rubles. cbn [Py.as_int bind].
  rewrite of_int_exact by lia. cbn [bind].
  eexists. split; [reflexivity|].
  unfold vbucks_to_rubles_float.
  change vbuck_to_rub with (F64.mk false 8989184856231510 (-54)).
  pose proof (Z.log2_nonneg n) as Ha0.
  assert (Ha : Z.log2 n < 40) by (apply Z.log2_lt_pow2; lia).
  set (a := Z.log2 n) in *.
  unfold F64.mul. cbn [F64.man F64.exp F64.neg xorb].
  replace (0 <=? a - 52 + -54) with false by (symmetry; apply Z.leb_gt; lia).
  replace (- (a - 52 + -54)) with (54 + (52 - a)) by lia.
  set (D := 2 ^ (52 - a)).
  assert (HD : 0 < D) by (apply Z.pow_pos_nonneg; lia).
  assert (Hden : 2 ^ (54 + (52 - a)) = 2 ^ 54 * D)
    by (apply Z.pow_add_r; lia).
  rewrite Hden.
  assert (Hc : 2 ^ 54 = 18014398509481984) by reflexivity.
  assert (H39 : 2 ^ 39 = 549755813888) by reflexivity.
  assert (H40' : 2 ^ 40 = 1099511627776) by reflexivity.
  assert (Hprod : n * D * 8989184856231510 < 2 ^ 54 * D * 2 ^ 39).
  { rewrite Hc, H39. rewrite H40' in Hn. nia. }
  destruct (round_rat_small_error false (n * D * 8989184856231510)
              (2 ^ 54 * D) 39 ltac:(nia) ltac:(nia) ltac:(lia) Hprod)
    as (Hneg & Hexp & Herr).
  pose proof (round_rat_man_nonneg false (n * D * 8989184856231510)
                (2 ^ 54 * D) ltac:(nia) ltac:(nia)) as Hman.
  set (p := F64.round_rat false (n * D * 8989184856231510) (2 ^ 54 * D)) in *.
  destruct (scaled_error 2 p ltac:(lia) Hman) as [_ Hsc].
  change (10 ^ Z.of_nat 2) with 100 in *.
  set (A := 2 ^ (- F64.exp p)) in *.
  assert (HA : 2 ^ 14 <= A) by (apply Z.pow_le_mono_r; lia).
  set (N := F64.scaled 2 p) in *.
  assert (Hclose : Z.abs (10 * N - 499 * n) <= 5).
  { apply (kopecks_close n (F64.man p) A N); [lia | exact HA | | exact Hsc].
    replace (F64.man p * (2 ^ 54 * D) - n * D * 8989184856231510 * A)
      with ((F64.man p * 2 ^ 54 - n * 8989184856231510 * A) * D) in Herr
      by ring.
    rewrite Z.abs_mul, (Z.abs_eq D) in Herr by lia. nia. }
  unfold F64.round. fold N. change (10 ^ Z.of_nat 2) with 100. rewrite Hneg.
  assert (HN : 0 < N < 100 * 2 ^ 39) by (rewrite H39; rewrite H40' in Hn; lia).
  destruct (round_rat_small_error false N 100 39 ltac:(lia) ltac:(lia)
              ltac:(lia) ltac:(lia)) as (Hneg' & Hexp' & Herr').
  pose proof (round_rat_man_nonneg false N 100 ltac:(lia) ltac:(lia)) as Hman'.
  set (r := F64.round_rat false N 100) in *.
  destruct (scaled_error 2 r ltac:(lia) Hman') as [Hsr _].
  change (10 ^ Z.of_nat 2) with 100 in Hsr.
  set (B := 2 ^ (- F64.exp r)) in *.
  assert (HB : 2 ^ 14 <= B) by (apply Z.pow_le_mono_r; lia).
  assert (H14 : 2 ^ 14 = 16384) by reflexivity.
  assert (Hsame : F64.scaled 2 r = N).
  { rewrite Hsr. apply rne_div_unique; [lia|].
    replace (N * B - F64.man r * 100) with (- (F64.man r * 100 - N * B))
      by ring.
    rewrite Z.abs_opp. lia. }
  rewrite Hsame. split; [exact Hclose|].
  unfold F64.format_fixed. rewrite Hsame, Hneg'.
  change (10 ^ Z.of_nat 2) with 100. reflexivity.
Qed.

Lemma rubles_within_half_kopeck_witness :
  (0 <= 1800 < 2 ^ 40)
  /\ exists rubles,
       vbucks_to_rubles (VInt 1800) = Ok rubles
       /\ Z.abs (10 * F64.scaled 2 rubles - 499 * 1800) <= 5.
Proof.
  assert (H : 0 <= 1800 < 2 ^ 40) by (split; [lia | reflexivity]).
  split; [exact H|].
  destruct (rubles_within_half_kopeck 1800 H) as (rubles & Hr & Hclose & _).
  exists rubles. split; [exact Hr | exact Hclose].
Defined.

(** ** Valid catalogs always render *)

Lemma price_lines_defined bullet entries : forall i text,
  Forall printable_entry entries ->
  exists t, price_lines bullet i entries text = Ok t.
Proof.
  induction entries as [|[price ty] entries IH]; intros i text H.
  - eexists. reflexivity.
  - inversion H as [|? ? [(p & Hp & Hrange) _] Hrest]; subst.
    cbn [fst] in Hp. subst price. cbn [price_lines].
    destruct (format_price_finite p Hrange) as [s ->]. cbn [bind].
    apply IH. exact Hrest.
Qed.

Lemma first_type_string entries :
  Forall printable_entry entries -> exists t, first_type entries = VStr t.
Proof.
  intros H. destruct entries as [|[price ty] entries]; cbn [first_type].
  - eexists. reflexivity.
  - inversion H as [|? ? [_ Ht] _]; subst. exact Ht.
Qed.

Lemma render_groups_defined rt bullet g : forall text,
  Forall printable_group g ->
  exists t, render_groups rt bullet g text = Ok t.
Proof.
  unfold render_groups.
  induction g as [|[name entries] g IH]; intros text H.
  - eexists. reflexivity.
  - inversion H as [|? ? [(s & Hs) Hentries] Hrest]; subst.
    cbn [fst snd] in Hs, Hentries. subst name.
    cbn [for_each]. unfold group_header.
    destruct (first_type_string entries Hentries) as [t ->].
    cbn [table_get bind get_rarity_of].
    destruct (price_lines_defined bullet entries 1
                (text ++ (rarity_emoji (get_rarity rt s)
                   ++ match table_lookup t ITEM_TYPE_EMOJI with
                      | Some v => v
                      | None => unknown_emoji
                      end
                   ++ " **" ++ as_text rt (VStr s) ++ "**  _("
                   ++ match table_lookup t ITEM_TYPE_RU with
                      | Some v => v
                      | None => unknown_ru
                      end ++ ")_" ++ nl)) Hentries) as [t' Ht'].
    rewrite Ht'. cbn [bind]. apply IH. exact Hrest.
Qed.

Lemma typed_item_inv item :
  typed_item item = true ->
  valid_item item = true /\ exists t, item_type item = VStr t.
Proof.
  unfold typed_item. rewrite andb_true_iff. intros [Hv Ht].
  split; [exact Hv|]. destruct (item_type item); try discriminate.
  eexists. reflexivity.
Qed.

Lemma printable_item_wf item :
  printable_item item -> well_formed item = true.
Proof.
  intros [H _]. apply typed_item_inv in H as [H _].
  now apply valid_item_inv in H.
Qed.

Lemma printable_items_wf items :
  Forall printable_item items -> forallb well_formed items = true.
Proof.
  intros H. apply forallb_forall. rewrite Forall_forall in H.
  intros x Hx. apply printable_item_wf. now apply H.
Qed.

Lemma grouped_entries_printable items :
  Forall printable_item items -> Forall printable_group (grouped_entries items).
Proof.
  intros H. unfold grouped_entries. apply Forall_map.
  apply Forall_forall. intros name _. split; [eexists; reflexivity|].
  cbn [snd]. unfold entries_of. apply Forall_map.
  apply Forall_forall. intros x Hx. apply filter_In in Hx as [Hx _].
  rewrite Forall_forall in H. destruct (H x Hx) as [Ht Hp].
  apply typed_item_inv in Ht as [Hv Ht].
  apply valid_item_inv in Hv as [_ Hv].
  split; cbn [fst snd]; [eexists; split; [reflexivity | lia] | exact Ht].
Qed.

Lemma format_shop_text_defined rt data section items :
  section_items rt data section = Ok items ->
  Forall printable_item items ->
  holds_ok (format_shop_text rt data section) = true.
Proof.
  intros Hcollect Hitems.
  pose proof (format_shop_text_collects rt data section) as Hview.
  rewrite Hcollect in Hview.
  destruct items as [|x l]; [now rewrite Hview|].
  destruct Hview as [header ->].
  unfold group_with_defaults.
  rewrite group_with_defaults_fold by now apply printable_items_wf.
  rewrite (fold_add_item_grouped (List.length (x :: l))) by lia.
  cbn [bind].
  match goal with
  | |- holds_ok (render_groups rt ?b ?g ?t) = true =>
      destruct (render_groups_defined rt b g t
                  (grouped_entries_printable _ Hitems)) as [out ->]
  end.
  reflexivity.
Qed.

Lemma top_lines_defined rt items : forall i text,
  Forall printable_item items ->
  exists t, top_lines rt i items text = Ok t.
Proof.
  induction items as [|x l IH]; intros i text H.
  - eexists. reflexivity.
  - inversion H as [|? ? Hx Hl]; subst.
    pose proof (printable_item_wf x Hx) as Hwf.
    destruct Hx as [Ht Hp]. apply typed_item_inv in Ht as [Hv [t Ht]].
    apply valid_item_inv in Hv as [_ Hv].
    cbn [top_lines]. unfold top_line.
    rewrite (well_formed_name x Hwf), (well_formed_price x Hwf),
      (well_formed_type x Hwf). cbn [bind]. rewrite Ht.
    cbn [table_get bind get_rarity_of].
    destruct (format_price_finite (item_price x) ltac:(lia)) as [s ->].
    cbn [bind]. apply IH. exact Hl.
Qed.

Lemma search_items_defined rt data query items :
  get_all_items data = Ok items ->
  Forall printable_item items ->
  holds_ok (search_items rt data query) = true.
Proof.
  intros Hdata Hitems. unfold search_items. rewrite Hdata. cbn [bind].
  destruct items as [|x l]; [reflexivity|].
  pose proof (printable_items_wf _ Hitems) as Hwf.
  unfold find_items. rewrite find_items_from by assumption.
  cbn [bind app].
  assert (Hfound : Forall printable_item (filter (matches rt query) (x :: l))).
  { apply Forall_forall. intros y Hy. apply filter_In in Hy as [Hy _].
    rewrite Forall_forall in Hitems. now apply Hitems. }
  destruct (filter (matches rt query) (x :: l)) as [|y found] eqn:E;
    [reflexivity|].
  unfold group_strict.
  rewrite group_strict_fold by now apply printable_items_wf.
  rewrite (fold_add_item_grouped (List.length (y :: found))) by lia.
  cbn [bind].
  match goal with
  | |- holds_ok (render_groups rt ?b ?g ?t) = true =>
      destruct (render_groups_defined rt b g t
                  (grouped_entries_printable _ Hfound)) as [out ->]
  end.
  reflexivity.
Qed.

Lemma get_top_items_defined rt data n items :
  get_all_items data = Ok items ->
  is_snapshot data = true ->
  Forall printable_item items ->
  holds_ok (get_top_items rt data n) = true.
Proof.
  intros Hdata Hsnap Hitems. unfold get_top_items. rewrite Hdata. cbn [bind].
  destruct items as [|x l]; [reflexivity|].
  unfold top_items.
  rewrite sorted_by_price_desc_well_formed by now apply printable_items_wf.
  cbn [bind].
  destruct (snapshot_date_defined rt data Hsnap) as [date ->]. cbn [bind].
  match goal with
  | |- holds_ok (top_lines rt ?i ?its ?t) = true =>
      assert (Hs : Forall printable_item its)
  end.
  { apply Forall_forall. intros y Hy.
    rewrite Forall_forall in Hitems. apply Hitems.
    apply by_price_desc_incl. unfold slice_to in Hy.
    destruct (0 <=? n); now apply in_firstn in Hy. }
  match goal with
  | |- holds_ok (top_lines rt ?i ?its ?t) = true =>
      destruct (top_lines_defined rt its i t Hs) as [out ->]
  end.
  reflexivity.
Qed.

Lemma random_choice_in rt first rest :
  In (random_choice rt first rest) (first :: rest).
Proof.
  unfold random_choice. apply nth_In.
  cbn [List.length]. apply Nat.mod_upper_bound. discriminate.
Qed.

Lemma random_item_message_defined rt data items :
  get_all_items data = Ok items ->
  Forall printable_item items ->
  exists m, random_item_message rt data = Ok m.
Proof.
  intros Hdata Hitems. unfold random_item_message. rewrite Hdata. cbn [bind].
  destruct items as [|x l]; [eexists; reflexivity|].
  rewrite Forall_forall in Hitems.
  pose proof (Hitems _ (random_choice_in rt x l)) as Hc.
  set (c := random_choice rt x l) in *.
  pose proof (printable_item_wf c Hc) as Hwf.
  destruct Hc as [Ht Hp]. apply typed_item_inv in Ht as [Hv [t Ht]].
  apply valid_item_inv in Hv as [_ Hv].
  unfold random_item_text.
  rewrite (well_formed_get_name c _ Hwf), (well_formed_get_price c _ Hwf),
    (well_formed_type c Hwf). cbn [bind]. rewrite Ht.
  cbn [table_get bind get_rarity_of].
  destruct (format_price_finite (item_price c) ltac:(lia)) as [s ->].
  cbn [bind]. eexists. reflexivity.
Qed.

Lemma get_shop_stats_defined rt data items :
  get_all_items data = Ok items ->
  is_snapshot data = true ->
  forallb valid_item items = true ->
  sum_of_prices items < 2 ^ 1023 ->
  holds_ok (get_shop_stats rt data) = true.
Proof.
  intros Hdata Hsnap Hvalid Hsum. unfold get_shop_stats.
  rewrite Hdata. cbn [bind].
  destruct items as [|first rest]; [reflexivity|].
  pose proof (valid_items_well_formed _ Hvalid) as Hwf.
  pose proof (sum_of_prices_nonneg _ Hvalid) as Hsum0.
  destruct (max_by_price_first first rest Hwf) as (m & Hm & Hfirst).
  pose proof (first_of_max_price_in _ _ Hfirst) as Hin.
  destruct (price_le_sum m _ Hvalid Hin) as [Hm0 Hmle].
  assert (Hmwf : well_formed m = true).
  { rewrite forallb_forall in Hwf. now apply Hwf. }
  unfold compute_stats. cbv zeta.
  rewrite (sum_prices_well_formed _ Hwf). cbn [bind].
  rewrite vbucks_to_rubles_finite by lia. cbn [bind].
  rewrite truediv_finite by (cbn [List.length]; lia). cbn [bind].
  rewrite Hm. cbn [bind].
  rewrite (well_formed_price m Hmwf). cbn [bind].
  rewrite vbucks_to_rubles_finite by lia. cbn [bind].
  rewrite (well_formed_name m Hmwf). cbn [bind].
  destruct (snapshot_date_defined rt data Hsnap) as [date ->]. cbn [bind].
  unfold stats_text. cbn [max_price_vb].
  destruct (format_price_finite (item_price m) ltac:(lia)) as [s ->].
  reflexivity.
Qed.

(** X16. A snapshot whose items are all valid, with a string as type
    where one is given, and whose prices sum to a finite double, is
    rendered by every view -- full, daily, featured, statistics, top
    (any [n]), search (any query), random item -- without raising. *)
Theorem valid_catalog_renders (rt : runtime) (v : view_kind) (data : value)
    (items : list value) :
  is_snapshot data = true ->
  get_all_items data = Ok items ->
  forallb typed_item items = true ->
  sum_of_prices items < 2 ^ 1023 ->
  exists text, render rt v data = Ok text.
Proof.
  intros Hsnap Hdata Htyped Hsum.
  assert (Hvalid : forallb valid_item items = true).
  { apply forallb_forall. rewrite forallb_forall in Htyped.
    intros x Hx. pose proof (Htyped x Hx) as Hv.
    now apply typed_item_inv in Hv as [? _]. }
  assert (Hprint : Forall printable_item items).
  { apply Forall_forall. intros x Hx. split.
    - rewrite forallb_forall in Htyped. now apply Htyped.
    - pose proof (price_le_sum x items Hvalid Hx). lia. }
  assert (Hholds : holds_ok (render rt v data) = true).
  { destruct (sections_split rt data items Hsnap Hdata)
      as (dl & fl & Hdl & Hfl & Hal & Heq).
    assert (Hpd : Forall printable_item dl)
      by (rewrite Heq in Hprint; now apply Forall_app in Hprint).
    assert (Hpf : Forall printable_item fl)
      by (rewrite Heq in Hprint; now apply Forall_app in Hprint).
    destruct v; cbn [render section_of].
    - now apply (format_shop_text_defined rt data "all" items).
    - now apply (format_shop_text_defined rt data "daily" dl).
    - now apply (format_shop_text_defined rt data "featured" fl).
    - now apply (get_shop_stats_defined rt data items).
    - now apply (get_top_items_defined rt data n items).
    - now apply (search_items_defined rt data query items).
    - destruct (random_item_message_defined rt data items Hdata Hprint)
        as [m ->]. reflexivity. }
  destruct (render rt v data) as [text|e]; [now exists text | discriminate].
Qed.

Lemma valid_catalog_renders_witness :
  let data := VDict [("daily",
                VList [VDict [("items",
                  VList [ VDict [("name", VStr "Plain"); ("price", VInt 0)];
                          shop_item "Axe" 500 "pickaxe" ])]])] in
  is_snapshot data = true
  /\ forallb typed_item
       [ VDict [("name", VStr "Plain"); ("price", VInt 0)];
         shop_item "Axe" 500 "pickaxe" ] = true
  /\ (exists text, render ascii_runtime StatsView data = Ok text)
  /\ (exists text, render ascii_runtime (SearchView "axe") data = Ok text).
Proof.
  intros data.
  assert (H1 : is_snapshot data = true) by reflexivity.
  assert (H2 : forallb typed_item
                 [ VDict [("name", VStr "Plain"); ("price", VInt 0)];
                   shop_item "Axe" 500 "pickaxe" ] = true) by reflexivity.
  split; [exact H1|]. split; [exact H2|]. split.
  - apply (valid_catalog_renders ascii_runtime StatsView data _ H1 eq_refl H2).
    reflexivity.
  - apply (valid_catalog_renders ascii_runtime (SearchView "axe") data _ H1
             eq_refl H2).
    reflexivity.
Defined.
